(** * The chat widget of the robotics textbook: session store, query client
    and widget controller, embedded in Rocq; and the migration script.

    The sources are embedded function by function:
    - [SessionManager] (services/SessionManager.ts): sessions and the
      conversation cache in [localStorage];
    - [ChatAPI] (services/ChatAPI.ts): the calls of the backend and their
      error classification;
    - [ChatWidget] (ChatWidget.tsx): the React component, as a state machine
      over its hooks and the events its JSX wires up;
    - [Migration] (run-migration.js): the statements taken from the
      migration file and the loop that executes them.

    What the browser provides (JSON text, the reading and printing of
    dates, the printing of numbers, and the string functions that count
    code units or know white space) is an interface, [Host], with the
    ECMAScript facts the proofs use; [localStorage], the clock,
    [Math.random] and [window] are fields of the [World] the code runs
    in. *)

From Stdlib Require Import QArith Qabs Qround Ascii String DecimalString DecimalZ.
From stdpp Require Import gmap strings list pretty countable.

Local Open Scope string_scope.
Local Open Scope list_scope.
Local Open Scope Z_scope.
Set Warnings "-register-all".

(** ** JavaScript data *)

(** A string of the program is its text in UTF-8 (a surrogate code unit
    outside a pair as the three bytes of its number). Equality,
    [startsWith], [includes] and [split] with ASCII arguments, and
    concatenation with ASCII text, the only one the program does, are then
    what they are on the bytes. What counts UTF-16 code units or knows the
    white space of Unicode ([length], [slice], [substring], [trim]) is a
    built-in of the host. *)

(** The data JSON text can denote. A number is the finite double it reads
    as, given by its exact value; an object is its members in text order. *)
Inductive json :=
| JNull
| JBool (b : bool)
| JNum (q : Q)
| JStr (s : string)
| JArr (elems : list json)
| JObj (membs : list (string * json)).

(** A [Date] object is its time value in milliseconds since the epoch;
    [None] is the Invalid Date (time value NaN). *)
Definition Date := option Z.

(** The value of a property of an object built by the program: [undefined],
    a [Date], or plain data. *)
Inductive value :=
| VUndefined
| VDate (d : Date)
| VJson (j : json).

(** An object literal of the program ([ChatSession], [ChatMessage], request
    bodies): its own properties. *)
Abbreviation object := (gmap string value).

(** What a variable of type [ChatSession | null] holds at run time: either
    what [JSON.parse] returned (the cast is erased) or an object literal. *)
Inductive jsval :=
| JsJson (j : json)
| JsObj (o : object).

(** Thrown values: instances of [Error] carry a constructor name and a
    message. *)
Inductive thrown :=
| Error (name message : string)
| NonError.

Inductive completion (A : Type) :=
| Normal (a : A)
| Throw (e : thrown).
Arguments Normal {A} a.
Arguments Throw {A} e.

(** ECMAScript [TimeClip]: a time value is at most 8.64e15 ms from the epoch. *)
Definition time_ok (t : Z) : bool := Z.abs t <=? 8640000000000000.
Definition TimeClip (t : Z) : Date := if time_ok t then Some t else None.

(** ToBoolean *)
Definition json_truthy (j : json) : bool :=
  match j with
  | JNull => false
  | JBool b => b
  | JNum q => negb (Qeq_bool q 0)
  | JStr s => negb (String.eqb s "")
  | JArr _ | JObj _ => true
  end.

Definition truthy (v : value) : bool :=
  match v with
  | VUndefined => false
  | VDate _ => true
  | VJson j => json_truthy j
  end.

Definition jsval_truthy (v : jsval) : bool :=
  match v with
  | JsJson j => json_truthy j
  | JsObj _ => true
  end.

(** ToBoolean of [string | null], the result type of [getItem] and
    [headers.get]. *)
Definition str_truthy (s : option string) : bool :=
  match s with
  | Some s => negb (String.eqb s "")
  | None => false
  end.

(** The members of a parsed object as a map; of two members with one name
    the later one counts. *)
Definition members (fs : list (string * json)) : gmap string json :=
  list_to_map (reverse fs).

(** ** The host *)

(** The built-ins the program calls, with the facts about them that the
    proofs rely on. *)
Class Host := {
  (** [JSON.stringify] on data, and [JSON.parse] ([None]: SyntaxError) *)
  JSON_print : json → string;
  JSON_parse : string → option json;
  (** [Date.prototype.toISOString] on a valid time value *)
  Date_toISOString : Z → string;
  (** [Date.parse]: the time value a text denotes, [None] for NaN *)
  Date_parse : string → Date;
  (** [String(x)] for a number [x] *)
  Number_toString : Q → string;
  (** [s.trim()]; [s.length]; [s.slice(from, to)], which is
      [s.substring(from, to)] when [from <= to] *)
  trim : string → string;
  String_length : string → nat;
  String_slice : nat → nat → string → string;
  (** the code units of a string, each as a string: [s[0]], [s[1]], ... *)
  code_units : string → list string;
  (** the message of the TypeError for reading property [k] of [null] or
      [undefined], for calling a missing method [k], and for an object
      that has no primitive value *)
  cannot_read : string → string;
  not_a_function : string → string;
  cannot_convert : string;
  JSON_parse_print : ∀ j, JSON_parse (JSON_print j) = Some j;
  JSON_parse_empty : JSON_parse "" = None;
  Date_parse_ISOString :
    ∀ t, time_ok t = true → Date_parse (Date_toISOString t) = Some t;
  (** [trim] removes characters at the two ends only *)
  trim_chars :
    ∀ c s, c ∈ list_ascii_of_string (trim s) → c ∈ list_ascii_of_string s;
  trim_empty : trim "" = "";
  String_length_empty : String_length "" = 0%nat;
  String_length_slice : ∀ n s, (String_length (String_slice 0 n s) ≤ n)%nat;
}.

(** [l.join(sep)] on strings *)
Fixpoint join (sep : string) (l : list string) : string :=
  match l with
  | [] => ""
  | [s] => s
  | s :: rest => s +:+ sep +:+ join sep rest
  end.

(** [String(v)] for parsed data [v], as [new Error(v)] applies it; [None]
    when it throws a TypeError. An array joins its elements with commas,
    [null] elements as the empty string. An object is converted by its
    [toString] method: the one it inherits gives ["[object Object]"]; when
    the object has a member of its own named [toString], that member is
    data, not a function, and the object has no primitive value. (Its
    [valueOf], inherited or not, never gives one.) *)
Fixpoint ToString `{Host} (j : json) : option string :=
  match j with
  | JNull => Some "null"
  | JBool b => Some (if b then "true" else "false")
  | JNum q => Some (Number_toString q)
  | JStr s => Some s
  | JArr l =>
      join "," <$>
        mapM (λ x, match x with JNull => Some "" | _ => ToString x end) l
  | JObj fs =>
      match members fs !! "toString" with
      | Some _ => None
      | None => Some "[object Object]"
      end
  end.

(** The own enumerable properties an object spread [{...j}] copies. *)
Definition spread `{Host} (j : json) : object :=
  match j with
  | JObj fs => VJson <$> members fs
  | JArr l => list_to_map (imap (λ i x, (pretty i, VJson x)) l)
  | JStr s =>
      list_to_map (imap (λ i c, (pretty i, VJson (JStr c))) (code_units s))
  | _ => ∅
  end.

(** The time value of [new Date(v)] for parsed data [v], [None] when it is
    NaN, and also when the construction throws: a string is parsed, [null],
    a boolean and a number are taken as a number of milliseconds, an array
    or an object is converted to a string first. *)
Definition Date_of_json `{Host} (j : json) : Date :=
  match j with
  | JNull => Some 0
  | JBool b => Some (if b then 1 else 0)
  | JNum q =>
      if Qle_bool (Qabs q) (inject_Z 8640000000000000)
      then Some (Z.quot (Qnum q) (Zpos (Qden q))) else None
  | JStr s => Date_parse s
  | JArr _ | JObj _ => s ← ToString j; Date_parse s
  end.

(** ** The world the code runs in *)

Record World := {
  has_window : bool;        (** [typeof window !== 'undefined'] *)
  storage_denied : bool;    (** every use of [localStorage] throws *)
  storage_accepts : string → string → bool;
                            (** whether [setItem k v] fits the quota *)
  items : gmap string string;  (** the entries of [localStorage] *)
  clock : Z;                (** the time value [new Date()] reads *)
  entropy : nat → N;        (** the significands [Math.random] will return *)
  drawn : nat;              (** how many of them have been used *)
  pathname : string;        (** [window.location.pathname] *)
  hostname : string;        (** [window.location.hostname] *)
  chatbot_api_url : option string;  (** [window.__CHATBOT_API_URL__] *)
}.

Definition set_items (f : gmap string string → gmap string string) (w : World)
  : World :=
  {| has_window := has_window w; storage_denied := storage_denied w;
     storage_accepts := storage_accepts w; items := f (items w);
     clock := clock w; entropy := entropy w; drawn := drawn w;
     pathname := pathname w; hostname := hostname w;
     chatbot_api_url := chatbot_api_url w |}.

Definition set_drawn (n : nat) (w : World) : World :=
  {| has_window := has_window w; storage_denied := storage_denied w;
     storage_accepts := storage_accepts w; items := items w;
     clock := clock w; entropy := entropy w; drawn := n;
     pathname := pathname w; hostname := hostname w;
     chatbot_api_url := chatbot_api_url w |}.

Definition set_clock (t : Z) (w : World) : World :=
  {| has_window := has_window w; storage_denied := storage_denied w;
     storage_accepts := storage_accepts w; items := items w;
     clock := t; entropy := entropy w; drawn := drawn w;
     pathname := pathname w; hostname := hostname w;
     chatbot_api_url := chatbot_api_url w |}.

(** ** Synchronous code: state and exceptions *)

(** A run of synchronous code from a world: it completes normally or
    throws, and leaves a world behind either way. *)
Definition M (A : Type) : Type := World → completion A * World.

Definition ret {A} (a : A) : M A := λ w, (Normal a, w).
Definition throw {A} (e : thrown) : M A := λ w, (Throw e, w).
Definition bind {A B} (m : M A) (k : A → M B) : M B :=
  λ w, match m w with
       | (Normal a, w') => k a w'
       | (Throw e, w') => (Throw e, w')
       end.
(** [try { body } catch (e) { handler }] *)
Definition try_catch {A} (body : M A) (handler : thrown → M A) : M A :=
  λ w, match body w with
       | (Normal a, w') => (Normal a, w')
       | (Throw e, w') => handler e w'
       end.

Notation "'let*' x ':=' m 'in' k" := (bind m (λ x, k))
  (at level 10, x name, m at level 100, k at level 200, only parsing).
Notation "m ';;' k" := (bind m (λ _, k))
  (at level 100, k at level 200, right associativity, only parsing).

Fixpoint Array_map {A B} (f : A → M B) (l : list A) : M (list B) :=
  match l with
  | [] => ret []
  | x :: l' => let* y := f x in let* ys := Array_map f l' in ret (y :: ys)
  end.

Definition typeof_window_defined : M bool := λ w, (Normal (has_window w), w).
Definition Date_now : M Z := λ w, (Normal (clock w), w).

(** *** [localStorage] *)

Definition SecurityError := Error "SecurityError" "The operation is insecure.".
Definition QuotaExceededError :=
  Error "QuotaExceededError" "The quota has been exceeded.".

Definition localStorage_getItem (k : string) : M (option string) :=
  λ w, if storage_denied w then (Throw SecurityError, w)
       else (Normal (items w !! k), w).

Definition localStorage_setItem (k v : string) : M unit :=
  λ w, if storage_denied w then (Throw SecurityError, w)
       else if storage_accepts w k v then (Normal (), set_items <[k := v]> w)
       else (Throw QuotaExceededError, w).

Definition localStorage_removeItem (k : string) : M unit :=
  λ w, if storage_denied w then (Throw SecurityError, w)
       else (Normal (), set_items (delete k) w).

(** *** [Math.random] and number formatting *)

(** [Math.random()]: a double in [0, 1) with a 53-bit significand. *)
Definition Math_random : M Q :=
  λ w, (Normal (Z.of_N (entropy w (drawn w) mod 2 ^ 53) # 2 ^ 53)%Q,
        set_drawn (S (drawn w)) w).

(** ToInt32, so that [x | 0] is [ToInt32 x]: truncate, then wrap to 32
    bits, signed. *)
Definition ToInt32 (q : Q) : Z :=
  (Z.quot (Qnum q) (Zpos (Qden q)) + 2 ^ 31) mod 2 ^ 32 - 2 ^ 31.

Definition hex_digit (n : Z) : ascii :=
  nth (Z.to_nat n) (list_ascii_of_string "0123456789abcdef") "0"%char.

Fixpoint hex_go (fuel : nat) (n : Z) (acc : string) : string :=
  match fuel with
  | O => acc
  | S fuel' =>
      let acc' := String (hex_digit (n mod 16)) acc in
      if n / 16 =? 0 then acc' else hex_go fuel' (n / 16) acc'
  end.

(** [v.toString(16)] for an integer [v] *)
Definition toString16 (v : Z) : string :=
  if v <? 0 then "-" +:+ hex_go (S (Z.to_nat (Z.log2 (- v)))) (- v) ""
  else hex_go (S (Z.to_nat (Z.log2 v))) v "".

(** ** SessionManager.ts *)

Module SessionManager.
Section code.
Context `{Host}.

Definition SESSION_KEY := "rag_chatbot_session".
Definition HISTORY_KEY := "rag_chatbot_history".
Definition SESSION_EXPIRY_DAYS := 30.

(** The callback of [replace(/[xy]/g, ...)] on one matched character. *)
Definition uuid_char (c : ascii) : M string :=
  let* rnd := Math_random in
  let r := ToInt32 (rnd * 16)%Q in
  let v := if Ascii.eqb c "x" then r else Z.lor (Z.land r 3) 8 in
  ret (toString16 v).

(** [template.replace(/[xy]/g, callback)], left to right *)
Fixpoint replace_xy (template : list ascii) : M string :=
  match template with
  | [] => ret ""
  | c :: rest =>
      if Ascii.eqb c "x" || Ascii.eqb c "y" then
        let* d := uuid_char c in
        let* s := replace_xy rest in
        ret (d +:+ s)
      else
        let* s := replace_xy rest in
        ret (String c s)
  end.

Definition generateUUID : M string :=
  replace_xy (list_ascii_of_string "xxxxxxxx-xxxx-4xxx-yxxx-xxxxxxxxxxxx").

(** The time value of [new Date(v)] *)
Definition time_value (v : value) : Date :=
  match v with
  | VUndefined => None
  | VDate d => d
  | VJson j => Date_of_json j
  end.

(** [a < b] on two [Date]s compares their time values; NaN compares
    false. *)
Definition Date_lt (a b : Date) : bool :=
  match a, b with
  | Some x, Some y => x <? y
  | _, _ => false
  end.

Definition TypeError (message : string) := Error "TypeError" message.
Definition RangeError (message : string) := Error "RangeError" message.
Definition SyntaxError (message : string) := Error "SyntaxError" message.

(** [new Date(v)]: it throws a TypeError when [v] is data that has no
    primitive value (of all data only arrays and objects can lack one). *)
Definition new_Date (v : value) : M Date :=
  match v with
  | VJson j =>
      match ToString j with
      | Some _ => ret (Date_of_json j)
      | None => throw (TypeError cannot_convert)
      end
  | _ => ret (time_value v)
  end.

Definition JSON_parse_or_throw (text : string) : M json :=
  match JSON_parse text with
  | Some j => ret j
  | None => throw (SyntaxError "JSON.parse: unexpected character")
  end.

(** [j.k] for parsed data [j] and a property name [k] of the program (none
    of them is [length] or an index, so only an object has it); [None]
    when reading it throws, which it does on [null]. *)
Definition json_prop (j : json) (k : string) : option value :=
  match j with
  | JNull => None
  | JObj fs => Some (match members fs !! k with
                     | Some x => VJson x
                     | None => VUndefined
                     end)
  | _ => Some VUndefined
  end.

Definition json_get (j : json) (k : string) : M value :=
  match json_prop j k with
  | Some v => ret v
  | None => throw (TypeError (cannot_read k))
  end.

(** [o.k] for an object literal *)
Definition get (o : object) (k : string) : value :=
  match o !! k with
  | Some v => v
  | None => VUndefined
  end.

(** [JSON.stringify] of a property value: [undefined] is left out, a
    [Date] gives its [toJSON()] *)
Definition value_toJSON (v : value) : option json :=
  match v with
  | VUndefined => None
  | VDate (Some t) => Some (JStr (Date_toISOString t))
  | VDate None => Some JNull
  | VJson j => Some j
  end.

Definition object_toJSON (o : object) : json :=
  JObj (map_to_list (omap value_toJSON o)).

Definition JSON_stringify (o : object) : string :=
  JSON_print (object_toJSON o).

Definition JSON_stringify_array (l : list object) : string :=
  JSON_print (JArr (object_toJSON <$> l)).

Definition getSession : M json :=
  let* win := typeof_window_defined in
  if negb win then ret JNull else
  try_catch
    (let* stored := localStorage_getItem SESSION_KEY in
     if negb (str_truthy stored) then ret JNull else
     let* session := JSON_parse_or_throw (default "" stored) in
     let* expires_at := json_get session "expires_at" in
     let* expires := new_Date expires_at in
     let* now := Date_now in
     if Date_lt expires (Some now) then
       localStorage_removeItem SESSION_KEY;;
       localStorage_removeItem HISTORY_KEY;;
       ret JNull
     else ret session)
    (λ _, ret JNull).

Definition getOrCreateBrowserId : M string :=
  let* win := typeof_window_defined in
  if negb win then generateUUID else
  let key := "rag_chatbot_browser_id" in
  try_catch
    (let* browserId := localStorage_getItem key in
     if negb (str_truthy browserId) then
       let* browserId := generateUUID in
       localStorage_setItem key browserId;;
       ret browserId
     else ret (default "" browserId))
    (λ _, generateUUID).

Definition createSession (pageContext : option string) : M object :=
  let* now := Date_now in
  let expiresAt := TimeClip (now + SESSION_EXPIRY_DAYS * 24 * 60 * 60 * 1000) in
  let* id := generateUUID in
  let* anonymous_browser_id := getOrCreateBrowserId in
  let session : object :=
    {[ "id" := VJson (JStr id);
       "anonymous_browser_id" := VJson (JStr anonymous_browser_id);
       "created_at" := VDate (Some now);
       "expires_at" := VDate expiresAt;
       "page_context" := match pageContext with
                         | Some s => VJson (JStr s)
                         | None => VUndefined
                         end ]} in
  let* win := typeof_window_defined in
  (if win then
     try_catch (localStorage_setItem SESSION_KEY (JSON_stringify session))
               (λ _, ret ())
   else ret ());;
  ret session.

(** [v.toISOString()] for a property value [v] read as [name] *)
Definition toISOString (name : string) (v : value) : M string :=
  match v with
  | VUndefined => throw (TypeError (cannot_read "toISOString"))
  | VDate (Some t) => ret (Date_toISOString t)
  | VDate None => throw (RangeError "Invalid time value")
  | VJson JNull => throw (TypeError (cannot_read "toISOString"))
  | VJson _ => throw (TypeError (not_a_function (name +:+ ".toISOString")))
  end.

Definition saveConversation (messages : list object) : M unit :=
  let* win := typeof_window_defined in
  if negb win then ret () else
  try_catch
    (let* serialized :=
       Array_map (λ msg : object,
               let* timestamp := toISOString "msg.timestamp" (get msg "timestamp") in
               ret (<["timestamp" := VJson (JStr timestamp)]> msg))
            messages in
     localStorage_setItem HISTORY_KEY (JSON_stringify_array serialized))
    (λ _, ret ()).

(** The result is [None] for [null]. *)
Definition getConversationHistory : M (option (list object)) :=
  let* win := typeof_window_defined in
  if negb win then ret None else
  try_catch
    (let* stored := localStorage_getItem HISTORY_KEY in
     if negb (str_truthy stored) then ret None else
     let* messages := JSON_parse_or_throw (default "" stored) in
     match messages with
     | JArr elems =>
         let* l :=
           Array_map (λ msg : json,
                   let* timestamp := json_get msg "timestamp" in
                   let* date := new_Date timestamp in
                   ret (<["timestamp" := VDate date]> (spread msg)))
                elems in
         ret (Some l)
     | JNull => throw (TypeError (cannot_read "map"))
     | _ => throw (TypeError (not_a_function "messages.map"))
     end)
    (λ _, ret None).

Definition clearConversation : M unit :=
  let* win := typeof_window_defined in
  if negb win then ret () else
  try_catch (localStorage_removeItem HISTORY_KEY) (λ _, ret ()).

Definition deleteSession : M unit :=
  let* win := typeof_window_defined in
  if negb win then ret () else
  try_catch
    (localStorage_removeItem SESSION_KEY;;
     localStorage_removeItem HISTORY_KEY)
    (λ _, ret ()).

End code.
End SessionManager.


(** ** ChatAPI.ts *)

(** *** Asynchronous code

    An [async] function runs until it awaits a [fetch]; it continues from
    what the network answers. *)

Record Request := {
  url : string;
  method : string;
  content_type : option string;
  body : option string;
}.

(** What [fetch] resolves to: status, the [Retry-After] header as
    [headers.get] gives it, and the body text. *)
Record Response := {
  status : Z;
  retry_after : option string;
  body_text : string;
}.

(** The promise [fetch] returned resolves to a response or rejects. *)
Inductive fetched :=
| Responded (r : Response)
| Rejected (e : thrown).

Inductive Async (A : Type) :=
| Done (r : completion A)
| Await (req : Request) (k : fetched → Async A).
Arguments Done {A} r.
Arguments Await {A} req k.

(** The requests an asynchronous call issues when the network answers
    with [net], one answer per request. *)
Fixpoint requests {A} (a : Async A) (net : list fetched) : list Request :=
  match a with
  | Done _ => []
  | Await req k =>
      req :: match net with
             | [] => []
             | out :: net' => requests (k out) net'
             end
  end.

Module ChatAPI.
Section code.
Context `{Host}.
Import SessionManager.

(** [response.ok] *)
Definition ok (response : Response) : bool :=
  (200 <=? status response) && (status response <=? 299).

(** [await response.json()] *)
Definition Response_json (response : Response) : completion json :=
  match JSON_parse (body_text response) with
  | Some j => Normal j
  | None => Throw (SyntaxError "JSON.parse: unexpected character")
  end.

(** What [throw new Error(v)] throws for parsed data [v]: the error,
    whose message is [String(v)], or the TypeError of the conversion. *)
Definition new_Error (j : json) : thrown :=
  match ToString j with
  | Some message => Error "Error" message
  | None => TypeError cannot_convert
  end.

(** Lines 33 to 41 of [query], the same as lines 63 to 71 of
    [querySelection]: what the call makes of the response. *)
Definition receive (response : Response) : completion json :=
  if negb (ok response) then
    if status response =? 429 then
      let retryAfter :=
        if str_truthy (retry_after response)
        then default "" (retry_after response) else "60" in
      Throw (Error "Error" ("Rate limited. Please try again in " +:+ retryAfter
                            +:+ " seconds."))
    else
      let error :=
        match Response_json response with
        | Normal j => j
        | Throw _ => JObj []
        end in
      match json_prop error "detail" with
      | None => Throw (TypeError (cannot_read "detail"))
      | Some (VJson detail) =>
          if json_truthy detail then Throw (new_Error detail)
          else Throw (Error "Error" ("API error: " +:+ pretty (status response)))
      | Some _ =>
          Throw (Error "Error" ("API error: " +:+ pretty (status response)))
      end
  else Response_json response.

Definition after_fetch (out : fetched) : Async json :=
  match out with
  | Responded response => Done (receive response)
  | Rejected e => Done (Throw e)
  end.

Definition post (url : string) (payload : object) : Request :=
  {| url := url; method := "POST"; content_type := Some "application/json";
     body := Some (JSON_stringify payload) |}.

Definition query (baseUrl question : string) (sessionId pageContext : value)
  : Async json :=
  Await (post (baseUrl +:+ "/api/v1/chat/query")
              {[ "question" := VJson (JStr question);
                 "session_id" := sessionId;
                 "page_context" := pageContext ]})
        after_fetch.

Definition querySelection (baseUrl selectedText question : string)
    (sessionId : value) (chapter : string) (section : option string)
  : Async json :=
  Await (post (baseUrl +:+ "/api/v1/chat/selection")
              {[ "selected_text" := VJson (JStr selectedText);
                 "question" := VJson (JStr question);
                 "session_id" := sessionId;
                 "chapter" := VJson (JStr chapter);
                 "section" := VJson (JStr (if str_truthy section
                                           then default "" section else "")) ]})
        after_fetch.

Definition health (baseUrl : string) : Async json :=
  Await {| url := baseUrl +:+ "/api/v1/health"; method := "GET";
           content_type := None; body := None |}
        (λ out, match out with
                | Responded response =>
                    if negb (ok response)
                    then Done (Throw (Error "Error"
                                 ("Health check failed: " +:+ pretty (status response))))
                    else Done (Response_json response)
                | Rejected e => Done (Throw e)
                end).

End code.
End ChatAPI.


(** ** ChatWidget.tsx *)

(** *** Strings *)

(** [s.split(sep)] for a separator that is one ASCII character *)
Fixpoint split (sep : ascii) (s : string) : list string :=
  match s with
  | "" => [""]
  | String c rest =>
      if Ascii.eqb c sep then "" :: split sep rest
      else match split sep rest with
           | piece :: pieces => String c piece :: pieces
           | [] => [String c ""]
           end
  end.

Definition nonempty (s : string) : bool := negb (String.eqb s "").

Module ChatWidget.
Section code.
Context `{Host}.
Import SessionManager.

Definition DEV_API_URL := "http://localhost:8000".
Definition PROD_API_URL :=
  "https://rag-chatbot-backend-production-5e31.up.railway.app".

Definition API_URL (w : World) : string :=
  if has_window w then
    if str_truthy (chatbot_api_url w) then default "" (chatbot_api_url w)
    else if String.eqb (hostname w) "localhost" then DEV_API_URL
         else PROD_API_URL
  else DEV_API_URL.

(** The component's state: its [useState] and [useRef] cells. A [ChatAPI]
    is its [baseUrl]; [session] is [JsJson JNull] for [null]. *)
Record Hooks := {
  messages : list object;
  isLoading : bool;
  isOpen : bool;
  selectedText : string;
  session : jsval;
  inputValue : string;
  showMenu : bool;
  showSources : gmap string bool;
  chatApiRef : option string;
  sessionManagerRef : bool;
}.

Definition setMessages (f : list object → list object) (h : Hooks) : Hooks :=
  {| messages := f (messages h); isLoading := isLoading h; isOpen := isOpen h;
     selectedText := selectedText h; session := session h;
     inputValue := inputValue h; showMenu := showMenu h;
     showSources := showSources h; chatApiRef := chatApiRef h;
     sessionManagerRef := sessionManagerRef h |}.

Definition setIsLoading (b : bool) (h : Hooks) : Hooks :=
  {| messages := messages h; isLoading := b; isOpen := isOpen h;
     selectedText := selectedText h; session := session h;
     inputValue := inputValue h; showMenu := showMenu h;
     showSources := showSources h; chatApiRef := chatApiRef h;
     sessionManagerRef := sessionManagerRef h |}.

Definition setIsOpen (b : bool) (h : Hooks) : Hooks :=
  {| messages := messages h; isLoading := isLoading h; isOpen := b;
     selectedText := selectedText h; session := session h;
     inputValue := inputValue h; showMenu := showMenu h;
     showSources := showSources h; chatApiRef := chatApiRef h;
     sessionManagerRef := sessionManagerRef h |}.

Definition setSelectedText (s : string) (h : Hooks) : Hooks :=
  {| messages := messages h; isLoading := isLoading h; isOpen := isOpen h;
     selectedText := s; session := session h;
     inputValue := inputValue h; showMenu := showMenu h;
     showSources := showSources h; chatApiRef := chatApiRef h;
     sessionManagerRef := sessionManagerRef h |}.

Definition setSession (v : jsval) (h : Hooks) : Hooks :=
  {| messages := messages h; isLoading := isLoading h; isOpen := isOpen h;
     selectedText := selectedText h; session := v;
     inputValue := inputValue h; showMenu := showMenu h;
     showSources := showSources h; chatApiRef := chatApiRef h;
     sessionManagerRef := sessionManagerRef h |}.

Definition setInputValue (s : string) (h : Hooks) : Hooks :=
  {| messages := messages h; isLoading := isLoading h; isOpen := isOpen h;
     selectedText := selectedText h; session := session h;
     inputValue := s; showMenu := showMenu h;
     showSources := showSources h; chatApiRef := chatApiRef h;
     sessionManagerRef := sessionManagerRef h |}.

Definition setShowMenu (b : bool) (h : Hooks) : Hooks :=
  {| messages := messages h; isLoading := isLoading h; isOpen := isOpen h;
     selectedText := selectedText h; session := session h;
     inputValue := inputValue h; showMenu := b;
     showSources := showSources h; chatApiRef := chatApiRef h;
     sessionManagerRef := sessionManagerRef h |}.

Definition setShowSources (f : gmap string bool → gmap string bool) (h : Hooks)
  : Hooks :=
  {| messages := messages h; isLoading := isLoading h; isOpen := isOpen h;
     selectedText := selectedText h; session := session h;
     inputValue := inputValue h; showMenu := showMenu h;
     showSources := f (showSources h); chatApiRef := chatApiRef h;
     sessionManagerRef := sessionManagerRef h |}.

Definition setRefs (api : option string) (manager : bool) (h : Hooks) : Hooks :=
  {| messages := messages h; isLoading := isLoading h; isOpen := isOpen h;
     selectedText := selectedText h; session := session h;
     inputValue := inputValue h; showMenu := showMenu h;
     showSources := showSources h; chatApiRef := api;
     sessionManagerRef := manager |}.

(** A call of [handleSend] suspended at its [await]: the variables its
    closure captured that the rest of the call reads, and the rest of the
    pending API call. *)
Record Frame := {
  f_messages : list object;
  f_userMessage : object;
  f_resume : fetched → Async json;
}.

(** The page: the world, the component's state, the calls of [handleSend]
    that are suspended, and every request [fetch] was given so far. *)
Record App := {
  world : World;
  hooks : Hooks;
  suspended : list Frame;
  sent : list Request;
}.

Definition on_hooks (f : Hooks → Hooks) (a : App) : App :=
  {| world := world a; hooks := f (hooks a); suspended := suspended a;
     sent := sent a |}.

Definition on_world (f : World → World) (a : App) : App :=
  {| world := f (world a); hooks := hooks a; suspended := suspended a;
     sent := sent a |}.

Definition with_world (w : World) (a : App) : App := on_world (λ _, w) a.

Definition on_suspended (f : list Frame → list Frame) (a : App) : App :=
  {| world := world a; hooks := hooks a; suspended := f (suspended a);
     sent := sent a |}.

Definition fetch (req : Request) (a : App) : App :=
  {| world := world a; hooks := hooks a; suspended := suspended a;
     sent := sent a ++ [req] |}.

Definition initial_hooks : Hooks :=
  {| messages := []; isLoading := false; isOpen := false; selectedText := "";
     session := JsJson JNull; inputValue := ""; showMenu := false;
     showSources := ∅; chatApiRef := None; sessionManagerRef := false |}.

Definition initial (w : World) : App :=
  {| world := w; hooks := initial_hooks; suspended := []; sent := [] |}.

(** [session.id] *)
Definition session_prop (s : jsval) (k : string) : option value :=
  match s with
  | JsJson j => json_prop j k
  | JsObj o => Some (get o k)
  end.

(** The first effect: lines 37 to 55. *)
Definition mount (a : App) : App :=
  let a := on_hooks (setRefs (Some (API_URL (world a))) true) a in
  match getSession (world a) with
  | (Throw _, w) => with_world w a
  | (Normal existingSession, w) =>
      let created :=
        if json_truthy existingSession
        then (Normal (JsJson existingSession), w)
        else match createSession None w with
             | (Normal s, w') => (Normal (JsObj s), w')
             | (Throw e, w') => (Throw e, w')
             end in
      match created with
      | (Throw _, w) => with_world w a
      | (Normal s, w) =>
          let a := on_hooks (setSession s) a in
          match getConversationHistory w with
          | (Normal (Some savedMessages), w) =>
              with_world w (on_hooks (setMessages (λ _, savedMessages)) a)
          | (_, w) => with_world w a
          end
      end
  end.

(** [handleSelection], the [mouseup] listener; [selection] is
    [window.getSelection()?.toString()]. *)
Definition handleSelection (selection : option string) (a : App) : App :=
  match selection with
  | None => a
  | Some s =>
      let selected := trim s in
      if nonempty selected && (10 <? String_length selected)%nat
      then on_hooks (setSelectedText selected) a
      else a
  end.

(** The [catch] branch of [handleSend], lines 94 to 96. *)
Definition handleSend_catch (err : thrown) (a : App) : App :=
  let errorMsg := match err with
                  | Error _ message => message
                  | NonError => "Failed to get response"
                  end in
  let now := clock (world a) in
  on_hooks (setMessages (λ prev, prev ++ [
    ({[ "id" := VJson (JStr ("error-" +:+ pretty now));
        "type" := VJson (JStr "error");
        "content" := VJson (JStr errorMsg);
        "timestamp" := VDate (Some now) ]} : object) ])) a.

(** [handleSend] from the point where the API call has settled with [r]:
    lines 83 to 99. *)
Definition handleSend_resume (fr : Frame) (r : completion json) (a : App)
  : App :=
  let a :=
    match r with
    | Throw err => handleSend_catch err a
    | Normal response =>
        match json_prop response "message_id", json_prop response "answer",
              json_prop response "sources", json_prop response "confidence"
        with
        | Some message_id, Some answer, Some sources, Some confidence =>
            let assistantMessage : object :=
              {[ "id" := message_id;
                 "type" := VJson (JStr "assistant");
                 "content" := answer;
                 "sources" := sources;
                 "confidence" := confidence;
                 "timestamp" := VDate (Some (clock (world a))) ]} in
            let a := on_hooks (setMessages (λ prev, prev ++ [assistantMessage])) a in
            let saved :=
              if sessionManagerRef (hooks a)
              then saveConversation
                     (f_messages fr ++ [f_userMessage fr; assistantMessage])
                     (world a)
              else (Normal (), world a) in
            match saved with
            | (Normal _, w) => on_hooks (setSelectedText "") (with_world w a)
            | (Throw err, w) => handleSend_catch err (with_world w a)
            end
        | _, _, _, _ =>
            handleSend_catch (TypeError (cannot_read "message_id")) a
        end
    end in
  on_hooks (setIsLoading false) a.

(** [handleSend], lines 61 to 100, up to its [await]. *)
Definition handleSend (question : string) (useSelection : bool) (a : App)
  : App :=
  let h := hooks a in
  if negb (nonempty (trim question)) || negb (jsval_truthy (session h))
     || negb (bool_decide (is_Some (chatApiRef h)))
  then a else
  let baseUrl := default "" (chatApiRef h) in
  let a := on_hooks (setInputValue "") a in
  let now := clock (world a) in
  let userMessage : object :=
    {[ "id" := VJson (JStr (pretty now));
       "type" := VJson (JStr "user");
       "content" := VJson (JStr question);
       "timestamp" := VDate (Some now) ]} in
  let a := on_hooks (setMessages (λ prev, prev ++ [userMessage])) a in
  let a := on_hooks (setIsLoading true) a in
  let fr := {| f_messages := messages h; f_userMessage := userMessage;
               f_resume := λ _, Done (Throw NonError) |} in
  match session_prop (session h) "id" with
  | None => handleSend_resume fr (Throw (TypeError (cannot_read "id"))) a
  | Some sessionId =>
      let call :=
        if useSelection && nonempty (selectedText h) then
          let chapter :=
            match split "/" (pathname (world a)) !! 2%nat with
            | Some piece => if nonempty piece then piece else "Unknown"
            | None => "Unknown"
            end in
          ChatAPI.querySelection baseUrl (selectedText h) question sessionId
                                 chapter None
        else
          ChatAPI.query baseUrl question sessionId
                        (VJson (JStr (pathname (world a)))) in
      match call with
      | Done r => handleSend_resume fr r a
      | Await req k =>
          on_suspended (λ l, l ++ [{| f_messages := messages h;
                                      f_userMessage := userMessage;
                                      f_resume := k |}])
                       (fetch req a)
      end
  end.

(** The fetch the [i]-th suspended call waits for settles with [out]. *)
Definition settle (i : nat) (out : fetched) (a : App) : App :=
  match suspended a !! i with
  | None => a
  | Some fr =>
      match f_resume fr out with
      | Await req k =>
          on_suspended <[i := {| f_messages := f_messages fr;
                                 f_userMessage := f_userMessage fr;
                                 f_resume := k |}]>
                       (fetch req a)
      | Done r => handleSend_resume fr r (on_suspended (delete i) a)
      end
  end.

(** [handleClearHistory]; [confirmed] is what [window.confirm] returns. *)
Definition handleClearHistory (confirmed : bool) (a : App) : App :=
  if confirmed then
    let a := on_hooks (setMessages (λ _, [])) a in
    let a := if sessionManagerRef (hooks a)
             then with_world (clearConversation (world a)).2 a else a in
    on_hooks (setShowMenu false) a
  else a.

Definition handleNewSession (confirmed : bool) (a : App) : App :=
  if confirmed then
    let a :=
      if sessionManagerRef (hooks a) then
        match createSession None (world a) with
        | (Normal newSession, w) =>
            on_hooks (setSession (JsObj newSession)) (with_world w a)
        | (Throw _, w) => with_world w a
        end
      else a in
    let a := on_hooks (setMessages (λ _, [])) a in
    let a := on_hooks (setSelectedText "") a in
    on_hooks (setShowMenu false) a
  else a.

Definition toggleSources (id : string) (a : App) : App :=
  on_hooks (setShowSources (λ prev,
    <[id := negb (default false (prev !! id))]> prev)) a.

(** What can happen to the page: the user acts on an element the JSX
    renders, a pending fetch settles, or time passes. *)
Inductive Event :=
| Mount
| ClickOpen
| ClickClose
| ChangeInput (text : string)
| KeyDown (key : string) (shiftKey : bool)
| ClickSend
| ClickMenu
| ClickClearHistory (confirmed : bool)
| ClickNewSession (confirmed : bool)
| ClickSources (id : string)
| MouseUp (selection : option string)
| Settle (i : nat) (out : fetched)
| Tick (t : Z).

(** An event reaches a handler only through an element that is rendered
    and not disabled: the panel exists while [isOpen], the menu items while
    [showMenu], the textarea is disabled while [isLoading], the send button
    while [isLoading || !inputValue.trim()]. *)
Definition dispatch (e : Event) (a : App) : App :=
  let h := hooks a in
  match e with
  | Mount => if sessionManagerRef h then a else mount a
  | ClickOpen => if isOpen h then a else on_hooks (setIsOpen true) a
  | ClickClose => if isOpen h then on_hooks (setIsOpen false) a else a
  | ChangeInput text =>
      if isOpen h && negb (isLoading h)
      then on_hooks (setInputValue (String_slice 0 500 text)) a else a
  | KeyDown key shiftKey =>
      if isOpen h && negb (isLoading h) then
        if String.eqb key "Enter" && negb shiftKey
        then handleSend (inputValue h) false a else a
      else a
  | ClickSend =>
      if isOpen h && negb (isLoading h || negb (nonempty (trim (inputValue h))))
      then handleSend (inputValue h) false a else a
  | ClickMenu =>
      if isOpen h then on_hooks (setShowMenu (negb (showMenu h))) a else a
  | ClickClearHistory confirmed =>
      if isOpen h && showMenu h then handleClearHistory confirmed a else a
  | ClickNewSession confirmed =>
      if isOpen h && showMenu h then handleNewSession confirmed a else a
  | ClickSources id => if isOpen h then toggleSources id a else a
  | MouseUp selection =>
      if sessionManagerRef h then handleSelection selection a else a
  | Settle i out => settle i out a
  | Tick t => on_world (set_clock t) a
  end.

(** The states the page can be in: from the first render on, after any
    events. *)
Inductive reachable : App → Prop :=
| reachable_initial w : reachable (initial w)
| reachable_dispatch e a : reachable a → reachable (dispatch e a).

End code.
End ChatWidget.

(** ** run-migration.js *)

Module Migration.
Section text.
Context `{Host}.

(** [s.startsWith(p)] and [s.includes(p)] *)
Definition startsWith (s p : string) : bool := String.prefix p s.

Fixpoint includes (s p : string) : bool :=
  String.prefix p s ||
  match s with
  | "" => false
  | String _ rest => includes rest p
  end.

(** Lines 25 to 28: the statements the script takes from the text of the
    migration file. *)
Definition statements (migrationSQL : string) : list string :=
  List.filter (λ s, (0 <? String_length s)%nat && negb (startsWith s "--"))
              (map trim (split ";" migrationSQL)).

End text.

(** What [sql.unsafe] and [fs.readFileSync] throw: an error with a
    [message], and with a [code] when it has one. *)
Record Failure := { code : option string; message : string }.

(** A line of console output, by the arguments of the call that wrote it. *)
Inductive line :=
| console_log (text : string)
| console_log2 (label text : string)
| console_error (text : string)
| console_error2 (label : string) (e : Failure).

Section code.
(** The database, and what executing one statement does to it. *)
Context `{Host} {DB : Type} (unsafe : string → DB → option Failure * DB).

(** Line 36 *)
Definition already_exists (error : Failure) : bool :=
  bool_decide (code error = Some "42P07")
  || includes (message error) "already exists".

(** The loop of lines 30 to 42; the result holds the error it throws. *)
Fixpoint run_statements (l : list string) (db : DB)
  : option Failure * DB * list line :=
  match l with
  | [] => (None, db, [])
  | statement :: rest =>
      let shown := String_slice 0 50 statement +:+ "..." in
      match unsafe statement db with
      | (None, db') =>
          let '(thrown, db'', out) := run_statements rest db' in
          (thrown, db'', console_log2 "✅ Executed:" shown :: out)
      | (Some error, db') =>
          if already_exists error then
            let '(thrown, db'', out) := run_statements rest db' in
            (thrown, db'', console_log2 "⚠️  Already exists:" shown :: out)
          else (Some error, db', [])
      end
  end.

(** A run of the script: the code it passes to [process.exit], if it
    does; the database it leaves; what it printed; and whether it closed
    the connection with [sql.end()]. *)
Record Run := {
  exit_code : option Z;
  database : DB;
  console : list line;
  ended : bool;
}.

(** [runMigration]; [file] is what [fs.readFileSync] returns or throws. *)
Definition runMigration (DATABASE_URL : option string)
    (file : string + Failure) (db : DB) : Run :=
  if negb (str_truthy DATABASE_URL) then
    {| exit_code := Some 1; database := db;
       console :=
         [console_error "❌ DATABASE_URL environment variable is required"];
       ended := false |}
  else
    match file with
    | inr error =>
        {| exit_code := Some 1; database := db;
           console := [console_log "🔗 Connecting to database...";
                       console_error2 "❌ Migration failed:" error];
           ended := false |}
    | inl migrationSQL =>
        let '(thrown, db', out) :=
          run_statements (statements migrationSQL) db in
        match thrown with
        | Some error =>
            {| exit_code := Some 1; database := db';
               console := [console_log "🔗 Connecting to database...";
                           console_log "📝 Running migration..."]
                          ++ out
                          ++ [console_error2 "❌ Migration failed:" error];
               ended := false |}
        | None =>
            {| exit_code := None; database := db';
               console := [console_log "🔗 Connecting to database...";
                           console_log "📝 Running migration..."]
                          ++ out
                          ++ [console_log "✅ Migration completed successfully!"];
               ended := true |}
        end
    end.

End code.
End Migration.

(** ** A reference host

    One host that meets the interface, on which the code can be run: JSON
    text is the binary numeral of the datum's code, a time stamp prints as
    its decimal numeral, and strings are counted and trimmed as ASCII
    text. *)

Module Reference.

Definition leaf : Type := bool + (Z * positive) + string.

Fixpoint json_to_tree (j : json) : gen_tree leaf :=
  match j with
  | JNull => GenNode 0 []
  | JBool b => GenLeaf (inl (inl b))
  | JNum q => GenLeaf (inl (inr (Qnum q, Qden q)))
  | JStr s => GenLeaf (inr s)
  | JArr l => GenNode 1 (json_to_tree <$> l)
  | JObj fs =>
      GenNode 2 ((λ kv, GenNode 3 [GenLeaf (inr kv.1); json_to_tree kv.2]) <$> fs)
  end.

Fixpoint tree_to_json (t : gen_tree leaf) : option json :=
  match t with
  | GenLeaf (inl (inl b)) => Some (JBool b)
  | GenLeaf (inl (inr (n, d))) => Some (JNum (n # d))
  | GenLeaf (inr s) => Some (JStr s)
  | GenNode 0 _ => Some JNull
  | GenNode 1 ts => JArr <$> mapM tree_to_json ts
  | GenNode 2 ts =>
      JObj <$> mapM (λ t, match t with
                          | GenNode 3 [GenLeaf (inr k); v] =>
                              pair k <$> tree_to_json v
                          | _ => None
                          end) ts
  | GenNode _ _ => None
  end.

Fixpoint bits_of_pos (p : positive) : string :=
  match p with
  | xH => "1"
  | xO p' => String "0" (bits_of_pos p')
  | xI p' => String "1" (bits_of_pos p')
  end.

Fixpoint pos_of_bits (s : string) : option positive :=
  match s with
  | "" => None
  | String c "" => if Ascii.eqb c "1" then Some xH else None
  | String c rest =>
      if Ascii.eqb c "1" then xI <$> pos_of_bits rest
      else if Ascii.eqb c "0" then xO <$> pos_of_bits rest
      else None
  end.

Definition print (j : json) : string := bits_of_pos (encode (json_to_tree j)).
Definition parse (s : string) : option json :=
  p ← pos_of_bits s; t ← decode p; tree_to_json t.

Definition toISOString (t : Z) : string := NilEmpty.string_of_int (Z.to_int t).

Definition date_parse (s : string) : Date :=
  d ← NilEmpty.int_of_string s; TimeClip (Z.of_int d).

(** Strings are read as ASCII text, one byte a character. *)
Definition is_space (c : ascii) : bool :=
  let n := nat_of_ascii c in
  ((9 <=? n) && (n <=? 13) || (n =? 32))%nat.

Fixpoint trim_start (s : string) : string :=
  match s with
  | "" => ""
  | String c rest => if is_space c then trim_start rest else s
  end.

Definition trim_ends (s : string) : string :=
  String.rev (trim_start (String.rev (trim_start s))).

Definition bytes (s : string) : list string :=
  (λ c, String c "") <$> list_ascii_of_string s.

Definition number_to_string (q : Q) : string :=
  pretty (Qnum q) +:+ "/" +:+ pretty (Zpos (Qden q)).

Lemma tree_of_json (j : json) : tree_to_json (json_to_tree j) = Some j.
Proof.
  revert j. fix IH 1. intros [ | b | [n d] | s | l | fs]; try reflexivity.
  - change (JArr <$> mapM tree_to_json (json_to_tree <$> l) = Some (JArr l)).
    assert (mapM tree_to_json (json_to_tree <$> l) = Some l) as ->; [|done].
    induction l as [|x l IHl]; [done|].
    rewrite fmap_cons. cbn [mapM]. rewrite IH. simpl. by rewrite IHl.
  - set (g := λ t : gen_tree leaf,
                match t with
                | GenNode 3 [GenLeaf (inr k); v] => pair k <$> tree_to_json v
                | _ => None
                end).
    set (f := λ kv : string * json,
                GenNode 3 [GenLeaf (inr kv.1 : leaf); json_to_tree kv.2]).
    change (JObj <$> mapM g (f <$> fs) = Some (JObj fs)).
    assert (mapM g (f <$> fs) = Some fs) as ->; [|done].
    induction fs as [|[k v] fs IHfs]; [done|].
    rewrite fmap_cons. cbn [mapM].
    assert (g (f (k, v)) = Some (k, v)) as ->.
    { unfold g, f. cbn [fst snd]. by rewrite IH. }
    cbn [mbind option_bind]. fold g f. by rewrite IHfs.
Qed.

Lemma bits_of_pos_nonempty p : bits_of_pos p ≠ "".
Proof. by destruct p. Qed.

Lemma pos_of_bits_of_pos p : pos_of_bits (bits_of_pos p) = Some p.
Proof.
  induction p as [p IH|p IH|]; [| |done].
  - cbn [bits_of_pos]. pose proof (bits_of_pos_nonempty p) as Hne.
    destruct (bits_of_pos p) as [|c r] eqn:E; [done|].
    change (xI <$> pos_of_bits (String c r) = Some p~1)%positive.
    by rewrite IH.
  - cbn [bits_of_pos]. pose proof (bits_of_pos_nonempty p) as Hne.
    destruct (bits_of_pos p) as [|c r] eqn:E; [done|].
    change (xO <$> pos_of_bits (String c r) = Some p~0)%positive.
    by rewrite IH.
Qed.

Lemma parse_print j : parse (print j) = Some j.
Proof.
  unfold parse, print. rewrite pos_of_bits_of_pos. simpl.
  rewrite decode_encode. simpl. apply tree_of_json.
Qed.

Lemma date_parse_toISOString t :
  time_ok t = true → date_parse (toISOString t) = Some t.
Proof.
  intros Ht. unfold date_parse, toISOString. rewrite NilEmpty.isi. simpl.
  rewrite DecimalZ.of_to. unfold TimeClip. by rewrite Ht.
Qed.

Lemma trim_start_chars c s :
  c ∈ list_ascii_of_string (trim_start s) → c ∈ list_ascii_of_string s.
Proof.
  induction s as [|x s IH]; [done|]. cbn [trim_start].
  destruct (is_space x); [|done].
  intros Hin. cbn [list_ascii_of_string]. right. by apply IH.
Qed.

Lemma rev_app_chars s acc :
  list_ascii_of_string (String.rev_app s acc)
  = reverse (list_ascii_of_string s) ++ list_ascii_of_string acc.
Proof.
  revert acc. induction s as [|x s IH]; intros acc; [done|].
  cbn [String.rev_app list_ascii_of_string]. rewrite IH, reverse_cons.
  by rewrite <-app_assoc.
Qed.

Lemma rev_chars c s :
  c ∈ list_ascii_of_string (String.rev s) ↔ c ∈ list_ascii_of_string s.
Proof.
  unfold String.rev. rewrite rev_app_chars, app_nil_r. apply elem_of_reverse.
Qed.

Lemma trim_in c s :
  c ∈ list_ascii_of_string (trim_ends s) → c ∈ list_ascii_of_string s.
Proof.
  unfold trim_ends. intros Hin. apply (proj1 (rev_chars _ _)) in Hin.
  apply trim_start_chars in Hin. apply (proj1 (rev_chars _ _)) in Hin.
  by apply trim_start_chars.
Qed.

Lemma substring_length n s m : (String.length (String.substring n m s) ≤ m)%nat.
Proof.
  revert n m. induction s as [|c s IH]; intros [|n] [|m]; cbn; try lia.
  - specialize (IH 0%nat m). lia.
  - apply (IH n 0%nat).
  - apply (IH n (S m)).
Qed.

Lemma slice_length n s :
  (String.length (String.substring 0 (n - 0) s) ≤ n)%nat.
Proof. pose proof (substring_length 0 s (n - 0)). lia. Qed.

#[export] Instance host : Host := {|
  JSON_print := print;
  JSON_parse := parse;
  Date_toISOString := toISOString;
  Date_parse := date_parse;
  Number_toString := number_to_string;
  trim := trim_ends;
  String_length := String.length;
  String_slice from to := String.substring from (to - from);
  code_units := bytes;
  cannot_read k := "Cannot read properties of null (reading '" +:+ k +:+ "')";
  not_a_function k := k +:+ " is not a function";
  cannot_convert := "Cannot convert object to primitive value";
  JSON_parse_print := parse_print;
  JSON_parse_empty := eq_refl;
  Date_parse_ISOString := date_parse_toISOString;
  trim_chars := trim_in;
  trim_empty := eq_refl;
  String_length_empty := eq_refl;
  String_length_slice := slice_length;
|}.

End Reference.

(** * Properties of the session store *)

Import SessionManager.

(** Unfolding one step of synchronous code. *)
Ltac step_code :=
  unfold bind, ret, throw, try_catch, typeof_window_defined, Date_now,
    localStorage_getItem, localStorage_setItem, localStorage_removeItem,
    JSON_parse_or_throw, json_get; cbn beta iota.

Section session_store.
Context `{Host}.

(** The text [toISOString] prints for a time reads as that time. *)
Lemma Date_of_ISOString t :
  time_ok t = true → Date_of_json (JStr (Date_toISOString t)) = Some t.
Proof. apply Date_parse_ISOString. Qed.

Lemma parsed_text_nonempty text j : JSON_parse text = Some j → text ≠ "".
Proof. intros Hp ->. by rewrite JSON_parse_empty in Hp. Qed.

Lemma str_truthy_parsed text j :
  JSON_parse text = Some j → str_truthy (Some text) = true.
Proof.
  intros Hp. simpl. destruct (String.eqb_spec text ""); [|done].
  by apply parsed_text_nonempty in Hp.
Qed.

(** Whether [new Date(v)] returns: it throws on data with no primitive
    value. *)
Definition constructs (v : value) : bool :=
  match v with
  | VJson j => match ToString j with Some _ => true | None => false end
  | _ => true
  end.

Lemma new_Date_run v w :
  new_Date v w =
    if constructs v then (Normal (time_value v), w)
    else (Throw (TypeError cannot_convert), w).
Proof.
  destruct v as [|d|j]; [done|done|]. unfold new_Date, constructs.
  by destruct (ToString j).
Qed.

(** A datum that reads as a time has a primitive value. *)
Lemma constructs_time j t :
  Date_of_json j = Some t → constructs (VJson j) = true.
Proof.
  intros Ht. unfold constructs.
  destruct (ToString j) eqn:Hs; [done|].
  destruct j; try discriminate Hs; unfold Date_of_json in Ht;
    by rewrite Hs in Ht.
Qed.

(** What [getSession] does on a stored text that parses, in a browser whose
    storage can be reached: it reads [expires_at] and makes a date of it,
    and either erases both records or returns the parsed value. *)
Lemma getSession_parsed w text session :
  has_window w = true → storage_denied w = false →
  items w !! SESSION_KEY = Some text →
  JSON_parse text = Some session →
  getSession w =
    match json_prop session "expires_at" with
    | None => (Normal JNull, w)
    | Some e =>
        if negb (constructs e) then (Normal JNull, w)
        else if Date_lt (time_value e) (Some (clock w))
        then (Normal JNull,
              set_items (delete HISTORY_KEY) (set_items (delete SESSION_KEY) w))
        else (Normal session, w)
    end.
Proof.
  intros Hwin Hden Hitem Hparse. unfold getSession. step_code.
  rewrite Hwin. cbn [negb]. rewrite Hden, Hitem.
  rewrite (str_truthy_parsed _ _ Hparse). cbn [negb default from_option id]. rewrite Hparse.
  unfold ret, throw.
  destruct (json_prop session "expires_at") as [e|]; [|done].
  rewrite new_Date_run. destruct (constructs e); [|done]. cbn [negb].
  destruct (Date_lt (time_value e) (Some (clock w))); [|done].
  rewrite Hden. cbn [storage_denied set_items]. by rewrite Hden.
Qed.

(** C1, as the code has it: for a stored session whose [expires_at] reads
    as the time [t], [getSession] returns the session exactly while the
    current time is not after [t], and once the current time is after [t]
    it returns [null] having removed the session record and the
    conversation record. *)
Theorem getSession_expiry w text fs e t :
  has_window w = true → storage_denied w = false →
  items w !! SESSION_KEY = Some text →
  JSON_parse text = Some (JObj fs) →
  members fs !! "expires_at" = Some e →
  Date_of_json e = Some t →
  getSession w =
    if t <? clock w
    then (Normal JNull,
          set_items (delete HISTORY_KEY) (set_items (delete SESSION_KEY) w))
    else (Normal (JObj fs), w).
Proof.
  intros Hwin Hden Hitem Hparse He Ht.
  rewrite (getSession_parsed _ _ _ Hwin Hden Hitem Hparse).
  cbn [json_prop]. rewrite He, (constructs_time _ _ Ht).
  cbn [negb time_value Date_lt]. by rewrite Ht.
Qed.

(** The two records are gone after an expired read. *)
Lemma expired_records_erased w :
  let w' := set_items (delete HISTORY_KEY) (set_items (delete SESSION_KEY) w) in
  items w' !! SESSION_KEY = None ∧ items w' !! HISTORY_KEY = None.
Proof.
  cbn. split.
  - rewrite lookup_delete_ne by done. apply lookup_delete_eq.
  - apply lookup_delete_eq.
Qed.

(** The time [expires_at] reads as, when the session has such a property
    and it denotes a date. *)
Definition expires_at_time (session : json) : Date :=
  match json_prop session "expires_at" with
  | Some e => time_value e
  | None => None
  end.

(** Whether evaluating [new Date(session.expires_at)] throws: reading the
    property does on [null], the construction does on data with no
    primitive value. *)
Definition expiry_throws (session : json) : bool :=
  match json_prop session "expires_at" with
  | Some e => negb (constructs e)
  | None => true
  end.

(** C10, as the code has it: when the stored session parses and its
    [expires_at] does not read as a time, nothing is deleted at any current
    time, and the session is returned unless making the date throws: then
    the result is [null]. (What is no date in text may still read as a
    time: [null] and [false] as the epoch, and such a session is expired.) *)
Theorem getSession_unreadable_expiry w text session :
  has_window w = true → storage_denied w = false →
  items w !! SESSION_KEY = Some text →
  JSON_parse text = Some session →
  expires_at_time session = None →
  getSession w =
    (Normal (if expiry_throws session then JNull else session), w).
Proof.
  intros Hwin Hden Hitem Hparse He.
  rewrite (getSession_parsed _ _ _ Hwin Hden Hitem Hparse).
  unfold expires_at_time in He. unfold expiry_throws.
  destruct (json_prop session "expires_at") as [e|] eqn:Hprop; [|done].
  destruct (constructs e); [|done]. cbn [negb]. by rewrite He.
Qed.

(** *** Generating identifiers *)

(** The number a draw contributes: [(Math.random() * 16) | 0]. *)
Definition draw16 (k : N) : Z :=
  ToInt32 ((Z.of_N (k mod 2 ^ 53) # 2 ^ 53) * 16)%Q.

Lemma draw16_range k : 0 ≤ draw16 k < 16.
Proof.
  unfold draw16, ToInt32. cbn [Qmult Qnum Qden].
  assert (0 ≤ Z.of_N (k mod 2 ^ 53) < 9007199254740992) as Hk.
  { split; [apply N2Z.is_nonneg|].
    change 9007199254740992 with (Z.of_N (2 ^ 53)).
    apply N2Z.inj_lt, N.mod_upper_bound. done. }
  set (n := Z.of_N (k mod 2 ^ 53)) in *.
  change (Z.pos (2 ^ 53 * 1)) with 9007199254740992.
  change (2 ^ 31) with 2147483648. change (2 ^ 32) with 4294967296.
  rewrite Z.quot_div_nonneg by lia.
  assert (0 ≤ n * 16 / 9007199254740992 < 16) as Hq.
  { split; [apply Z.div_pos; lia|].
    apply Z.div_lt_upper_bound; lia. }
  rewrite Z.mod_small by lia. lia.
Qed.

Lemma toString16_digit v :
  0 ≤ v < 16 → toString16 v = String (hex_digit v) "".
Proof.
  intros Hv. unfold toString16.
  destruct (Z.ltb_spec v 0); [lia|]. cbn [hex_go].
  rewrite Z.mod_small by lia.
  by rewrite Z.div_small by lia.
Qed.

(** The hexadecimal digit one template character becomes. *)
Definition uuid_value (c : ascii) (k : N) : Z :=
  if Ascii.eqb c "x" then draw16 k else Z.lor (Z.land (draw16 k) 3) 8.

Lemma uuid_value_range c k : 0 ≤ uuid_value c k < 16.
Proof.
  unfold uuid_value. pose proof (draw16_range k) as Hr.
  destruct (Ascii.eqb c "x"); [lia|].
  revert Hr. generalize (draw16 k). intros r Hr.
  assert (r = 0 ∨ r = 1 ∨ r = 2 ∨ r = 3 ∨ r = 4 ∨ r = 5 ∨ r = 6 ∨ r = 7 ∨
          r = 8 ∨ r = 9 ∨ r = 10 ∨ r = 11 ∨ r = 12 ∨ r = 13 ∨ r = 14 ∨
          r = 15) as Hcases by lia.
  clear Hr.
  repeat (destruct Hcases as [->|Hcases]; [vm_compute; split; congruence|]).
  subst r. vm_compute. split; congruence.
Qed.

Lemma uuid_char_run c w :
  uuid_char c w =
    (Normal (String (hex_digit (uuid_value c (entropy w (drawn w)))) ""),
     set_drawn (S (drawn w)) w).
Proof.
  unfold uuid_char, bind, Math_random, ret.
  change (ToInt32 _) with (draw16 (entropy w (drawn w))).
  fold (uuid_value c (entropy w (drawn w))).
  by rewrite toString16_digit by apply uuid_value_range.
Qed.

(** The text [replace_xy] builds, as a function of the draws. *)
Fixpoint filled (template : list ascii) (rnd : nat → N) (d : nat) : string :=
  match template with
  | [] => ""
  | c :: rest =>
      if Ascii.eqb c "x" || Ascii.eqb c "y"
      then String (hex_digit (uuid_value c (rnd d))) (filled rest rnd (S d))
      else String c (filled rest rnd d)
  end.

Definition count_xy (template : list ascii) : nat :=
  length (filter (λ c, Ascii.eqb c "x" || Ascii.eqb c "y" = true) template).

Lemma set_drawn_drawn w : set_drawn (drawn w) w = w.
Proof. by destruct w. Qed.

Lemma replace_xy_run template w :
  replace_xy template w =
    (Normal (filled template (entropy w) (drawn w)),
     set_drawn (drawn w + count_xy template) w).
Proof.
  revert w. induction template as [|c rest IH]; intros w.
  - cbn. unfold ret. by rewrite Nat.add_0_r, set_drawn_drawn.
  - cbn [replace_xy filled]. unfold count_xy. rewrite filter_cons.
    destruct (Ascii.eqb c "x" || Ascii.eqb c "y") eqn:Hc.
    + unfold bind at 1. rewrite uuid_char_run.
      unfold bind at 1. rewrite IH. unfold ret. cbn [entropy drawn set_drawn].
      rewrite decide_True by done. cbn [length]. fold (count_xy rest).
      f_equal. unfold set_drawn. cbn. f_equal. lia.
    + unfold bind at 1. rewrite IH. unfold ret.
      by rewrite decide_False by done.
Qed.

Definition uuid_of (rnd : nat → N) (d : nat) : string :=
  filled (list_ascii_of_string "xxxxxxxx-xxxx-4xxx-yxxx-xxxxxxxxxxxx") rnd d.

(** [generateUUID] never throws; it uses the next 31 draws. *)
Lemma generateUUID_run w :
  generateUUID w =
    (Normal (uuid_of (entropy w) (drawn w)), set_drawn (drawn w + 31) w).
Proof.
  unfold generateUUID, uuid_of. rewrite replace_xy_run.
  assert (count_xy (list_ascii_of_string "xxxxxxxx-xxxx-4xxx-yxxx-xxxxxxxxxxxx")
          = 31%nat) as -> by (vm_compute; reflexivity).
  reflexivity.
Qed.

(** *** No operation throws *)

(** The code [m] run from [w] completes normally. *)
Definition completes {A} (m : M A) (w : World) : Prop :=
  ∃ a w', m w = (Normal a, w').

Lemma completes_ret {A} (a : A) w : completes (ret a) w.
Proof. by exists a, w. Qed.

Lemma completes_bind {A B} (m : M A) (k : A → M B) w :
  completes m w →
  (∀ a w', m w = (Normal a, w') → completes (k a) w') →
  completes (bind m k) w.
Proof.
  intros (a & w' & Hm) Hk. destruct (Hk a w' Hm) as (b & w'' & Hb).
  exists b, w''. unfold bind. by rewrite Hm.
Qed.

Lemma completes_try_catch {A} (body : M A) handler w :
  (∀ e w', body w = (Throw e, w') → completes (handler e) w') →
  completes (try_catch body handler) w.
Proof.
  intros Hh. unfold completes, try_catch.
  destruct (body w) as [[a|e] w'] eqn:Hb; [by exists a, w'|].
  by apply Hh.
Qed.

Lemma completes_generateUUID w : completes generateUUID w.
Proof. eexists _, _. apply generateUUID_run. Qed.

Lemma completes_getSession w : completes getSession w.
Proof.
  unfold getSession. apply completes_bind; [by eexists _, _|].
  intros win w' _. destruct win; cbn [negb]; [|apply completes_ret].
  apply completes_try_catch. intros. apply completes_ret.
Qed.

Lemma completes_getOrCreateBrowserId w : completes getOrCreateBrowserId w.
Proof.
  unfold getOrCreateBrowserId. apply completes_bind; [by eexists _, _|].
  intros win w' _. destruct win; cbn [negb]; [|apply completes_generateUUID].
  apply completes_try_catch. intros. apply completes_generateUUID.
Qed.

Lemma completes_createSession pageContext w :
  completes (createSession pageContext) w.
Proof.
  unfold createSession. apply completes_bind; [by eexists _, _|].
  intros now w1 _. apply completes_bind; [apply completes_generateUUID|].
  intros id w2 _. apply completes_bind; [apply completes_getOrCreateBrowserId|].
  intros bid w3 _. apply completes_bind; [by eexists _, _|].
  intros win w4 _. apply completes_bind; [|intros; apply completes_ret].
  destruct win; [|apply completes_ret].
  apply completes_try_catch. intros. apply completes_ret.
Qed.

Lemma completes_saveConversation messages w :
  completes (saveConversation messages) w.
Proof.
  unfold saveConversation. apply completes_bind; [by eexists _, _|].
  intros win w' _. destruct win; cbn [negb]; [|apply completes_ret].
  apply completes_try_catch. intros. apply completes_ret.
Qed.

Lemma completes_getConversationHistory w : completes getConversationHistory w.
Proof.
  unfold getConversationHistory. apply completes_bind; [by eexists _, _|].
  intros win w' _. destruct win; cbn [negb]; [|apply completes_ret].
  apply completes_try_catch. intros. apply completes_ret.
Qed.

Lemma completes_clearConversation w : completes clearConversation w.
Proof.
  unfold clearConversation. apply completes_bind; [by eexists _, _|].
  intros win w' _. destruct win; cbn [negb]; [|apply completes_ret].
  apply completes_try_catch. intros. apply completes_ret.
Qed.

Lemma completes_deleteSession w : completes deleteSession w.
Proof.
  unfold deleteSession. apply completes_bind; [by eexists _, _|].
  intros win w' _. destruct win; cbn [negb]; [|apply completes_ret].
  apply completes_try_catch. intros. apply completes_ret.
Qed.

(** The world of a server-side rendering pass: no [window]. *)
Definition without_window (w : World) : World :=
  {| has_window := false; storage_denied := storage_denied w;
     storage_accepts := storage_accepts w; items := items w;
     clock := clock w; entropy := entropy w; drawn := drawn w;
     pathname := pathname w; hostname := hostname w;
     chatbot_api_url := chatbot_api_url w |}.

(** Without a [window], [createSession] still builds and returns a session;
    it only skips the write. *)
Lemma createSession_without_window pageContext w :
  let s := without_window w in
  createSession pageContext s =
    (Normal
       {[ "id" := VJson (JStr (uuid_of (entropy w) (drawn w)));
          "anonymous_browser_id" :=
            VJson (JStr (uuid_of (entropy w) (drawn w + 31)));
          "created_at" := VDate (Some (clock w));
          "expires_at" := VDate (TimeClip (clock w + 2592000000));
          "page_context" := match pageContext with
                            | Some p => VJson (JStr p)
                            | None => VUndefined
                            end ]},
     set_drawn (drawn w + 62) s).
Proof.
  cbn zeta. unfold createSession, getOrCreateBrowserId. step_code.
  rewrite generateUUID_run. cbn [has_window set_drawn without_window negb].
  rewrite generateUUID_run. cbn [has_window set_drawn without_window negb entropy drawn clock].
  f_equal. unfold set_drawn, without_window. cbn. f_equal. lia.
Qed.

(** C9, as the code has it: no operation of the session store throws, in
    any world; without a [window], [getSession] and
    [getConversationHistory] return [null], [saveConversation],
    [clearConversation] and [deleteSession] do nothing, and
    [createSession] returns a new session that it does not store; none of
    them touches [localStorage]. *)
Theorem session_store_fails_soft w pageContext messages :
  (completes getSession w ∧ completes (createSession pageContext) w ∧
   completes (saveConversation messages) w ∧
   completes getConversationHistory w ∧
   completes clearConversation w ∧ completes deleteSession w) ∧
  let s := without_window w in
  getSession s = (Normal JNull, s) ∧
  getConversationHistory s = (Normal None, s) ∧
  saveConversation messages s = (Normal (), s) ∧
  clearConversation s = (Normal (), s) ∧
  deleteSession s = (Normal (), s) ∧
  ∃ session s',
    createSession pageContext s = (Normal session, s') ∧
    items s' = items s ∧
    session !! "id" = Some (VJson (JStr (uuid_of (entropy w) (drawn w)))).
Proof.
  split.
  - repeat split; [apply completes_getSession | apply completes_createSession
      | apply completes_saveConversation | apply completes_getConversationHistory
      | apply completes_clearConversation | apply completes_deleteSession].
  - cbn zeta. repeat split; try reflexivity.
    eexists _, _. split; [apply createSession_without_window|].
    split; [reflexivity|]. by simplify_map_eq.
Qed.

(** *** Creating sessions *)

Definition BROWSER_ID_KEY := "rag_chatbot_browser_id".

Lemma getOrCreateBrowserId_stored w b :
  has_window w = true → storage_denied w = false →
  items w !! BROWSER_ID_KEY = Some b → b ≠ "" →
  getOrCreateBrowserId w = (Normal b, w).
Proof.
  intros Hwin Hden Hb Hne. unfold getOrCreateBrowserId. step_code.
  rewrite Hwin. cbn [negb]. rewrite Hden.
  change "rag_chatbot_browser_id" with BROWSER_ID_KEY. rewrite Hb.
  cbn [str_truthy]. by destruct (String.eqb_spec b "").
Qed.

Lemma getOrCreateBrowserId_fresh w :
  has_window w = true → storage_denied w = false →
  (∀ k v, storage_accepts w k v = true) →
  str_truthy (items w !! BROWSER_ID_KEY) = false →
  getOrCreateBrowserId w =
    (Normal (uuid_of (entropy w) (drawn w)),
     set_items <[BROWSER_ID_KEY := uuid_of (entropy w) (drawn w)]>
       (set_drawn (drawn w + 31) w)).
Proof.
  intros Hwin Hden Hacc Hb. unfold getOrCreateBrowserId. step_code.
  rewrite Hwin. cbn [negb]. rewrite Hden.
  change "rag_chatbot_browser_id" with BROWSER_ID_KEY. rewrite Hb.
  cbn [negb]. rewrite generateUUID_run.
  cbn [storage_denied storage_accepts set_drawn]. by rewrite Hden, Hacc.
Qed.

Lemma uuid_of_nonempty rnd d : uuid_of rnd d ≠ "".
Proof. done. Qed.

(** In a browser whose storage works, the browser identifier is the stored
    one when there is one, and a new one, stored from then on, otherwise. *)
Lemma getOrCreateBrowserId_works w :
  has_window w = true → storage_denied w = false →
  (∀ k v, storage_accepts w k v = true) →
  ∃ b w',
    getOrCreateBrowserId w = (Normal b, w') ∧
    items w' !! BROWSER_ID_KEY = Some b ∧ b ≠ "" ∧
    (∀ k, k ≠ BROWSER_ID_KEY → items w' !! k = items w !! k) ∧
    has_window w' = true ∧ storage_denied w' = false ∧
    storage_accepts w' = storage_accepts w ∧ clock w' = clock w ∧
    entropy w' = entropy w ∧ (drawn w ≤ drawn w')%nat.
Proof.
  intros Hwin Hden Hacc.
  destruct (str_truthy (items w !! BROWSER_ID_KEY)) eqn:Hb.
  - destruct (items w !! BROWSER_ID_KEY) as [b|] eqn:Hi; [|done].
    cbn in Hb. destruct (String.eqb_spec b ""); [done|].
    exists b, w. rewrite (getOrCreateBrowserId_stored _ b) by done.
    repeat split; try done; lia.
  - eexists _, _. rewrite getOrCreateBrowserId_fresh by done.
    split; [done|]. cbn. split; [by rewrite lookup_insert_eq|].
    split; [apply uuid_of_nonempty|].
    split; [by intros; rewrite lookup_insert_ne|].
    repeat split; try done; lia.
Qed.

Lemma get_insert (o : object) k v : get (<[k := v]> o) k = v.
Proof. unfold get. by rewrite lookup_insert_eq. Qed.

Lemma get_insert_ne (o : object) k k' v :
  k ≠ k' → get (<[k := v]> o) k' = get o k'.
Proof. intros. unfold get. by rewrite lookup_insert_ne. Qed.

(** One call of [createSession] in a browser whose storage works. *)
Lemma createSession_works w pageContext :
  has_window w = true → storage_denied w = false →
  (∀ k v, storage_accepts w k v = true) →
  ∃ session w',
    createSession pageContext w = (Normal session, w') ∧
    get session "id" = VJson (JStr (uuid_of (entropy w) (drawn w))) ∧
    get session "created_at" = VDate (Some (clock w)) ∧
    get session "expires_at" = VDate (TimeClip (clock w + 2592000000)) ∧
    items w' !! SESSION_KEY = Some (JSON_stringify session) ∧
    (∃ b, get session "anonymous_browser_id" = VJson (JStr b) ∧
          items w' !! BROWSER_ID_KEY = Some b ∧ b ≠ "" ∧
          (str_truthy (items w !! BROWSER_ID_KEY) = true →
           items w !! BROWSER_ID_KEY = Some b)) ∧
    has_window w' = true ∧ storage_denied w' = false ∧
    storage_accepts w' = storage_accepts w ∧ entropy w' = entropy w ∧
    (drawn w + 31 ≤ drawn w')%nat.
Proof.
  intros Hwin Hden Hacc.
  set (w1 := set_drawn (drawn w + 31) w).
  destruct (getOrCreateBrowserId_works w1) as
    (b & w2 & Hrun & Hb & Hne & Hframe & Hwin2 & Hden2 & Hacc2 & Hclk2 & Hent2 & Hdr2);
    [done..|].
  eexists _, _. split.
  { unfold createSession. step_code. rewrite generateUUID_run. fold w1.
    rewrite Hrun, Hwin2, Hden2, Hacc2. cbn [storage_accepts w1 set_drawn].
    rewrite Hacc. reflexivity. }
  cbn [clock w1 set_drawn entropy drawn set_items items].
  split; [done|]. split; [done|]. split; [done|].
  split; [by rewrite lookup_insert_eq|].
  split.
  { exists b. split; [done|]. split; [by rewrite lookup_insert_ne|].
    split; [done|]. intros Ht.
    destruct (items w !! BROWSER_ID_KEY) as [b0|] eqn:Hi; [|done].
    cbn in Ht. destruct (String.eqb_spec b0 ""); [done|].
    rewrite (getOrCreateBrowserId_stored w1 b0) in Hrun by done.
    by simplify_eq. }
  cbn in Hdr2. repeat split; try done; lia.
Qed.

(** The hexadecimal digits the draws from [d] on put into the template. *)
Fixpoint digits (template : list ascii) (rnd : nat → N) (d : nat) : list Z :=
  match template with
  | [] => []
  | c :: rest =>
      if Ascii.eqb c "x" || Ascii.eqb c "y"
      then uuid_value c (rnd d) :: digits rest rnd (S d)
      else digits rest rnd d
  end.

Definition uuid_digits (rnd : nat → N) (d : nat) : list Z :=
  digits (list_ascii_of_string "xxxxxxxx-xxxx-4xxx-yxxx-xxxxxxxxxxxx") rnd d.

Lemma hex_digit_inj a b :
  0 ≤ a < 16 → 0 ≤ b < 16 → hex_digit a = hex_digit b → a = b.
Proof.
  intros Ha Hb. unfold hex_digit.
  assert (NoDup (list_ascii_of_string "0123456789abcdef")) as Hnd.
  { apply (bool_decide_unpack _). by vm_compute. }
  intros Heq. apply NoDup_ListNoDup in Hnd.
  apply (proj1 (NoDup_nth _ "0"%char) Hnd) in Heq; [lia|..];
    cbn [length list_ascii_of_string]; lia.
Qed.

(** Two identifiers are the same text exactly when the same digits were
    drawn for them. *)
Lemma filled_eq_iff template r1 d1 r2 d2 :
  filled template r1 d1 = filled template r2 d2 ↔
  digits template r1 d1 = digits template r2 d2.
Proof.
  revert d1 d2. induction template as [|c rest IH]; intros d1 d2; [done|].
  cbn [filled digits]. destruct (Ascii.eqb c "x" || Ascii.eqb c "y").
  - split.
    + intros [= Hd Hrest]. apply IH in Hrest.
      apply hex_digit_inj in Hd; [|apply uuid_value_range..]. congruence.
    + intros [= Hd Hrest]. apply IH in Hrest. congruence.
  - split.
    + intros [= Hrest]. by apply IH.
    + intros Hrest. f_equal. by apply IH.
Qed.

Lemma uuid_of_eq_iff r1 d1 r2 d2 :
  uuid_of r1 d1 = uuid_of r2 d2 ↔ uuid_digits r1 d1 = uuid_digits r2 d2.
Proof. apply filled_eq_iff. Qed.

Lemma VJson_JStr_eq_iff a b : VJson (JStr a) = VJson (JStr b) ↔ a = b.
Proof. split; [by intros [= ->] | by intros ->]. Qed.

(** C5, as the code has it. In a browser whose storage works and while
    time values stay in range, [createSession] returns a session whose
    [id] is generated from the next 31 draws of [Math.random], whose
    [created_at] is the current time and whose [expires_at] is that time
    plus 30 days, and it stores the session under the session key,
    replacing what was there. A second call, at any later time, does the
    same with the same [anonymous_browser_id]; its [id] differs from the
    first one exactly when the digits drawn for it differ. *)
Theorem createSession_spec w pageContext pageContext2 later :
  has_window w = true → storage_denied w = false →
  (∀ k v, storage_accepts w k v = true) →
  time_ok (clock w + 2592000000) = true →
  ∃ session w' session2 w'',
    createSession pageContext w = (Normal session, w') ∧
    get session "id" = VJson (JStr (uuid_of (entropy w) (drawn w))) ∧
    get session "created_at" = VDate (Some (clock w)) ∧
    get session "expires_at" = VDate (Some (clock w + 30 * 24 * 60 * 60 * 1000)) ∧
    items w' !! SESSION_KEY = Some (JSON_stringify session) ∧
    createSession pageContext2 (set_clock later w') = (Normal session2, w'') ∧
    get session2 "id" = VJson (JStr (uuid_of (entropy w) (drawn w'))) ∧
    items w'' !! SESSION_KEY = Some (JSON_stringify session2) ∧
    get session2 "anonymous_browser_id" = get session "anonymous_browser_id" ∧
    (get session2 "id" = get session "id" ↔
     uuid_digits (entropy w) (drawn w') = uuid_digits (entropy w) (drawn w)).
Proof.
  intros Hwin Hden Hacc Hclk.
  destruct (createSession_works w pageContext) as
    (s1 & w1 & Hrun1 & Hid1 & Hcr1 & Hex1 & Hst1 & (b & Hb1 & Hbs1 & Hbne & _)
     & Hwin1 & Hden1 & Hacc1 & Hent1 & Hdr1); [done..|].
  destruct (createSession_works (set_clock later w1) pageContext2) as
    (s2 & w2 & Hrun2 & Hid2 & Hcr2 & Hex2 & Hst2 & (b2 & Hb2 & Hbs2 & Hbne2 & Hreuse)
     & _); [done|done|by cbn; rewrite Hacc1|].
  exists s1, w1, s2, w2. cbn [entropy drawn set_clock] in Hid2.
  rewrite Hent1 in Hid2.
  split; [exact Hrun1|]. split; [exact Hid1|]. split; [exact Hcr1|].
  split. { rewrite Hex1. unfold TimeClip. by rewrite Hclk. }
  split; [exact Hst1|]. split; [exact Hrun2|]. split; [exact Hid2|].
  split; [exact Hst2|].
  split.
  - rewrite Hb1, Hb2. cbn [items set_clock] in Hreuse.
    rewrite Hbs1 in Hreuse. cbn [str_truthy] in Hreuse.
    destruct (String.eqb_spec b "") as [Hemp|_]; [destruct (Hbne Hemp)|].
    specialize (Hreuse eq_refl). injection Hreuse as ->. reflexivity.
  - rewrite Hid1, Hid2. rewrite <- uuid_of_eq_iff. apply VJson_JStr_eq_iff.
Qed.

(** *** The conversation cache *)

Lemma members_map_to_list (m : gmap string json) : members (map_to_list m) = m.
Proof.
  unfold members. symmetry. apply list_to_map_flip.
  by rewrite reverse_Permutation.
Qed.

Lemma Array_map_pure {A B} (f : A → M B) (g : A → B) l w :
  Forall (λ x, ∀ w, f x w = (Normal (g x), w)) l →
  Array_map f l w = (Normal (g <$> l), w).
Proof.
  induction 1 as [|x l Hx _ IH]; [done|].
  cbn [Array_map]. unfold bind. by rewrite Hx, IH.
Qed.

(** Modelled from the spec: the declaration of [ChatMessage]
    (types/ChatMessage.ts) is not among the sources. A message as the data
    model has it: data properties ([id], [type], [content], and for an
    assistant message [sources] and [confidence]), and a [timestamp] that
    is a [Date] with a time value. *)
Definition ChatMessage_ok (msg : object) : Prop :=
  ∃ (data : gmap string json) (t : Z),
    time_ok t = true ∧ msg = <["timestamp" := VDate (Some t)]> (VJson <$> data).

(** What [saveConversation] writes for one message, and what
    [getConversationHistory] makes of one stored message. *)
Definition serialize (msg : object) : M object :=
  let* timestamp := toISOString "msg.timestamp" (get msg "timestamp") in
  ret (<["timestamp" := VJson (JStr timestamp)]> msg).

Definition rehydrate (msg : json) : M object :=
  let* timestamp := json_get msg "timestamp" in
  let* date := new_Date timestamp in
  ret (<["timestamp" := VDate date]> (spread msg)).

Lemma saveConversation_unfold messages :
  saveConversation messages =
    (let* win := typeof_window_defined in
     if negb win then ret () else
     try_catch
       (let* serialized := Array_map serialize messages in
        localStorage_setItem HISTORY_KEY (JSON_stringify_array serialized))
       (λ _, ret ())).
Proof. reflexivity. Qed.

Lemma getConversationHistory_parsed w text elems :
  has_window w = true → storage_denied w = false →
  items w !! HISTORY_KEY = Some text →
  JSON_parse text = Some (JArr elems) →
  getConversationHistory w =
    match Array_map rehydrate elems w with
    | (Normal l, w') => (Normal (Some l), w')
    | (Throw _, w') => (Normal None, w')
    end.
Proof.
  intros Hwin Hden Hitem Hparse. unfold getConversationHistory. step_code.
  rewrite Hwin. cbn [negb]. rewrite Hden, Hitem.
  rewrite (str_truthy_parsed _ _ Hparse). cbn [negb default from_option id].
  rewrite Hparse. unfold ret at 1.
  change (Array_map _ elems w) with (Array_map rehydrate elems w).
  destruct (Array_map rehydrate elems w) as [[l|e] w']; done.
Qed.

Lemma serialize_ok data t w :
  let msg : object := <["timestamp" := VDate (Some t)]> (VJson <$> data) in
  serialize msg w =
    (Normal (VJson <$> <["timestamp" := JStr (Date_toISOString t)]> data), w).
Proof.
  cbn zeta. unfold serialize. rewrite get_insert. cbn [toISOString].
  unfold bind, ret. by rewrite insert_insert_eq, fmap_insert.
Qed.

Lemma object_toJSON_data (data : gmap string json) :
  object_toJSON (VJson <$> data) = JObj (map_to_list data).
Proof.
  unfold object_toJSON. do 2 f_equal. apply map_eq. intros k.
  rewrite lookup_omap, lookup_fmap. by destruct (data !! k).
Qed.

Lemma rehydrate_ok data t w :
  time_ok t = true →
  rehydrate (JObj (map_to_list (<["timestamp" := JStr (Date_toISOString t)]> data))) w
  = (Normal (<["timestamp" := VDate (Some t)]> (VJson <$> data)), w).
Proof.
  intros Ht. unfold rehydrate, json_get. cbn [json_prop spread].
  rewrite members_map_to_list, lookup_insert_eq. unfold bind, ret.
  cbn [new_Date ToString]. unfold ret. rewrite Date_of_ISOString by done.
  by rewrite fmap_insert, insert_insert_eq.
Qed.

(** Data as an object of the program, and as a datum. *)
Definition data_object (d : gmap string json) : object := VJson <$> d.
Definition data_json (d : gmap string json) : json := JObj (map_to_list d).

Lemma messages_stored_form messages :
  Forall ChatMessage_ok messages →
  ∃ datas : list (gmap string json),
    (∀ w, Array_map serialize messages w
          = (Normal (data_object <$> datas), w)) ∧
    (∀ w, Array_map rehydrate (data_json <$> datas) w
          = (Normal messages, w)).
Proof.
  induction 1 as [|msg l (data & t & Ht & ->) _ (datas & Hs & Hr)].
  - by exists [].
  - exists (<["timestamp" := JStr (Date_toISOString t)]> data :: datas). split.
    + intros w. rewrite fmap_cons. cbn [Array_map]. unfold bind at 1.
      rewrite serialize_ok. unfold bind. by rewrite Hs.
    + intros w. rewrite fmap_cons. cbn [Array_map]. unfold bind at 1.
      unfold data_json at 1. rewrite rehydrate_ok by done.
      unfold bind. by rewrite Hr.
Qed.

(** What [saveConversation] stores for such messages, in a browser whose
    storage takes the write: the text of data that rehydrates to them. *)
Lemma saveConversation_stores w messages :
  has_window w = true → storage_denied w = false →
  (∀ text, storage_accepts w HISTORY_KEY text = true) →
  Forall ChatMessage_ok messages →
  ∃ elems,
    saveConversation messages w
    = (Normal (), set_items <[HISTORY_KEY := JSON_print (JArr elems)]> w) ∧
    ∀ w0, Array_map rehydrate elems w0 = (Normal messages, w0).
Proof.
  intros Hwin Hden Hacc Hok.
  destruct (messages_stored_form messages Hok) as (datas & Hs & Hr).
  exists (data_json <$> datas). split; [|exact Hr].
  rewrite saveConversation_unfold. step_code. rewrite Hwin. cbn [negb].
  rewrite Hs, Hden, Hacc. unfold JSON_stringify_array.
  rewrite <- list_fmap_compose.
  rewrite (list_fmap_ext _ data_json datas); [done|].
  intros _ d _. apply object_toJSON_data.
Qed.

(** Reading the history key when it holds the text of an array. *)
Lemma getConversationHistory_stored w elems :
  has_window w = true → storage_denied w = false →
  items w !! HISTORY_KEY = Some (JSON_print (JArr elems)) →
  getConversationHistory w =
    match Array_map rehydrate elems w with
    | (Normal l, w') => (Normal (Some l), w')
    | (Throw _, w') => (Normal None, w')
    end.
Proof.
  intros Hwin Hden Hitem.
  eapply getConversationHistory_parsed; [done|done|exact Hitem|].
  apply JSON_parse_print.
Qed.

(** C4, as the code has it: in a browser whose storage can be reached and
    takes the write, for every list of messages that each carry data and a
    valid [timestamp], [saveConversation] followed at once by
    [getConversationHistory] returns the same list: same messages, same
    order, same time values. *)
Theorem conversation_round_trip w messages :
  has_window w = true → storage_denied w = false →
  (∀ text, storage_accepts w HISTORY_KEY text = true) →
  Forall ChatMessage_ok messages →
  ∃ w',
    saveConversation messages w = (Normal (), w') ∧
    getConversationHistory w' = (Normal (Some messages), w').
Proof.
  intros Hwin Hden Hacc Hok.
  destruct (saveConversation_stores w messages Hwin Hden Hacc Hok)
    as (elems & Hsave & Hread).
  eexists. split; [exact Hsave|].
  rewrite (getConversationHistory_stored _ elems); [|done|done|].
  - by rewrite Hread.
  - apply lookup_insert_eq.
Qed.

(** *** What the operations leave alone *)

(** The code [m] keeps the world within the relation [R]: the world it
    leaves is related to the one it started from. *)
Definition respects {A} (R : relation World) (m : M A) : Prop :=
  ∀ w, R w (m w).2.

Section frame_rules.
Variable R : relation World.
Hypothesis R_refl : ∀ w, R w w.
Hypothesis R_trans : ∀ w1 w2 w3, R w1 w2 → R w2 w3 → R w1 w3.

Lemma respects_pure {A} (m : M A) : (∀ w, (m w).2 = w) → respects R m.
Proof. intros Hm w. rewrite Hm. apply R_refl. Qed.

Lemma respects_ret {A} (a : A) : respects R (ret a).
Proof. by apply respects_pure. Qed.

Lemma respects_throw {A} e : respects R (throw e : M A).
Proof. by apply respects_pure. Qed.

Lemma respects_bind {A B} (m : M A) (f : A → M B) :
  respects R m → (∀ a, respects R (f a)) → respects R (bind m f).
Proof.
  intros Hm Hf w. unfold bind. specialize (Hm w).
  destruct (m w) as [[a|e] w']; cbn [snd] in *; [|done].
  eapply R_trans; [exact Hm|apply Hf].
Qed.

Lemma respects_try_catch {A} (body : M A) handler :
  respects R body → (∀ e, respects R (handler e)) →
  respects R (try_catch body handler).
Proof.
  intros Hb Hh w. unfold try_catch. specialize (Hb w).
  destruct (body w) as [[a|e] w']; cbn [snd] in *; [done|].
  eapply R_trans; [exact Hb|apply Hh].
Qed.

Lemma respects_Array_map {A B} (f : A → M B) l :
  (∀ x, respects R (f x)) → respects R (Array_map f l).
Proof.
  intros Hf. induction l as [|x l IH]; [apply respects_ret|].
  cbn [Array_map]. apply respects_bind; [apply Hf|]. intros y.
  apply respects_bind; [apply IH|]. intros ys. apply respects_ret.
Qed.

Lemma respects_getItem k : respects R (localStorage_getItem k).
Proof.
  apply respects_pure. intros w. unfold localStorage_getItem.
  by destruct (storage_denied w).
Qed.

Lemma respects_JSON_parse_or_throw text : respects R (JSON_parse_or_throw text).
Proof.
  unfold JSON_parse_or_throw.
  destruct (JSON_parse text); [apply respects_ret|apply respects_throw].
Qed.

Lemma respects_json_get j k : respects R (json_get j k).
Proof.
  unfold json_get.
  destruct (json_prop j k); [apply respects_ret|apply respects_throw].
Qed.

Lemma respects_new_Date v : respects R (new_Date v).
Proof.
  apply respects_pure. intros w. rewrite new_Date_run.
  by destruct (constructs v).
Qed.

Lemma respects_toISOString name v : respects R (toISOString name v).
Proof.
  destruct v as [|[t|]|[]]; try apply respects_throw. apply respects_ret.
Qed.

Lemma respects_replace_xy template :
  respects R Math_random → respects R (replace_xy template).
Proof.
  intros Hrnd. induction template as [|c rest IH]; [apply respects_ret|].
  cbn [replace_xy]. destruct (Ascii.eqb c "x" || Ascii.eqb c "y").
  - apply respects_bind.
    + unfold uuid_char. apply respects_bind; [exact Hrnd|].
      intros rnd. apply respects_ret.
    + intros d. apply respects_bind; [exact IH|]. intros s. apply respects_ret.
  - apply respects_bind; [exact IH|]. intros s. apply respects_ret.
Qed.

Lemma respects_generateUUID : respects R Math_random → respects R generateUUID.
Proof. apply respects_replace_xy. Qed.

Lemma respects_getSession :
  respects R (localStorage_removeItem SESSION_KEY) →
  respects R (localStorage_removeItem HISTORY_KEY) →
  respects R getSession.
Proof.
  intros Hs Hh. unfold getSession. apply respects_bind; [by apply respects_pure|].
  intros win. destruct win; cbn [negb]; [|apply respects_ret].
  apply respects_try_catch; [|intros; apply respects_ret].
  apply respects_bind; [apply respects_getItem|]. intros stored.
  destruct (negb (str_truthy stored)); [apply respects_ret|].
  apply respects_bind; [apply respects_JSON_parse_or_throw|]. intros session.
  apply respects_bind; [apply respects_json_get|]. intros expires_at.
  apply respects_bind; [apply respects_new_Date|]. intros expires.
  apply respects_bind; [by apply respects_pure|]. intros now.
  destruct (Date_lt expires (Some now)); [|apply respects_ret].
  apply respects_bind; [exact Hs|]. intros _.
  apply respects_bind; [exact Hh|]. intros _. apply respects_ret.
Qed.

Lemma respects_getOrCreateBrowserId :
  respects R Math_random →
  (∀ v, respects R (localStorage_setItem BROWSER_ID_KEY v)) →
  respects R getOrCreateBrowserId.
Proof.
  intros Hrnd Hset. unfold getOrCreateBrowserId.
  apply respects_bind; [by apply respects_pure|].
  intros win. destruct win; cbn [negb]; [|by apply respects_generateUUID].
  apply respects_try_catch; [|intros; by apply respects_generateUUID].
  apply respects_bind; [apply respects_getItem|]. intros browserId.
  destruct (negb (str_truthy browserId)); [|apply respects_ret].
  apply respects_bind; [by apply respects_generateUUID|]. intros b.
  apply respects_bind; [apply Hset|]. intros. apply respects_ret.
Qed.

Lemma respects_createSession pageContext :
  respects R Math_random →
  (∀ v, respects R (localStorage_setItem BROWSER_ID_KEY v)) →
  (∀ v, respects R (localStorage_setItem SESSION_KEY v)) →
  respects R (createSession pageContext).
Proof.
  intros Hrnd Hb Hs. unfold createSession.
  apply respects_bind; [by apply respects_pure|]. intros now.
  apply respects_bind; [by apply respects_generateUUID|]. intros id.
  apply respects_bind; [by apply respects_getOrCreateBrowserId|]. intros bid.
  apply respects_bind; [by apply respects_pure|]. intros win.
  apply respects_bind; [|intros; apply respects_ret].
  destruct win; [|apply respects_ret].
  apply respects_try_catch; [apply Hs|]. intros. apply respects_ret.
Qed.

Lemma respects_saveConversation messages :
  (∀ v, respects R (localStorage_setItem HISTORY_KEY v)) →
  respects R (saveConversation messages).
Proof.
  intros Hset. unfold saveConversation.
  apply respects_bind; [by apply respects_pure|].
  intros win. destruct win; cbn [negb]; [|apply respects_ret].
  apply respects_try_catch; [|intros; apply respects_ret].
  apply respects_bind; [|intros; apply Hset].
  apply respects_Array_map. intros msg.
  apply respects_bind; [apply respects_toISOString|]. intros. apply respects_ret.
Qed.

Lemma respects_getConversationHistory : respects R getConversationHistory.
Proof.
  unfold getConversationHistory. apply respects_bind; [by apply respects_pure|].
  intros win. destruct win; cbn [negb]; [|apply respects_ret].
  apply respects_try_catch; [|intros; apply respects_ret].
  apply respects_bind; [apply respects_getItem|]. intros stored.
  destruct (negb (str_truthy stored)); [apply respects_ret|].
  apply respects_bind; [apply respects_JSON_parse_or_throw|]. intros messages.
  destruct messages; try apply respects_throw.
  apply respects_bind; [|intros; apply respects_ret].
  apply respects_Array_map. intros msg.
  apply respects_bind; [apply respects_json_get|]. intros timestamp.
  apply respects_bind; [apply respects_new_Date|]. intros. apply respects_ret.
Qed.

Lemma respects_clearConversation :
  respects R (localStorage_removeItem HISTORY_KEY) →
  respects R clearConversation.
Proof.
  intros Hh. unfold clearConversation.
  apply respects_bind; [by apply respects_pure|].
  intros win. destruct win; cbn [negb]; [|apply respects_ret].
  apply respects_try_catch; [exact Hh|]. intros. apply respects_ret.
Qed.

Lemma respects_deleteSession :
  respects R (localStorage_removeItem SESSION_KEY) →
  respects R (localStorage_removeItem HISTORY_KEY) →
  respects R deleteSession.
Proof.
  intros Hs Hh. unfold deleteSession.
  apply respects_bind; [by apply respects_pure|].
  intros win. destruct win; cbn [negb]; [|apply respects_ret].
  apply respects_try_catch; [|intros; apply respects_ret].
  apply respects_bind; [exact Hs|]. intros. exact Hh.
Qed.

End frame_rules.

(** The record stored under [k] is the same in both worlds. *)
Definition same_item (k : string) : relation World :=
  λ w w', items w' !! k = items w !! k.

(** The code [m] leaves the record stored under [k] as it is. *)
Definition keeps {A} (k : string) (m : M A) : Prop := respects (same_item k) m.

Lemma same_item_refl k w : same_item k w w.
Proof. done. Qed.

Lemma same_item_trans k w1 w2 w3 :
  same_item k w1 w2 → same_item k w2 w3 → same_item k w1 w3.
Proof. unfold same_item. congruence. Qed.

Lemma keeps_setItem k k' v : k ≠ k' → keeps k (localStorage_setItem k' v).
Proof.
  intros Hne w. unfold same_item, localStorage_setItem.
  destruct (storage_denied w); [done|].
  destruct (storage_accepts w k' v); [|done].
  cbn. by rewrite lookup_insert_ne.
Qed.

Lemma keeps_removeItem k k' : k ≠ k' → keeps k (localStorage_removeItem k').
Proof.
  intros Hne w. unfold same_item, localStorage_removeItem.
  destruct (storage_denied w); [done|].
  cbn. by rewrite lookup_delete_ne.
Qed.

Lemma keeps_Math_random k : keeps k Math_random.
Proof. done. Qed.

(** [createSession] writes the session record and, at most, the browser
    identifier; every other record, the conversation included, stays. *)
Lemma keeps_createSession k pageContext :
  k ≠ SESSION_KEY → k ≠ BROWSER_ID_KEY → keeps k (createSession pageContext).
Proof.
  intros Hs Hb.
  apply respects_createSession;
    [apply same_item_refl|apply same_item_trans|apply keeps_Math_random|..];
    intros v; by apply keeps_setItem.
Qed.

(** Everything of the world but the entries of [localStorage] and the
    number of draws taken from [Math.random]. *)
Definition same_page : relation World :=
  λ w w',
    has_window w' = has_window w ∧ storage_denied w' = storage_denied w ∧
    storage_accepts w' = storage_accepts w ∧ clock w' = clock w ∧
    entropy w' = entropy w ∧ pathname w' = pathname w ∧
    hostname w' = hostname w ∧ chatbot_api_url w' = chatbot_api_url w.

Lemma same_page_refl w : same_page w w.
Proof. by repeat split. Qed.

Lemma same_page_trans w1 w2 w3 :
  same_page w1 w2 → same_page w2 w3 → same_page w1 w3.
Proof.
  intros (?&?&?&?&?&?&?&?) (?&?&?&?&?&?&?&?). repeat split; congruence.
Qed.

Lemma same_page_setItem k v : respects same_page (localStorage_setItem k v).
Proof.
  intros w. unfold localStorage_setItem.
  destruct (storage_denied w); [apply same_page_refl|].
  destruct (storage_accepts w k v); [|apply same_page_refl].
  by repeat split.
Qed.

Lemma same_page_removeItem k : respects same_page (localStorage_removeItem k).
Proof.
  intros w. unfold localStorage_removeItem.
  destruct (storage_denied w); [apply same_page_refl|]. by repeat split.
Qed.

Lemma same_page_Math_random : respects same_page Math_random.
Proof. intros w. by repeat split. Qed.

(** *** The shape of an identifier *)

Definition is_hex (c : ascii) : bool :=
  existsb (Ascii.eqb c) (list_ascii_of_string "0123456789abcdef").

(** The text [s] has the shape of [template]: a hexadecimal digit for each
    [x], one of [8], [9], [a], [b] for each [y], and the character of the
    template everywhere else. *)
Fixpoint shaped (template s : list ascii) : bool :=
  match template, s with
  | [], [] => true
  | t :: template', c :: s' =>
      (if Ascii.eqb t "x" then is_hex c
       else if Ascii.eqb t "y"
            then existsb (Ascii.eqb c) (list_ascii_of_string "89ab")
            else Ascii.eqb c t)
      && shaped template' s'
  | _, _ => false
  end.

(** A version 4 identifier of RFC 4122, in lower case. *)
Definition is_uuid_v4 (s : string) : bool :=
  shaped (list_ascii_of_string "xxxxxxxx-xxxx-4xxx-yxxx-xxxxxxxxxxxx")
         (list_ascii_of_string s).

Lemma hex_digit_is_hex v : 0 ≤ v < 16 → is_hex (hex_digit v) = true.
Proof.
  intros Hv. unfold hex_digit.
  assert (Z.to_nat v < 16)%nat as Hn by lia. revert Hn.
  generalize (Z.to_nat v). intros n Hn.
  do 16 (destruct n as [|n]; [reflexivity|]). lia.
Qed.

Lemma variant_digit c k :
  Ascii.eqb c "x" = false →
  existsb (Ascii.eqb (hex_digit (uuid_value c k)))
          (list_ascii_of_string "89ab") = true.
Proof.
  intros Hc. unfold uuid_value. rewrite Hc.
  pose proof (draw16_range k) as Hr. revert Hr.
  generalize (draw16 k). intros r Hr.
  assert (r = 0 ∨ r = 1 ∨ r = 2 ∨ r = 3 ∨ r = 4 ∨ r = 5 ∨ r = 6 ∨ r = 7 ∨
          r = 8 ∨ r = 9 ∨ r = 10 ∨ r = 11 ∨ r = 12 ∨ r = 13 ∨ r = 14 ∨
          r = 15) as Hcases by lia.
  clear Hr.
  repeat (destruct Hcases as [->|Hcases]; [vm_compute; reflexivity|]).
  subst r. vm_compute. reflexivity.
Qed.

Lemma filled_shaped template rnd d :
  shaped template (list_ascii_of_string (filled template rnd d)) = true.
Proof.
  revert d. induction template as [|c rest IH]; intros d; [done|].
  cbn [filled]. destruct (Ascii.eqb c "x") eqn:Hx; cbn [orb].
  - cbn [list_ascii_of_string shaped]. rewrite Hx, IH.
    by rewrite hex_digit_is_hex by apply uuid_value_range.
  - destruct (Ascii.eqb c "y") eqn:Hy.
    + cbn [list_ascii_of_string shaped]. rewrite Hx, Hy, IH.
      by rewrite variant_digit.
    + cbn [list_ascii_of_string shaped]. rewrite Hx, Hy, IH.
      by rewrite Ascii.eqb_refl.
Qed.

Lemma shaped_length template s :
  shaped template s = true → length s = length template.
Proof.
  revert s. induction template as [|t rest IH]; intros [|c s]; try done.
  cbn [shaped length]. intros [_ Hs]%andb_true_iff. f_equal. by apply IH.
Qed.

Lemma length_list_ascii_of_string s :
  length (list_ascii_of_string s) = String.length s.
Proof. induction s as [|c s IH]; [done|]. cbn. by rewrite IH. Qed.

(** X12: [generateUUID] never throws and, whatever [Math.random] returns, gives
    a well-formed version 4 identifier: 36 characters, hyphens after the
    groups of 8, 4, 4 and 4 digits, the version digit [4], a variant digit
    among [8], [9], [a], [b], lower-case hexadecimal digits elsewhere. It
    takes 31 numbers from [Math.random]. *)
Theorem generateUUID_format w :
  ∃ id,
    generateUUID w = (Normal id, set_drawn (drawn w + 31) w) ∧
    is_uuid_v4 id = true ∧ String.length id = 36%nat.
Proof.
  exists (uuid_of (entropy w) (drawn w)). split; [apply generateUUID_run|].
  pose proof (filled_shaped
                (list_ascii_of_string "xxxxxxxx-xxxx-4xxx-yxxx-xxxxxxxxxxxx")
                (entropy w) (drawn w)) as Hshape.
  split; [exact Hshape|].
  etrans; [symmetry; apply length_list_ascii_of_string|].
  etrans; [exact (shaped_length _ _ Hshape)|]. vm_compute. reflexivity.
Qed.

(** *** Reading the session *)

(** What an expired read leaves: the world without the two records. *)
Definition erased (w : World) : World :=
  set_items (delete HISTORY_KEY) (set_items (delete SESSION_KEY) w).

(** [getSession] when there is nothing it can read. *)
Lemma getSession_nothing w :
  has_window w = false ∨ storage_denied w = true ∨
  str_truthy (items w !! SESSION_KEY) = false ∨
  JSON_parse (default "" (items w !! SESSION_KEY)) = None →
  getSession w = (Normal JNull, w).
Proof.
  intros Hcase. unfold getSession. step_code.
  destruct (has_window w); [|done]. cbn [negb].
  destruct (storage_denied w); [done|].
  destruct (str_truthy (items w !! SESSION_KEY)); [|done]. cbn [negb].
  destruct Hcase as [?|[?|[?|Hparse]]]; try done. by rewrite Hparse.
Qed.

(** X13: the outcomes of [getSession]: it never throws, and it never writes. It
    returns [null] and leaves the world as it is; or it returns what the
    session record parses to and leaves the world as it is; or it returns
    [null] having removed the session record and the conversation record,
    and then the record's [expires_at] is a time before the current one. *)
Theorem getSession_outcome w :
  getSession w = (Normal JNull, w) ∨
  ∃ text session,
    items w !! SESSION_KEY = Some text ∧ JSON_parse text = Some session ∧
    (getSession w = (Normal session, w) ∨
     getSession w = (Normal JNull, erased w) ∧
     ∃ t, expires_at_time session = Some t ∧ t < clock w).
Proof.
  destruct (has_window w) eqn:Hwin; [|left; apply getSession_nothing; auto].
  destruct (storage_denied w) eqn:Hden; [left; apply getSession_nothing; auto|].
  destruct (items w !! SESSION_KEY) as [text|] eqn:Hitem;
    [|left; apply getSession_nothing; rewrite Hitem; auto].
  destruct (JSON_parse text) as [session|] eqn:Hparse;
    [|left; apply getSession_nothing; rewrite Hitem; auto].
  rewrite (getSession_parsed w text session) by done.
  destruct (json_prop session "expires_at") as [e|] eqn:He; [|by left].
  destruct (constructs e); cbn [negb]; [|by left].
  destruct (time_value e) as [t|] eqn:Ht; cbn [Date_lt].
  - destruct (Z.ltb_spec t (clock w)) as [Hlt|Hge];
      right; exists text, session; (split; [done|]); (split; [done|]).
    + right. split; [done|]. exists t. unfold expires_at_time.
      by rewrite He, Ht.
    + by left.
  - right. exists text, session. split; [done|]. split; [done|]. by left.
Qed.

(** X14: a session record that cannot be used reads as no session, and stays
    where it is: [getSession] removes a record only when it has expired. *)
Theorem getSession_unusable_record w text :
  items w !! SESSION_KEY = Some text →
  text = "" ∨ JSON_parse text = None ∨ JSON_parse text = Some JNull →
  getSession w = (Normal JNull, w).
Proof.
  intros Hitem Hcase.
  destruct (has_window w) eqn:Hwin; [|apply getSession_nothing; auto].
  destruct (storage_denied w) eqn:Hden; [apply getSession_nothing; auto|].
  destruct Hcase as [->|[Hparse|Hparse]].
  - apply getSession_nothing. rewrite Hitem. auto.
  - apply getSession_nothing. rewrite Hitem. auto.
  - by rewrite (getSession_parsed w text JNull).
Qed.

(** *** Reading the conversation *)

Lemma getConversationHistory_nothing w :
  has_window w = false ∨ storage_denied w = true ∨
  str_truthy (items w !! HISTORY_KEY) = false ∨
  JSON_parse (default "" (items w !! HISTORY_KEY)) = None →
  getConversationHistory w = (Normal None, w).
Proof.
  intros Hcase. unfold getConversationHistory. step_code.
  destruct (has_window w); [|done]. cbn [negb].
  destruct (storage_denied w); [done|].
  destruct (str_truthy (items w !! HISTORY_KEY)); [|done]. cbn [negb].
  destruct Hcase as [?|[?|[?|Hparse]]]; try done. by rewrite Hparse.
Qed.

Lemma getConversationHistory_not_array w text j :
  has_window w = true → storage_denied w = false →
  items w !! HISTORY_KEY = Some text → JSON_parse text = Some j →
  (∀ elems, j ≠ JArr elems) →
  getConversationHistory w = (Normal None, w).
Proof.
  intros Hwin Hden Hitem Hparse Hj. unfold getConversationHistory. step_code.
  rewrite Hwin. cbn [negb]. rewrite Hden, Hitem.
  rewrite (str_truthy_parsed _ _ Hparse). cbn [negb default from_option id].
  rewrite Hparse. unfold ret, throw.
  destruct j as [ | | | |elems| ]; try reflexivity. destruct (Hj elems eq_refl).
Qed.

(** One stored message rehydrates, or fails, the same way in every world,
    and leaves the world alone. *)
Lemma rehydrate_pure msg : ∃ r, ∀ w, rehydrate msg w = (r, w).
Proof.
  unfold rehydrate, json_get, bind, ret, throw.
  destruct (json_prop msg "timestamp") as [v|]; [|by eexists].
  setoid_rewrite new_Date_run. destruct (constructs v); by eexists.
Qed.

Lemma Array_map_rehydrate_pure elems :
  ∃ r, ∀ w, Array_map rehydrate elems w = (r, w).
Proof.
  induction elems as [|msg elems [r IH]]; [by eexists|].
  destruct (rehydrate_pure msg) as [[y|e] Hmsg].
  - destruct r as [ys|e].
    + exists (Normal (y :: ys)). intros w. cbn [Array_map]. unfold bind.
      by rewrite Hmsg, IH.
    + exists (Throw e). intros w. cbn [Array_map]. unfold bind.
      by rewrite Hmsg, IH.
  - exists (Throw e). intros w. cbn [Array_map]. unfold bind. by rewrite Hmsg.
Qed.

(** The value [getConversationHistory] returns depends on the conversation
    record only. *)
Lemma getConversationHistory_reads w w' :
  has_window w' = has_window w → storage_denied w' = storage_denied w →
  items w' !! HISTORY_KEY = items w !! HISTORY_KEY →
  (getConversationHistory w').1 = (getConversationHistory w).1.
Proof.
  intros Hwin Hden Hitem.
  destruct (has_window w) eqn:Hw;
    [|by rewrite !getConversationHistory_nothing by auto].
  destruct (storage_denied w) eqn:Hd;
    [by rewrite !getConversationHistory_nothing by auto|].
  destruct (items w !! HISTORY_KEY) as [text|] eqn:Hi;
    [|by rewrite !getConversationHistory_nothing by (rewrite ?Hitem, ?Hi; auto)].
  destruct (JSON_parse text) as [j|] eqn:Hp;
    [|by rewrite !getConversationHistory_nothing by (rewrite ?Hitem, ?Hi; auto)].
  pose proof (λ w0 Hw0 Hd0 Hi0,
                getConversationHistory_not_array w0 text j Hw0 Hd0 Hi0 Hp)
    as Hna.
  destruct j as [ | | | |elems| ]; try (by rewrite !Hna by done).
  rewrite !(getConversationHistory_parsed _ text elems) by done.
  destruct (Array_map_rehydrate_pure elems) as [r Hr]. rewrite !Hr.
  by destruct r.
Qed.

Lemma Array_map_Forall {A B} (f : A → M B) (P : B → Prop) l w ys w' :
  (∀ x w y w', f x w = (Normal y, w') → P y) →
  Array_map f l w = (Normal ys, w') → Forall P ys ∧ length ys = length l.
Proof.
  intros Hf. revert w ys w'. induction l as [|x l IH]; intros w ys w'.
  - intros [= <- _]. done.
  - cbn [Array_map]. unfold bind.
    destruct (f x w) as [[y|e] w1] eqn:Hx; [|done].
    destruct (Array_map f l w1) as [[ys'|e] w2] eqn:Hl; [|done].
    unfold ret. intros [= <- _]. destruct (IH _ _ _ Hl) as [HP Hlen].
    split; [constructor; eauto|cbn; by rewrite Hlen].
Qed.

Lemma rehydrate_timestamp msg w y w' :
  rehydrate msg w = (Normal y, w') → ∃ d, y !! "timestamp" = Some (VDate d).
Proof.
  unfold rehydrate, json_get, bind, ret, throw.
  destruct (json_prop msg "timestamp") as [v|]; [|done].
  rewrite new_Date_run. destruct (constructs v); [|done].
  intros [= <- _]. eexists. apply lookup_insert_eq.
Qed.

(** X15: the outcomes of [getConversationHistory]: it never throws and never
    changes the world. When it returns a list, the conversation record is
    the text of an array with as many elements, and the [timestamp] of
    every message returned is a [Date] object (which may be the Invalid
    Date). *)
Theorem getConversationHistory_outcome w :
  ∃ r,
    getConversationHistory w = (Normal r, w) ∧
    ∀ l, r = Some l →
      Forall (λ msg : object, ∃ d, msg !! "timestamp" = Some (VDate d)) l ∧
      ∃ text elems,
        items w !! HISTORY_KEY = Some text ∧
        JSON_parse text = Some (JArr elems) ∧ length l = length elems.
Proof.
  destruct (has_window w) eqn:Hw;
    [|exists None; by rewrite getConversationHistory_nothing by auto].
  destruct (storage_denied w) eqn:Hd;
    [exists None; by rewrite getConversationHistory_nothing by auto|].
  destruct (items w !! HISTORY_KEY) as [text|] eqn:Hi;
    [|exists None; by rewrite getConversationHistory_nothing by (rewrite ?Hi; auto)].
  destruct (JSON_parse text) as [j|] eqn:Hp;
    [|exists None; by rewrite getConversationHistory_nothing by (rewrite ?Hi; auto)].
  pose proof (getConversationHistory_not_array w text j Hw Hd Hi Hp) as Hna.
  destruct j as [ | | | |elems| ]; try (exists None; by rewrite Hna).
  rewrite (getConversationHistory_parsed _ text elems) by done.
  destruct (Array_map_rehydrate_pure elems) as [r Hr]. rewrite Hr.
  destruct r as [l|e]; [|by exists None].
  exists (Some l). split; [done|]. intros l' [= <-].
  destruct (Array_map_Forall rehydrate
              (λ msg : object, ∃ d, msg !! "timestamp" = Some (VDate d))
              elems w l w) as [Hall Hlen]; [|apply Hr|].
  { intros. by eapply rehydrate_timestamp. }
  split; [exact Hall|]. by exists text, elems.
Qed.

(** *** Reading after a removal *)

Lemma clearConversation_world w :
  (clearConversation w).2 =
    if has_window w && negb (storage_denied w)
    then set_items (delete HISTORY_KEY) w else w.
Proof.
  unfold clearConversation. step_code.
  destruct (has_window w) eqn:Hw, (storage_denied w) eqn:Hd; cbn;
    rewrite ?Hw, ?Hd; reflexivity.
Qed.

Lemma deleteSession_world w :
  (deleteSession w).2 =
    if has_window w && negb (storage_denied w) then erased w else w.
Proof.
  unfold deleteSession, erased. step_code.
  destruct (has_window w) eqn:Hw, (storage_denied w) eqn:Hd; cbn;
    rewrite ?Hw, ?Hd; try reflexivity.
  cbn [storage_denied set_items]. by rewrite Hd.
Qed.

(** X16: in every world, after [clearConversation] the conversation reads as
    absent, and after [deleteSession] both the session and the
    conversation read as absent. *)
Theorem removed_records_read_absent w :
  (let w' := (clearConversation w).2 in
   getConversationHistory w' = (Normal None, w')) ∧
  (let w' := (deleteSession w).2 in
   getSession w' = (Normal JNull, w') ∧
   getConversationHistory w' = (Normal None, w')).
Proof.
  cbn zeta. rewrite clearConversation_world, deleteSession_world.
  destruct (has_window w) eqn:Hw; cbn [andb];
    [|by rewrite getSession_nothing, getConversationHistory_nothing by auto].
  destruct (storage_denied w) eqn:Hd; cbn [negb];
    [by rewrite getSession_nothing, getConversationHistory_nothing by auto|].
  split; [|split].
  - apply getConversationHistory_nothing. right. right. left.
    cbn. by rewrite lookup_delete_eq.
  - apply getSession_nothing. right. right. left.
    cbn. rewrite lookup_delete_ne by done. by rewrite lookup_delete_eq.
  - apply getConversationHistory_nothing. right. right. left.
    cbn. by rewrite lookup_delete_eq.
Qed.

(** *** A created session is found again *)

Lemma lookup_of_get (o : object) k v :
  get o k = v → v ≠ VUndefined → o !! k = Some v.
Proof. unfold get. destruct (o !! k); congruence. Qed.

(** X17: in a browser whose storage works, the session [createSession] stored
    is what [getSession] returns, in its JSON form, at every later time up
    to and including 30 days after its creation; from then on [getSession]
    returns [null] and removes the session record and the conversation
    record. *)
Theorem created_session_is_found w pageContext :
  has_window w = true → storage_denied w = false →
  (∀ k v, storage_accepts w k v = true) →
  time_ok (clock w + 2592000000) = true →
  ∃ session w',
    createSession pageContext w = (Normal session, w') ∧
    ∀ now,
      getSession (set_clock now w') =
        if clock w + 2592000000 <? now
        then (Normal JNull, erased (set_clock now w'))
        else (Normal (object_toJSON session), set_clock now w').
Proof.
  intros Hwin Hden Hacc Hclk.
  destruct (createSession_works w pageContext Hwin Hden Hacc)
    as (session & w' & Hrun & _ & _ & Hexp & Hst & _ & Hwin' & Hden' & _).
  exists session, w'. split; [exact Hrun|]. intros now.
  rewrite (getSession_parsed (set_clock now w') (JSON_stringify session)
             (object_toJSON session));
    [|exact Hwin'|exact Hden'|exact Hst|apply JSON_parse_print].
  unfold TimeClip in Hexp. rewrite Hclk in Hexp.
  assert (json_prop (object_toJSON session) "expires_at"
          = Some (VJson (JStr (Date_toISOString (clock w + 2592000000)))))
    as ->.
  { unfold object_toJSON. cbn [json_prop].
    rewrite members_map_to_list, lookup_omap.
    by rewrite (lookup_of_get _ _ _ Hexp). }
  cbn [constructs ToString negb time_value].
  rewrite Date_of_ISOString by exact Hclk.
  cbn [Date_lt clock set_clock]. reflexivity.
Qed.

(** *** Storage that is blocked *)

(** X18: in a browser where every use of [localStorage] throws, [createSession]
    still returns a session; nothing is stored, and the browser identifier
    is generated for this call, from the 31 draws after those of the
    session identifier. *)
Theorem createSession_storage_blocked pageContext w :
  has_window w = true → storage_denied w = true →
  createSession pageContext w =
    (Normal
       {[ "id" := VJson (JStr (uuid_of (entropy w) (drawn w)));
          "anonymous_browser_id" :=
            VJson (JStr (uuid_of (entropy w) (drawn w + 31)));
          "created_at" := VDate (Some (clock w));
          "expires_at" := VDate (TimeClip (clock w + 2592000000));
          "page_context" := match pageContext with
                            | Some p => VJson (JStr p)
                            | None => VUndefined
                            end ]},
     set_drawn (drawn w + 62) w).
Proof.
  intros Hwin Hden. unfold createSession, getOrCreateBrowserId. step_code.
  rewrite generateUUID_run. cbn [has_window set_drawn]. rewrite Hwin.
  cbn [negb storage_denied set_drawn]. rewrite Hden.
  rewrite generateUUID_run.
  cbn [has_window storage_denied set_drawn entropy drawn clock].
  rewrite Hwin. cbn [storage_denied set_drawn]. rewrite Hden.
  f_equal. unfold set_drawn. cbn. f_equal. lia.
Qed.

(** *** The frame of the store *)

(** X19: no operation of the store touches a record of [localStorage] other
    than its own: [getSession] and [deleteSession] leave every record but
    the session and the conversation, [createSession] every record but the
    session and the browser identifier, [saveConversation] and
    [clearConversation] every record but the conversation, and
    [getConversationHistory] every record. None of them changes anything
    else of the page but the number of draws taken from [Math.random]. *)
Theorem store_operations_frame pageContext messages :
  (∀ k, k ≠ SESSION_KEY → k ≠ HISTORY_KEY →
        keeps k getSession ∧ keeps k deleteSession) ∧
  (∀ k, k ≠ SESSION_KEY → k ≠ BROWSER_ID_KEY →
        keeps k (createSession pageContext)) ∧
  (∀ k, k ≠ HISTORY_KEY →
        keeps k (saveConversation messages) ∧ keeps k clearConversation) ∧
  (∀ k, keeps k getConversationHistory) ∧
  respects same_page getSession ∧
  respects same_page (createSession pageContext) ∧
  respects same_page (saveConversation messages) ∧
  respects same_page getConversationHistory ∧
  respects same_page clearConversation ∧
  respects same_page deleteSession.
Proof.
  split; [|split; [|split; [|split]]].
  - intros k Hs Hh. split.
    + apply respects_getSession;
        [apply same_item_refl|apply same_item_trans|..];
        by apply keeps_removeItem.
    + apply respects_deleteSession;
        [apply same_item_refl|apply same_item_trans|..];
        by apply keeps_removeItem.
  - intros k Hs Hb. by apply keeps_createSession.
  - intros k Hh. split.
    + apply respects_saveConversation;
        [apply same_item_refl|apply same_item_trans|].
      intros v. by apply keeps_setItem.
    + apply respects_clearConversation;
        [apply same_item_refl|apply same_item_trans|].
      by apply keeps_removeItem.
  - intros k. apply respects_getConversationHistory;
      [apply same_item_refl|apply same_item_trans].
  - split; [|split; [|split; [|split; [|split]]]].
    + apply respects_getSession;
        [apply same_page_refl|apply same_page_trans|..];
        apply same_page_removeItem.
    + apply respects_createSession;
        [apply same_page_refl|apply same_page_trans
        |apply same_page_Math_random|..];
        intros v; apply same_page_setItem.
    + apply respects_saveConversation;
        [apply same_page_refl|apply same_page_trans|].
      intros v. apply same_page_setItem.
    + apply respects_getConversationHistory;
        [apply same_page_refl|apply same_page_trans].
    + apply respects_clearConversation;
        [apply same_page_refl|apply same_page_trans|].
      apply same_page_removeItem.
    + apply respects_deleteSession;
        [apply same_page_refl|apply same_page_trans|..];
        apply same_page_removeItem.
Qed.

(** *** Saving twice *)

Lemma same_page_getSession : respects same_page getSession.
Proof.
  apply respects_getSession;
    [apply same_page_refl|apply same_page_trans|..];
    apply same_page_removeItem.
Qed.

Lemma same_page_createSession pageContext :
  respects same_page (createSession pageContext).
Proof.
  apply respects_createSession;
    [apply same_page_refl|apply same_page_trans
    |apply same_page_Math_random|..];
    intros v; apply same_page_setItem.
Qed.

Lemma same_page_saveConversation messages :
  respects same_page (saveConversation messages).
Proof.
  apply respects_saveConversation;
    [apply same_page_refl|apply same_page_trans|].
  intros v. apply same_page_setItem.
Qed.

Lemma same_page_getConversationHistory :
  respects same_page getConversationHistory.
Proof.
  apply respects_getConversationHistory;
    [apply same_page_refl|apply same_page_trans].
Qed.

Lemma same_page_clearConversation : respects same_page clearConversation.
Proof.
  apply respects_clearConversation;
    [apply same_page_refl|apply same_page_trans|].
  apply same_page_removeItem.
Qed.

Lemma getConversationHistory_world w : (getConversationHistory w).2 = w.
Proof.
  symmetry.
  apply (respects_getConversationHistory eq (λ _, eq_refl)
           (λ w1 w2 w3, @eq_trans World w1 w2 w3)).
Qed.

(** X20: the last list saved is the one read back: in a browser whose storage
    can be reached and takes the writes, after [saveConversation] of any
    list and then of a list [later] of well-formed messages,
    [getConversationHistory] returns [later]. *)
Theorem saveConversation_overwrites w earlier later :
  has_window w = true → storage_denied w = false →
  (∀ text, storage_accepts w HISTORY_KEY text = true) →
  Forall ChatMessage_ok later →
  ∃ w1 w2,
    saveConversation earlier w = (Normal (), w1) ∧
    saveConversation later w1 = (Normal (), w2) ∧
    getConversationHistory w2 = (Normal (Some later), w2).
Proof.
  intros Hwin Hden Hacc Hok.
  destruct (completes_saveConversation earlier w) as ([] & w1 & Hrun1).
  pose proof (same_page_saveConversation earlier w) as Hpage.
  rewrite Hrun1 in Hpage. destruct Hpage as (Hwin1 & Hden1 & Hacc1 & _).
  cbn [snd] in *.
  destruct (saveConversation_stores w1 later) as (elems & Hsave & Hread);
    [congruence|congruence|by intros; rewrite Hacc1|done|].
  eexists _, _. split; [exact Hrun1|]. split; [exact Hsave|].
  rewrite (getConversationHistory_stored _ elems).
  - by rewrite Hread.
  - cbn. congruence.
  - cbn. congruence.
  - apply lookup_insert_eq.
Qed.

(** X8: in a browser whose storage can be reached, [deleteSession] removes
    the session record and the conversation record, and no other record. *)
Theorem deleteSession_erases w :
  has_window w = true → storage_denied w = false →
  ∃ w',
    deleteSession w = (Normal (), w') ∧
    items w' !! SESSION_KEY = None ∧ items w' !! HISTORY_KEY = None ∧
    ∀ k, k ≠ SESSION_KEY → k ≠ HISTORY_KEY → items w' !! k = items w !! k.
Proof.
  intros Hwin Hden. unfold deleteSession. step_code.
  rewrite Hwin. cbn [negb]. rewrite Hden. cbn [storage_denied set_items].
  rewrite Hden. eexists. split; [reflexivity|]. cbn [items set_items].
  split; [|split].
  - rewrite lookup_delete_ne by done. apply lookup_delete_eq.
  - apply lookup_delete_eq.
  - intros k Hs Hh. by rewrite !lookup_delete_ne.
Qed.

End session_store.

(** * Properties of the query client *)

Section query_client.
Context `{Host}.
Import ChatAPI.

(** A rate-limited response: the error names the delay of the
    [Retry-After] header, or 60 when there is none. *)
Lemma receive_rate_limited header payload :
  receive {| status := 429; retry_after := header; body_text := payload |} =
    Throw (Error "Error"
             ("Rate limited. Please try again in "
              +:+ (if str_truthy header then default "" header else "60")
              +:+ " seconds.")).
Proof. reflexivity. Qed.

(** X3: a failure status other than 429 whose body is not JSON: the
    generic message. *)
Lemma receive_unreadable_body response :
  ok response = false → status response ≠ 429 →
  JSON_parse (body_text response) = None →
  receive response =
    Throw (Error "Error" ("API error: " +:+ pretty (status response))).
Proof.
  intros Hok H429 Hparse. unfold receive, Response_json.
  rewrite Hok, Hparse. cbn [negb].
  by destruct (Z.eqb_spec (status response) 429).
Qed.

(** What the call throws on a failure status other than 429 whose body
    is an object. *)
Lemma receive_object response fs :
  ok response = false → status response ≠ 429 →
  JSON_parse (body_text response) = Some (JObj fs) →
  receive response =
    Throw match members fs !! "detail" with
          | Some detail =>
              if json_truthy detail then new_Error detail
              else Error "Error" ("API error: " +:+ pretty (status response))
          | None => Error "Error" ("API error: " +:+ pretty (status response))
          end.
Proof.
  intros Hok H429 Hparse. unfold receive, Response_json.
  rewrite Hok, Hparse. cbn [negb json_prop].
  destruct (Z.eqb_spec (status response) 429); [done|].
  destruct (members fs !! "detail") as [detail|]; [|done].
  by destruct (json_truthy detail).
Qed.

(** X2: a failure status other than 429 whose body is an object. When its
    [detail] is truthy, the call throws an error whose message is the
    [detail] converted to a string (a string is its own conversion), or,
    when the [detail] has no conversion, the TypeError of converting it;
    when the [detail] is absent or falsy, the error has the generic
    message. *)
Lemma receive_detail response fs :
  ok response = false → status response ≠ 429 →
  JSON_parse (body_text response) = Some (JObj fs) →
  (∀ detail message,
     members fs !! "detail" = Some detail → json_truthy detail = true →
     ToString detail = Some message →
     receive response = Throw (Error "Error" message)) ∧
  (∀ text,
     members fs !! "detail" = Some (JStr text) → text ≠ "" →
     receive response = Throw (Error "Error" text)) ∧
  (∀ detail,
     members fs !! "detail" = Some detail → json_truthy detail = true →
     ToString detail = None →
     receive response = Throw (TypeError cannot_convert)) ∧
  (json_truthy (default JNull (members fs !! "detail")) = false →
   receive response =
     Throw (Error "Error" ("API error: " +:+ pretty (status response)))).
Proof.
  intros Hok H429 Hparse. rewrite (receive_object _ _ Hok H429 Hparse).
  split; [|split; [|split]].
  - intros detail message -> -> Hs. unfold new_Error. by rewrite Hs.
  - intros text -> Hne. cbn [json_truthy].
    by destruct (String.eqb_spec text "").
  - intros detail -> -> Hs. unfold new_Error. by rewrite Hs.
  - destruct (members fs !! "detail") as [detail|]; [|done].
    cbn [default from_option id]. by intros ->.
Qed.

(** X4: each call of the client issues one request, whatever the network
    answers: a failed call is not tried again. *)
Lemma one_request_per_call baseUrl selectedText question sessionId pageContext
    chapter section net :
  length (requests (query baseUrl question sessionId pageContext) net) = 1%nat ∧
  length (requests (querySelection baseUrl selectedText question sessionId
                                   chapter section) net) = 1%nat ∧
  length (requests (health baseUrl) net) = 1%nat.
Proof.
  destruct net as [|[r|e] net]; [done| |done].
  split; [done|]. split; [done|]. cbn. by destruct (negb (ok r)).
Qed.

(** An object whose [toString] is the one every object inherits: it has
    no member of that name. *)
Definition plain (ms : list (string * json)) : bool :=
  match members ms !! "toString" with
  | Some _ => false
  | None => true
  end.

Lemma ToString_objects (mss : list (list (string * json))) :
  mapM (λ x, match x with JNull => Some "" | _ => ToString x end) (JObj <$> mss)
  = if forallb plain mss then Some (replicate (length mss) "[object Object]")
    else None.
Proof.
  induction mss as [|ms mss IH]; [done|].
  rewrite fmap_cons. cbn [mapM forallb length replicate]. rewrite IH.
  cbn [ToString]. unfold plain at 2.
  destruct (members ms !! "toString"); [done|].
  by destruct (forallb plain mss).
Qed.

(** X5: a failure status other than 429 whose body is an object with a
    [detail] that is an object, or a list of objects as a validation error
    has it. When no object has a member named [toString], the message is
    the conversion of the [detail] to a string: ["[object Object]"] for an
    object, that text once per element, separated by commas, for a list,
    and the empty string for the empty list. When one of the objects has
    such a member, the conversion fails and the call throws its
    TypeError. *)
Lemma receive_structured_detail response fs :
  ok response = false → status response ≠ 429 →
  JSON_parse (body_text response) = Some (JObj fs) →
  (∀ ms, members fs !! "detail" = Some (JObj ms) →
         receive response =
           Throw (if plain ms then Error "Error" "[object Object]"
                  else TypeError cannot_convert)) ∧
  (∀ mss, members fs !! "detail" = Some (JArr (JObj <$> mss)) →
          receive response =
            Throw (if forallb plain mss
                   then Error "Error"
                          (join "," (replicate (length mss) "[object Object]"))
                   else TypeError cannot_convert)).
Proof.
  intros Hok H429 Hparse. rewrite (receive_object _ _ Hok H429 Hparse).
  split.
  - intros ms ->. cbn [json_truthy]. unfold new_Error, plain. cbn [ToString].
    by destruct (members ms !! "toString").
  - intros mss ->. cbn [json_truthy]. unfold new_Error. cbn [ToString].
    rewrite ToString_objects. by destruct (forallb plain mss).
Qed.

(** X21: a response with a failure status is never taken for an answer:
    [query], [querySelection] and [health] all reject, whatever the body
    holds. *)
Theorem failure_status_rejects baseUrl selectedText question sessionId
    pageContext chapter section response :
  ok response = false →
  (∃ req k e,
     query baseUrl question sessionId pageContext = Await req k ∧
     k (Responded response) = Done (Throw e)) ∧
  (∃ req k e,
     querySelection baseUrl selectedText question sessionId chapter section
       = Await req k ∧
     k (Responded response) = Done (Throw e)) ∧
  (∃ req k e,
     health baseUrl = Await req k ∧ k (Responded response) = Done (Throw e)).
Proof.
  intros Hok.
  assert (∃ e, receive response = Throw e) as [e He].
  { unfold receive. rewrite Hok. cbn [negb].
    destruct (status response =? 429); [by eexists|].
    destruct (json_prop _ "detail") as [[| |detail]|]; try by eexists.
    destruct (json_truthy detail); by eexists. }
  split; [|split].
  - eexists _, _, e. split; [reflexivity|]. cbn. by rewrite He.
  - eexists _, _, e. split; [reflexivity|]. cbn. by rewrite He.
  - eexists _, _, _. split; [reflexivity|]. cbn. by rewrite Hok.
Qed.

Lemma lookup_object_toJSON (o : object) k :
  members (map_to_list (omap value_toJSON o)) !! k = o !! k ≫= value_toJSON.
Proof. by rewrite members_map_to_list, lookup_omap. Qed.

(** X22: what the two calls send. The request is a POST of JSON text to the
    endpoint under the base address; the text parses to an object that
    holds the question and the other arguments under the names the
    backend reads. An argument that is [undefined] is left out of the
    body; a [section] that is absent or empty is sent as the empty
    string. *)
Theorem request_bodies baseUrl selectedText question sessionId pageContext
    chapter section :
  (∃ k text fs,
     query baseUrl question sessionId pageContext =
       Await {| url := baseUrl +:+ "/api/v1/chat/query"; method := "POST";
                content_type := Some "application/json"; body := Some text |}
             k ∧
     JSON_parse text = Some (JObj fs) ∧
     members fs !! "question" = Some (JStr question) ∧
     members fs !! "session_id" = value_toJSON sessionId ∧
     members fs !! "page_context" = value_toJSON pageContext) ∧
  (∃ k text fs,
     querySelection baseUrl selectedText question sessionId chapter section =
       Await {| url := baseUrl +:+ "/api/v1/chat/selection"; method := "POST";
                content_type := Some "application/json"; body := Some text |}
             k ∧
     JSON_parse text = Some (JObj fs) ∧
     members fs !! "selected_text" = Some (JStr selectedText) ∧
     members fs !! "question" = Some (JStr question) ∧
     members fs !! "session_id" = value_toJSON sessionId ∧
     members fs !! "chapter" = Some (JStr chapter) ∧
     members fs !! "section" = Some (JStr (default "" section))).
Proof.
  split.
  - eexists _, _, _. split; [reflexivity|].
    split; [apply JSON_parse_print|].
    rewrite !lookup_object_toJSON. by simplify_map_eq.
  - eexists _, _, _. split; [reflexivity|].
    split; [apply JSON_parse_print|].
    rewrite !lookup_object_toJSON.
    assert ((if str_truthy section then default "" section else "")
            = default "" section) as ->.
    { destruct section as [s|]; [|done]. cbn.
      by destruct (String.eqb_spec s "") as [->|]. }
    by simplify_map_eq.
Qed.

(** C3 at the response the claim misses: a failure status other than 429
    whose body is the JSON text of [null]. Reading [error.detail] throws,
    so [query] and [querySelection] fail with a TypeError, which carries
    neither a detail message of the server nor the generic message. *)
Theorem error_body_null_throws_TypeError baseUrl selectedText question
    sessionId pageContext chapter section :
  let response :=
    {| status := 500; retry_after := None; body_text := JSON_print JNull |} in
  let failure := Done (Throw (TypeError (cannot_read "detail"))) in
  (∃ req k,
     query baseUrl question sessionId pageContext = Await req k ∧
     k (Responded response) = failure) ∧
  (∃ req k,
     querySelection baseUrl selectedText question sessionId chapter section
       = Await req k ∧
     k (Responded response) = failure).
Proof.
  cbn zeta.
  assert (after_fetch (Responded {| status := 500; retry_after := None;
                                    body_text := JSON_print JNull |})
          = Done (Throw (TypeError (cannot_read "detail")))) as Hfail.
  { unfold after_fetch, receive, Response_json.
    cbn [ok status body_text negb andb Z.leb Z.eqb].
    by rewrite JSON_parse_print. }
  split; eexists _, _; (split; [reflexivity|exact Hfail]).
Qed.

End query_client.

(** * Properties of the widget *)

Section widget.
Context `{Host}.
Import ChatWidget.

Local Arguments saveConversation : simpl never.
Local Arguments getSession : simpl never.
Local Arguments createSession : simpl never.
Local Arguments getConversationHistory : simpl never.
Local Arguments clearConversation : simpl never.

(** While a send is awaited the component is loading, and the other way
    round; there is never a second suspended call. *)
Definition single_flight_inv (a : App) : Prop :=
  (isLoading (hooks a) = true ∧ ∃ fr, suspended a = [fr]) ∨
  (isLoading (hooks a) = false ∧ suspended a = []).

(** Until the first effect has run there are no messages, no API client and
    no suspended call. *)
Definition unmounted_inv (a : App) : Prop :=
  sessionManagerRef (hooks a) = false →
  messages (hooks a) = [] ∧ chatApiRef (hooks a) = None ∧ suspended a = [].

(** What a step does to the message list. *)
Definition appends_or_clears (before after : list object) : Prop :=
  (∃ suffix, after = before ++ suffix) ∨ after = [].

Lemma appends_nothing (l : list object) : appends_or_clears l l.
Proof. left. exists []. by rewrite app_nil_r. Qed.

Lemma appends_one (l : list object) x : appends_or_clears l (l ++ [x]).
Proof. left. by exists [x]. Qed.

Lemma handleSend_catch_spec err a :
  let a' := handleSend_catch err a in
  world a' = world a ∧ suspended a' = suspended a ∧ sent a' = sent a ∧
  isLoading (hooks a') = isLoading (hooks a) ∧
  sessionManagerRef (hooks a') = sessionManagerRef (hooks a) ∧
  ∃ errorMessage : object,
    messages (hooks a') = messages (hooks a) ++ [errorMessage] ∧
    get errorMessage "type" = VJson (JStr "error") ∧
    get errorMessage "content" =
      VJson (JStr match err with
                  | Error _ message => message
                  | NonError => "Failed to get response"
                  end).
Proof. cbn. repeat split. by eexists. Qed.

(** What the rest of [handleSend] does once the API call has settled. *)
Lemma handleSend_resume_spec fr r a :
  let a' := handleSend_resume fr r a in
  isLoading (hooks a') = false ∧ suspended a' = suspended a ∧
  sent a' = sent a ∧
  sessionManagerRef (hooks a') = sessionManagerRef (hooks a) ∧
  chatApiRef (hooks a') = chatApiRef (hooks a) ∧
  ∃ suffix, messages (hooks a') = messages (hooks a) ++ suffix.
Proof.
  cbn zeta. unfold handleSend_resume. destruct r as [response|err].
  - destruct (json_prop response "message_id") as [message_id|]; cbn;
      [|repeat split; by eexists].
    destruct (json_prop response "answer") as [answer|]; cbn;
      [|repeat split; by eexists].
    destruct (json_prop response "sources") as [sources|]; cbn;
      [|repeat split; by eexists].
    destruct (json_prop response "confidence") as [confidence|]; cbn;
      [|repeat split; by eexists].
    destruct (sessionManagerRef (hooks a)) eqn:Href.
    + match goal with
      | |- context [saveConversation ?l ?w] =>
          destruct (saveConversation l w) as [[[]|e] w']
      end; cbn.
      * repeat split; try done. by eexists.
      * repeat split; try done. eexists. by rewrite <- app_assoc.
    + cbn. repeat split; try done. by eexists.
  - cbn. repeat split. by eexists.
Qed.

(** Starting a send: either nothing happens, or the user message is
    appended, the component starts loading and one call is suspended on
    one new request. *)
Lemma handleSend_spec question useSelection a :
  let a' := handleSend question useSelection a in
  a' = a ∨
  (world a' = world a ∧
   isLoading (hooks a') = true ∧ inputValue (hooks a') = "" ∧
   sessionManagerRef (hooks a') = sessionManagerRef (hooks a) ∧
   chatApiRef (hooks a') = chatApiRef (hooks a) ∧
   is_Some (chatApiRef (hooks a)) ∧
   ∃ userMessage req,
     messages (hooks a') = messages (hooks a) ++ [userMessage] ∧
     get userMessage "type" = VJson (JStr "user") ∧
     suspended a' = suspended a ++ [{| f_messages := messages (hooks a);
                                       f_userMessage := userMessage;
                                       f_resume := ChatAPI.after_fetch |}] ∧
     sent a' = sent a ++ [req]) ∨
  (world a' = world a ∧ isLoading (hooks a') = false ∧
   suspended a' = suspended a ∧ sent a' = sent a ∧
   sessionManagerRef (hooks a') = sessionManagerRef (hooks a) ∧
   chatApiRef (hooks a') = chatApiRef (hooks a) ∧
   is_Some (chatApiRef (hooks a)) ∧
   ∃ suffix, messages (hooks a') = messages (hooks a) ++ suffix).
Proof.
  cbn zeta. unfold handleSend.
  destruct (negb (nonempty (trim question)) || negb (jsval_truthy (session (hooks a)))
            || negb (bool_decide (is_Some (chatApiRef (hooks a))))) eqn:Hguard;
    [by left|].
  right.
  assert (is_Some (chatApiRef (hooks a))) as Hapi.
  { apply orb_false_elim in Hguard as [_ Hg]. apply negb_false_iff in Hg.
    by apply bool_decide_eq_true in Hg. }
  destruct (session_prop (session (hooks a)) "id") as [sessionId|].
  - left. destruct (useSelection && nonempty (selectedText (hooks a))); cbn;
      repeat split; try done; by eexists _, _.
  - right. cbn. repeat split; try done. eexists. by rewrite <- app_assoc.
Qed.

Lemma mount_spec a :
  let a' := mount a in
  isLoading (hooks a') = isLoading (hooks a) ∧
  suspended a' = suspended a ∧ sent a' = sent a ∧
  sessionManagerRef (hooks a') = true ∧ is_Some (chatApiRef (hooks a')).
Proof.
  cbn zeta. unfold mount. cbn [world hooks on_hooks].
  destruct (getSession (world a)) as [[existing|e] w]; [|by cbn].
  destruct (json_truthy existing).
  - destruct (getConversationHistory w) as [[[saved|]|e] w']; by cbn.
  - destruct (createSession None w) as [[s|e] w0]; [|by cbn].
    destruct (getConversationHistory w0) as [[[saved|]|e] w']; by cbn.
Qed.

Lemma handleClearHistory_spec confirmed a :
  let a' := handleClearHistory confirmed a in
  isLoading (hooks a') = isLoading (hooks a) ∧
  suspended a' = suspended a ∧ sent a' = sent a ∧
  sessionManagerRef (hooks a') = sessionManagerRef (hooks a) ∧
  chatApiRef (hooks a') = chatApiRef (hooks a) ∧
  session (hooks a') = session (hooks a) ∧
  messages (hooks a') = (if confirmed then [] else messages (hooks a)).
Proof.
  cbn zeta. unfold handleClearHistory. destruct confirmed; [|done].
  destruct (sessionManagerRef (hooks a)) eqn:Href; cbn; by rewrite ?Href.
Qed.

Lemma handleNewSession_spec confirmed a :
  let a' := handleNewSession confirmed a in
  isLoading (hooks a') = isLoading (hooks a) ∧
  suspended a' = suspended a ∧ sent a' = sent a ∧
  sessionManagerRef (hooks a') = sessionManagerRef (hooks a) ∧
  chatApiRef (hooks a') = chatApiRef (hooks a) ∧
  messages (hooks a') = (if confirmed then [] else messages (hooks a)).
Proof.
  cbn zeta. unfold handleNewSession. destruct confirmed; [|done].
  destruct (sessionManagerRef (hooks a)) eqn:Href; [|cbn; by rewrite ?Href].
  destruct (createSession None (world a)) as [[s|e] w]; cbn; by rewrite ?Href.
Qed.

Lemma handleSelection_spec selection a :
  let a' := handleSelection selection a in
  isLoading (hooks a') = isLoading (hooks a) ∧
  suspended a' = suspended a ∧ sent a' = sent a ∧ world a' = world a ∧
  sessionManagerRef (hooks a') = sessionManagerRef (hooks a) ∧
  chatApiRef (hooks a') = chatApiRef (hooks a) ∧
  messages (hooks a') = messages (hooks a).
Proof.
  cbn zeta. unfold handleSelection. destruct selection as [s|]; [|done].
  by destruct (nonempty (trim s) && (10 <? String_length (trim s))%nat).
Qed.

(** A settling fetch: nothing happens when no call waits at [i]; a call
    that fetches again stays suspended; otherwise the call is taken off
    and [handleSend] runs to its end. *)
Lemma settle_spec i out a :
  settle i out a =
    match suspended a !! i with
    | None => a
    | Some fr =>
        match f_resume fr out with
        | Await req k =>
            on_suspended <[i := {| f_messages := f_messages fr;
                                   f_userMessage := f_userMessage fr;
                                   f_resume := k |}]>
                         (fetch req a)
        | Done r => handleSend_resume fr r (on_suspended (delete i) a)
        end
    end.
Proof. reflexivity. Qed.

Lemma dispatch_single_flight e a :
  single_flight_inv a → single_flight_inv (dispatch e a).
Proof.
  intros Hinv. unfold single_flight_inv in *.
  destruct e as [ | | |text|key shiftKey| | |confirmed|confirmed|id|selection
                |i out|t]; cbn [dispatch].
  - destruct (sessionManagerRef (hooks a)); [done|].
    destruct (mount_spec a) as (-> & -> & _). done.
  - by destruct (isOpen (hooks a)).
  - by destruct (isOpen (hooks a)).
  - by destruct (isOpen (hooks a) && negb (isLoading (hooks a))).
  - destruct (isOpen (hooks a) && negb (isLoading (hooks a))) eqn:Hen; [|done].
    destruct (String.eqb key "Enter" && negb shiftKey); [|done].
    apply andb_true_iff in Hen as [_ Hl]. apply negb_true_iff in Hl.
    destruct Hinv as [[Hl' _]|[_ Hs]]; [congruence|].
    destruct (handleSend_spec (inputValue (hooks a)) false a)
      as [->|[(_ & -> & _ & _ & _ & _ & um & req & _ & _ & -> & _)
             |(_ & -> & -> & _)]].
    + by right.
    + left. split; [done|]. rewrite Hs. by eexists.
    + by right.
  - destruct (isOpen (hooks a) && negb (isLoading (hooks a)
              || negb (nonempty (trim (inputValue (hooks a)))))) eqn:Hen; [|done].
    apply andb_true_iff in Hen as [_ Hl]. apply negb_true_iff in Hl.
    apply orb_false_elim in Hl as [Hl _].
    destruct Hinv as [[Hl' _]|[_ Hs]]; [congruence|].
    destruct (handleSend_spec (inputValue (hooks a)) false a)
      as [->|[(_ & -> & _ & _ & _ & _ & um & req & _ & _ & -> & _)
             |(_ & -> & -> & _)]].
    + by right.
    + left. split; [done|]. rewrite Hs. by eexists.
    + by right.
  - by destruct (isOpen (hooks a)).
  - destruct (isOpen (hooks a) && showMenu (hooks a)); [|done].
    by destruct (handleClearHistory_spec confirmed a) as (-> & -> & _).
  - destruct (isOpen (hooks a) && showMenu (hooks a)); [|done].
    by destruct (handleNewSession_spec confirmed a) as (-> & -> & _).
  - by destruct (isOpen (hooks a)).
  - destruct (sessionManagerRef (hooks a)); [|done].
    by destruct (handleSelection_spec selection a) as (-> & -> & _).
  - rewrite settle_spec. destruct (suspended a !! i) as [fr|] eqn:Hi; [|done].
    destruct Hinv as [[Hl [fr0 Hs]]|[_ Hs]]; [|by rewrite Hs in Hi].
    rewrite Hs in Hi. destruct i as [|i]; [|done].
    destruct (f_resume fr out) as [r|req k].
    + right.
      destruct (handleSend_resume_spec fr r (on_suspended (delete 0%nat) a))
        as (-> & -> & _). cbn. by rewrite Hs.
    + left. cbn. split; [done|]. rewrite Hs. by eexists.
  - done.
Qed.

Lemma reachable_single_flight a : reachable a → single_flight_inv a.
Proof.
  induction 1 as [w|e a _ IH]; [by right|]. by apply dispatch_single_flight.
Qed.

(** C2: in every state the page can reach at most one call of [handleSend]
    is suspended on the network; and while one is, an Enter key press in
    the textarea and a click on the send button change nothing: no request
    is issued, no message is appended, and nothing is kept for later. *)
Theorem single_flight a :
  reachable a →
  (length (suspended a) ≤ 1)%nat ∧
  (suspended a ≠ [] →
   ∀ key shiftKey,
     dispatch (KeyDown key shiftKey) a = a ∧ dispatch ClickSend a = a).
Proof.
  intros Hr. destruct (reachable_single_flight a Hr) as [[Hl [fr Hs]]|[Hl Hs]].
  - split; [rewrite Hs; cbn; lia|]. intros _ key shiftKey.
    cbn [dispatch]. rewrite Hl. by rewrite !andb_false_r.
  - split; [rewrite Hs; cbn; lia|]. by intros [].
Qed.

(** Every suspended call waits in [query] or [querySelection]. *)
Definition frames_inv (a : App) : Prop :=
  Forall (λ fr, f_resume fr = ChatAPI.after_fetch) (suspended a).

Lemma after_fetch_done out : ∃ r, ChatAPI.after_fetch out = Done r.
Proof. destruct out; by eexists. Qed.

Lemma dispatch_frames e a : frames_inv a → frames_inv (dispatch e a).
Proof.
  unfold frames_inv. intros Hinv.
  destruct e as [ | | |text|key shiftKey| | |confirmed|confirmed|id|selection
                |i out|t]; cbn [dispatch].
  - destruct (sessionManagerRef (hooks a)); [done|].
    by destruct (mount_spec a) as (_ & -> & _).
  - by destruct (isOpen (hooks a)).
  - by destruct (isOpen (hooks a)).
  - by destruct (isOpen (hooks a) && negb (isLoading (hooks a))).
  - destruct (isOpen (hooks a) && negb (isLoading (hooks a))); [|done].
    destruct (String.eqb key "Enter" && negb shiftKey); [|done].
    destruct (handleSend_spec (inputValue (hooks a)) false a)
      as [->|[(_ & _ & _ & _ & _ & _ & um & req & _ & _ & -> & _)
             |(_ & _ & -> & _)]]; [done| |done].
    apply Forall_app. split; [done|]. by apply Forall_singleton.
  - destruct (isOpen (hooks a) && negb (isLoading (hooks a)
              || negb (nonempty (trim (inputValue (hooks a)))))); [|done].
    destruct (handleSend_spec (inputValue (hooks a)) false a)
      as [->|[(_ & _ & _ & _ & _ & _ & um & req & _ & _ & -> & _)
             |(_ & _ & -> & _)]]; [done| |done].
    apply Forall_app. split; [done|]. by apply Forall_singleton.
  - by destruct (isOpen (hooks a)).
  - destruct (isOpen (hooks a) && showMenu (hooks a)); [|done].
    by destruct (handleClearHistory_spec confirmed a) as (_ & -> & _).
  - destruct (isOpen (hooks a) && showMenu (hooks a)); [|done].
    by destruct (handleNewSession_spec confirmed a) as (_ & -> & _).
  - by destruct (isOpen (hooks a)).
  - destruct (sessionManagerRef (hooks a)); [|done].
    by destruct (handleSelection_spec selection a) as (_ & -> & _).
  - rewrite settle_spec. destruct (suspended a !! i) as [fr|] eqn:Hi; [|done].
    rewrite (proj1 (Forall_lookup _ _) Hinv i fr Hi).
    destruct (after_fetch_done out) as [r ->].
    destruct (handleSend_resume_spec fr r (on_suspended (delete i) a))
      as (_ & -> & _). cbn. by apply Forall_delete.
  - done.
Qed.

Lemma dispatch_unmounted e a : unmounted_inv a → unmounted_inv (dispatch e a).
Proof.
  unfold unmounted_inv. intros Hinv.
  destruct e as [ | | |text|key shiftKey| | |confirmed|confirmed|id|selection
                |i out|t]; cbn [dispatch].
  - destruct (sessionManagerRef (hooks a)) eqn:Href; [by rewrite Href|].
    destruct (mount_spec a) as (_ & _ & _ & -> & _). done.
  - by destruct (isOpen (hooks a)).
  - by destruct (isOpen (hooks a)).
  - by destruct (isOpen (hooks a) && negb (isLoading (hooks a))).
  - destruct (isOpen (hooks a) && negb (isLoading (hooks a))); [|done].
    destruct (String.eqb key "Enter" && negb shiftKey); [|done].
    destruct (handleSend_spec (inputValue (hooks a)) false a)
      as [->|[(_ & _ & _ & -> & _ & Hapi & _)|(_ & _ & _ & _ & -> & _ & Hapi & _)]];
      [done|..]; intros Href; destruct (Hinv Href) as (_ & Hnone & _);
      rewrite Hnone in Hapi; by destruct Hapi.
  - destruct (isOpen (hooks a) && negb (isLoading (hooks a)
              || negb (nonempty (trim (inputValue (hooks a)))))); [|done].
    destruct (handleSend_spec (inputValue (hooks a)) false a)
      as [->|[(_ & _ & _ & -> & _ & Hapi & _)|(_ & _ & _ & _ & -> & _ & Hapi & _)]];
      [done|..]; intros Href; destruct (Hinv Href) as (_ & Hnone & _);
      rewrite Hnone in Hapi; by destruct Hapi.
  - by destruct (isOpen (hooks a)).
  - destruct (isOpen (hooks a) && showMenu (hooks a)); [|done].
    destruct (handleClearHistory_spec confirmed a)
      as (_ & -> & _ & -> & -> & _ & ->).
    intros Href. destruct (Hinv Href) as (-> & -> & ->). by destruct confirmed.
  - destruct (isOpen (hooks a) && showMenu (hooks a)); [|done].
    destruct (handleNewSession_spec confirmed a)
      as (_ & -> & _ & -> & -> & ->).
    intros Href. destruct (Hinv Href) as (-> & -> & ->). by destruct confirmed.
  - by destruct (isOpen (hooks a)).
  - destruct (sessionManagerRef (hooks a)) eqn:Href; [|intros _; by apply Hinv].
    destruct (handleSelection_spec selection a) as (_ & _ & _ & _ & -> & _).
    by rewrite Href.
  - rewrite settle_spec. destruct (suspended a !! i) as [fr|] eqn:Hi; [|done].
    intros Href.
    destruct (f_resume fr out) as [r|req k].
    + destruct (handleSend_resume_spec fr r (on_suspended (delete i) a))
        as (_ & _ & _ & Hm & _). rewrite Hm in Href. cbn in Href.
      destruct (Hinv Href) as (_ & _ & Hs). by rewrite Hs in Hi.
    + cbn in Href. destruct (Hinv Href) as (_ & _ & Hs). by rewrite Hs in Hi.
  - done.
Qed.

Lemma reachable_frames a : reachable a → frames_inv a.
Proof.
  induction 1 as [w|e a _ IH]; [by apply Forall_nil|]. by apply dispatch_frames.
Qed.

Lemma reachable_unmounted a : reachable a → unmounted_inv a.
Proof.
  induction 1 as [w|e a _ IH]; [done|]. by apply dispatch_unmounted.
Qed.

Lemma json_prop_not_null (j : json) k : j ≠ JNull → is_Some (json_prop j k).
Proof. by destruct j. Qed.

(** A send whose API call returned [response]: the assistant message is
    appended, and what is saved is the list the call captured when it
    started, the user message, and the assistant message. *)
Lemma settle_success i out a fr response :
  suspended a !! i = Some fr →
  f_resume fr out = Done (Normal response) →
  response ≠ JNull →
  sessionManagerRef (hooks a) = true →
  let a' := settle i out a in
  ∃ assistantMessage : object,
    messages (hooks a') = messages (hooks a) ++ [assistantMessage] ∧
    get assistantMessage "type" = VJson (JStr "assistant") ∧
    get assistantMessage "timestamp" = VDate (Some (clock (world a))) ∧
    world a' =
      (saveConversation (f_messages fr ++ [f_userMessage fr; assistantMessage])
                        (world a)).2.
Proof.
  intros Hi Hout Hnull Href. cbn zeta. rewrite settle_spec, Hi, Hout.
  unfold handleSend_resume.
  destruct (json_prop_not_null response "message_id" Hnull) as [message_id ->].
  destruct (json_prop_not_null response "answer" Hnull) as [answer ->].
  destruct (json_prop_not_null response "sources" Hnull) as [sources ->].
  destruct (json_prop_not_null response "confidence" Hnull) as [confidence ->].
  cbn [on_hooks hooks setMessages sessionManagerRef world on_suspended].
  rewrite Href.
  match goal with
  | |- context [saveConversation (_ ++ [_; ?m]) ?w] => set (am := m)
  end.
  exists am.
  destruct (completes_saveConversation
              (f_messages fr ++ [f_userMessage fr; am]) (world a))
    as ([] & w' & ->).
  by cbn.
Qed.

(** C6, as the code has it. From any state the page can reach, every event
    either appends to the end of the message list or empties it. The
    conversation cache is not kept equal to the list at every step: it is
    written when a send succeeds, and what is written then is the full
    list, provided the list still is what the call captured plus its user
    message; reading the cache back gives the list when storage works and
    the messages can be serialised. *)
Theorem messages_append_only a e :
  reachable a →
  let a' := dispatch e a in
  appends_or_clears (messages (hooks a)) (messages (hooks a')) ∧
  ∀ i out fr response,
    e = Settle i out → suspended a !! i = Some fr →
    ChatAPI.after_fetch out = Done (Normal response) → response ≠ JNull →
    messages (hooks a) = f_messages fr ++ [f_userMessage fr] →
    world a' = (saveConversation (messages (hooks a')) (world a)).2 ∧
    (has_window (world a) = true → storage_denied (world a) = false →
     (∀ text, storage_accepts (world a) HISTORY_KEY text = true) →
     Forall ChatMessage_ok (messages (hooks a')) →
     getConversationHistory (world a')
       = (Normal (Some (messages (hooks a'))), world a')).
Proof.
  intros Hr. cbn zeta.
  pose proof (reachable_unmounted a Hr) as Hun.
  pose proof (reachable_frames a Hr) as Hfr.
  split.
  - destruct e as [ | | |text|key shiftKey| | |confirmed|confirmed|id|selection
                  |i out|t]; cbn [dispatch]; try apply appends_nothing.
    + destruct (sessionManagerRef (hooks a)) eqn:Href; [apply appends_nothing|].
      destruct (Hun Href) as (-> & _). left. by eexists.
    + destruct (isOpen (hooks a)); apply appends_nothing.
    + destruct (isOpen (hooks a)); apply appends_nothing.
    + destruct (isOpen (hooks a) && negb (isLoading (hooks a)));
        apply appends_nothing.
    + destruct (isOpen (hooks a) && negb (isLoading (hooks a)));
        [|apply appends_nothing].
      destruct (String.eqb key "Enter" && negb shiftKey); [|apply appends_nothing].
      destruct (handleSend_spec (inputValue (hooks a)) false a)
        as [->|[(_ & _ & _ & _ & _ & _ & um & req & -> & _)
               |(_ & _ & _ & _ & _ & _ & _ & sfx & ->)]];
        [apply appends_nothing|apply appends_one|left; by eexists].
    + destruct (isOpen (hooks a) && negb (isLoading (hooks a)
                || negb (nonempty (trim (inputValue (hooks a))))));
        [|apply appends_nothing].
      destruct (handleSend_spec (inputValue (hooks a)) false a)
        as [->|[(_ & _ & _ & _ & _ & _ & um & req & -> & _)
               |(_ & _ & _ & _ & _ & _ & _ & sfx & ->)]];
        [apply appends_nothing|apply appends_one|left; by eexists].
    + destruct (isOpen (hooks a)); apply appends_nothing.
    + destruct (isOpen (hooks a) && showMenu (hooks a)); [|apply appends_nothing].
      destruct (handleClearHistory_spec confirmed a) as (_ & _ & _ & _ & _ & _ & ->).
      destruct confirmed; [by right|apply appends_nothing].
    + destruct (isOpen (hooks a) && showMenu (hooks a)); [|apply appends_nothing].
      destruct (handleNewSession_spec confirmed a) as (_ & _ & _ & _ & _ & ->).
      destruct confirmed; [by right|apply appends_nothing].
    + destruct (isOpen (hooks a)); apply appends_nothing.
    + destruct (sessionManagerRef (hooks a)); [|apply appends_nothing].
      destruct (handleSelection_spec selection a) as (_ & _ & _ & _ & _ & _ & ->).
      apply appends_nothing.
    + rewrite settle_spec. destruct (suspended a !! i) as [fr|] eqn:Hi;
        [|apply appends_nothing].
      destruct (f_resume fr out) as [r|req k]; [|apply appends_nothing].
      destruct (handleSend_resume_spec fr r (on_suspended (delete i) a))
        as (_ & _ & _ & _ & _ & sfx & ->). left. by eexists.
  - intros i out fr response -> Hi Hout Hnull Hmsgs. cbn [dispatch].
    assert (sessionManagerRef (hooks a) = true) as Href.
    { destruct (sessionManagerRef (hooks a)) eqn:Href; [done|].
      destruct (Hun Href) as (_ & _ & Hs). by rewrite Hs in Hi. }
    assert (f_resume fr out = Done (Normal response)) as Hres.
    { by rewrite (proj1 (Forall_lookup _ _) Hfr i fr Hi). }
    destruct (settle_success i out a fr response Hi Hres Hnull Href)
      as (am & Hm & _ & _ & Hw).
    assert (messages (hooks (settle i out a))
            = f_messages fr ++ [f_userMessage fr; am]) as Hall.
    { rewrite Hm, Hmsgs, <- app_assoc. done. }
    rewrite Hall. split; [exact Hw|].
    intros Hwin Hden Hacc Hok.
    destruct (saveConversation_stores (world a) _ Hwin Hden Hacc Hok)
      as (elems & Hsave & Hread).
    rewrite Hw, Hsave. cbn [snd].
    rewrite (getConversationHistory_stored _ elems); [|done|done|].
    + by rewrite Hread.
    + apply lookup_insert_eq.
Qed.

(** C7: when the API call of a suspended send fails with [err] (the fetch
    is rejected, or the response is an error response), settling it
    appends one message, of type [error], whose content is the message of
    [err]; nothing else is appended, and the world, [localStorage]
    included, stays as it is. Starting a send does not touch the world
    either. *)
Theorem failed_send_appends_error a i fr out err :
  reachable a →
  suspended a !! i = Some fr →
  ChatAPI.after_fetch out = Done (Throw err) →
  let a' := dispatch (Settle i out) a in
  (∃ errorMessage : object,
     messages (hooks a') = messages (hooks a) ++ [errorMessage] ∧
     get errorMessage "type" = VJson (JStr "error") ∧
     get errorMessage "content" =
       VJson (JStr match err with
                   | Error _ message => message
                   | NonError => "Failed to get response"
                   end)) ∧
  world a' = world a ∧
  ∀ a0 question useSelection,
    world (handleSend question useSelection a0) = world a0.
Proof.
  intros Hr Hi Hout. cbn zeta. cbn [dispatch].
  pose proof (reachable_frames a Hr) as Hfr.
  rewrite settle_spec, Hi, (proj1 (Forall_lookup _ _) Hfr i fr Hi), Hout.
  split; [|split].
  - cbn. by eexists.
  - done.
  - intros a0 question useSelection.
    by destruct (handleSend_spec question useSelection a0)
      as [->|[(-> & _)|(-> & _)]].
Qed.

(** What [clearConversation] leaves behind. *)
Definition cleared (w : World) : World :=
  if has_window w && negb (storage_denied w)
  then set_items (delete HISTORY_KEY) w else w.

Lemma clearConversation_run w : clearConversation w = (Normal (), cleared w).
Proof.
  unfold clearConversation, cleared. step_code.
  destruct (has_window w) eqn:Hw, (storage_denied w) eqn:Hd; cbn;
    rewrite ?Hw, ?Hd; reflexivity.
Qed.

(** The value [getSession] returns depends on the session record and the
    clock only. *)
Lemma getSession_reads w w' :
  has_window w' = has_window w → storage_denied w' = storage_denied w →
  items w' !! SESSION_KEY = items w !! SESSION_KEY → clock w' = clock w →
  (getSession w').1 = (getSession w).1.
Proof.
  intros Hwin Hden Hitem Hclk. unfold getSession. step_code.
  rewrite Hwin. destruct (has_window w); [|done]. cbn [negb].
  rewrite Hden. destruct (storage_denied w) eqn:Hd; [done|].
  rewrite Hitem. destruct (items w !! SESSION_KEY) as [text|]; [|done].
  destruct (str_truthy (Some text)); [|done]. cbn [negb default from_option id].
  destruct (JSON_parse text) as [session|]; [|done]. unfold ret, throw.
  destruct (json_prop session "expires_at") as [e|]; [|done].
  rewrite !new_Date_run. destruct (constructs e); [|done].
  rewrite Hclk. destruct (Date_lt (time_value e) (Some (clock w))); [|done].
  rewrite Hden, Hd. cbn [storage_denied set_items]. by rewrite Hden, Hd.
Qed.

(** C8: [clearConversation], and the Clear History action once confirmed,
    remove the conversation record and nothing else. The message list
    becomes empty; the session record in [localStorage], the session the
    component holds and the value [getSession] returns are what they
    were. *)
Theorem clear_history_keeps_session a :
  let a' := handleClearHistory true a in
  clearConversation (world a) = (Normal (), cleared (world a)) ∧
  world a' = (if sessionManagerRef (hooks a) then cleared (world a) else world a) ∧
  messages (hooks a') = [] ∧
  session (hooks a') = session (hooks a) ∧
  (items (world a') = delete HISTORY_KEY (items (world a)) ∨
   items (world a') = items (world a)) ∧
  items (cleared (world a)) !! SESSION_KEY = items (world a) !! SESSION_KEY ∧
  items (world a') !! SESSION_KEY = items (world a) !! SESSION_KEY ∧
  (getSession (world a')).1 = (getSession (world a)).1 ∧
  dispatch (ClickClearHistory true) a =
    (if isOpen (hooks a) && showMenu (hooks a) then a' else a).
Proof.
  cbn zeta.
  assert (∀ w, items (cleared w) !! SESSION_KEY = items w !! SESSION_KEY)
    as Hkeep.
  { intros w. unfold cleared.
    destruct (has_window w && negb (storage_denied w)); [|done].
    cbn. by rewrite lookup_delete_ne. }
  assert (world (handleClearHistory true a)
          = if sessionManagerRef (hooks a) then cleared (world a) else world a)
    as Hw.
  { unfold handleClearHistory. cbn [on_hooks hooks sessionManagerRef setMessages].
    destruct (sessionManagerRef (hooks a)); [|done].
    cbn. by rewrite clearConversation_run. }
  split; [apply clearConversation_run|]. split; [exact Hw|].
  destruct (handleClearHistory_spec true a) as (_ & _ & _ & _ & _ & Hs & Hm).
  split; [exact Hm|]. split; [exact Hs|]. rewrite Hw.
  split; [|split; [apply Hkeep|split; [|split; [|done]]]].
  - destruct (sessionManagerRef (hooks a)); [|by right]. unfold cleared.
    destruct (has_window (world a) && negb (storage_denied (world a)));
      [by left|by right].
  - destruct (sessionManagerRef (hooks a)); [apply Hkeep|done].
  - destruct (sessionManagerRef (hooks a)); [|done].
    apply getSession_reads; [..|apply Hkeep|];
      unfold cleared;
      by destruct (has_window (world a) && negb (storage_denied (world a))).
Qed.

(** *** A late answer *)

(** X6: Clear History does not cancel a pending send. When the answer of
    a send arrives after the user has cleared the history, the assistant
    message is appended to the emptied list, and what is saved is the list
    the call captured when it started, the messages that were cleared,
    with the user message and the assistant message. *)
Theorem late_answer_saves_cleared_messages a i fr out response :
  reachable a →
  isOpen (hooks a) = true → showMenu (hooks a) = true →
  suspended a !! i = Some fr →
  ChatAPI.after_fetch out = Done (Normal response) → response ≠ JNull →
  let a1 := dispatch (ClickClearHistory true) a in
  let a2 := dispatch (Settle i out) a1 in
  ∃ assistantMessage : object,
    messages (hooks a1) = [] ∧
    messages (hooks a2) = [assistantMessage] ∧
    world a2 =
      (saveConversation (f_messages fr ++ [f_userMessage fr; assistantMessage])
                        (world a1)).2.
Proof.
  intros Hr Hopen Hmenu Hi Hout Hnull. cbn zeta. cbn [dispatch].
  rewrite Hopen, Hmenu. cbn [andb].
  pose proof (reachable_unmounted a Hr) as Hun.
  pose proof (reachable_frames a Hr) as Hfr.
  assert (sessionManagerRef (hooks a) = true) as Href.
  { destruct (sessionManagerRef (hooks a)) eqn:Href; [done|].
    destruct (Hun Href) as (_ & _ & Hs). by rewrite Hs in Hi. }
  assert (f_resume fr out = Done (Normal response)) as Hres.
  { by rewrite (proj1 (Forall_lookup _ _) Hfr i fr Hi). }
  destruct (handleClearHistory_spec true a)
    as (_ & Hs1 & _ & Href1 & _ & _ & Hm1).
  rewrite <- Hs1 in Hi. rewrite <- Href1 in Href.
  destruct (settle_success i out _ fr response Hi Hres Hnull Href)
    as (am & Hm & _ & _ & Hw).
  exists am. split; [exact Hm1|]. split; [|exact Hw].
  rewrite Hm, Hm1. reflexivity.
Qed.

(** *** A new session *)

(** X7: the New Session action, once confirmed, empties the message list;
    the conversation record in [localStorage] stays as it is. *)
Theorem new_session_keeps_history a :
  let a' := handleNewSession true a in
  messages (hooks a') = [] ∧
  items (world a') !! HISTORY_KEY = items (world a) !! HISTORY_KEY.
Proof.
  cbn zeta. destruct (handleNewSession_spec true a) as (_ & _ & _ & _ & _ & Hm).
  split; [exact Hm|]. unfold handleNewSession.
  destruct (sessionManagerRef (hooks a)); [|done].
  pose proof (keeps_createSession HISTORY_KEY None
                ltac:(done) ltac:(done) (world a)) as Hkeep.
  destruct (createSession None (world a)) as [[s|e] w]; exact Hkeep.
Qed.

(** *** The input field *)

Lemma mount_inputValue a : inputValue (hooks (mount a)) = inputValue (hooks a).
Proof.
  unfold mount. cbn [world hooks on_hooks].
  destruct (getSession (world a)) as [[existing|e] w]; [|by cbn].
  destruct (json_truthy existing).
  - destruct (getConversationHistory w) as [[[saved|]|e] w']; by cbn.
  - destruct (createSession None w) as [[s|e] w0]; [|by cbn].
    destruct (getConversationHistory w0) as [[[saved|]|e] w']; by cbn.
Qed.

Lemma handleSend_resume_inputValue fr r a :
  inputValue (hooks (handleSend_resume fr r a)) = inputValue (hooks a).
Proof.
  unfold handleSend_resume. destruct r as [response|err]; [|done].
  destruct (json_prop response "message_id") as [message_id|]; [|done].
  destruct (json_prop response "answer") as [answer|]; [|done].
  destruct (json_prop response "sources") as [sources|]; [|done].
  destruct (json_prop response "confidence") as [confidence|]; [|done].
  cbn [on_hooks hooks setMessages sessionManagerRef world].
  destruct (sessionManagerRef (hooks a)); [|done].
  match goal with
  | |- context [saveConversation ?l ?w] =>
      by destruct (saveConversation l w) as [[[]|e] w']
  end.
Qed.

(** [handleSend] leaves the input field alone when it drops the question,
    and empties it otherwise. *)
Lemma handleSend_inputValue_run question useSelection a :
  inputValue (hooks (handleSend question useSelection a)) =
    if negb (nonempty (trim question)) || negb (jsval_truthy (session (hooks a)))
       || negb (bool_decide (is_Some (chatApiRef (hooks a))))
    then inputValue (hooks a) else "".
Proof.
  unfold handleSend.
  destruct (negb (nonempty (trim question)) || negb (jsval_truthy (session (hooks a)))
            || negb (bool_decide (is_Some (chatApiRef (hooks a))))); [done|].
  destruct (session_prop (session (hooks a)) "id") as [sessionId|].
  - by destruct (useSelection && nonempty (selectedText (hooks a))).
  - by rewrite handleSend_resume_inputValue.
Qed.

Lemma handleSend_inputValue question useSelection a :
  let a' := handleSend question useSelection a in
  inputValue (hooks a') = inputValue (hooks a) ∨ inputValue (hooks a') = "".
Proof.
  cbn zeta. rewrite handleSend_inputValue_run.
  destruct (negb (nonempty (trim question)) || negb (jsval_truthy (session (hooks a)))
            || negb (bool_decide (is_Some (chatApiRef (hooks a))))); auto.
Qed.

Lemma dispatch_inputValue e a :
  (String_length (inputValue (hooks a)) ≤ 500)%nat →
  (String_length (inputValue (hooks (dispatch e a))) ≤ 500)%nat.
Proof.
  intros Hinv.
  destruct e as [ | | |text|key shiftKey| | |confirmed|confirmed|id|selection
                |i out|t]; cbn [dispatch].
  - destruct (sessionManagerRef (hooks a)); [done|]. by rewrite mount_inputValue.
  - by destruct (isOpen (hooks a)).
  - by destruct (isOpen (hooks a)).
  - destruct (isOpen (hooks a) && negb (isLoading (hooks a))); [|done].
    apply String_length_slice.
  - destruct (isOpen (hooks a) && negb (isLoading (hooks a))); [|done].
    destruct (String.eqb key "Enter" && negb shiftKey); [|done].
    destruct (handleSend_inputValue (inputValue (hooks a)) false a) as [->| ->];
      [done|rewrite String_length_empty; lia].
  - destruct (isOpen (hooks a) && negb (isLoading (hooks a)
              || negb (nonempty (trim (inputValue (hooks a)))))); [|done].
    destruct (handleSend_inputValue (inputValue (hooks a)) false a) as [->| ->];
      [done|rewrite String_length_empty; lia].
  - by destruct (isOpen (hooks a)).
  - destruct (isOpen (hooks a) && showMenu (hooks a)); [|done].
    unfold handleClearHistory. destruct confirmed; [|done].
    cbn [on_hooks hooks setMessages sessionManagerRef].
    by destruct (sessionManagerRef (hooks a)).
  - destruct (isOpen (hooks a) && showMenu (hooks a)); [|done].
    unfold handleNewSession. destruct confirmed; [|done].
    destruct (sessionManagerRef (hooks a)); [|done].
    by destruct (createSession None (world a)) as [[s|e] w].
  - by destruct (isOpen (hooks a)).
  - destruct (sessionManagerRef (hooks a)); [|done].
    unfold handleSelection. destruct selection as [s|]; [|done].
    by destruct (nonempty (trim s) && (10 <? String_length (trim s))%nat).
  - rewrite settle_spec. destruct (suspended a !! i) as [fr|]; [|done].
    destruct (f_resume fr out) as [r|req k]; [|done].
    by rewrite handleSend_resume_inputValue.
  - done.
Qed.

Lemma reachable_inputValue a :
  reachable a → (String_length (inputValue (hooks a)) ≤ 500)%nat.
Proof.
  induction 1 as [w|e a _ IH]; [|by apply dispatch_inputValue].
  cbn. rewrite String_length_empty. lia.
Qed.

(** *** Selected text *)

(** X10: a [mouseup] keeps the selection, trimmed as [trim] does it, when
    the trimmed text is longer than 10 code units, the unit of [length];
    otherwise the selected text the component holds stays what it was. *)
Theorem handleSelection_threshold s a :
  selectedText (hooks (handleSelection (Some s) a)) =
    if (10 <? String_length (trim s))%nat then trim s
    else selectedText (hooks a).
Proof.
  unfold handleSelection.
  destruct (10 <? String_length (trim s))%nat eqn:Hlen.
  - assert (nonempty (trim s) = true) as ->; [|done].
    destruct (trim s) eqn:Hs; [|done].
    by rewrite String_length_empty in Hlen.
  - by rewrite andb_false_r.
Qed.

(** *** The session and the backend address of a mounted widget *)

Lemma API_URL_same_page w w' : same_page w w' → API_URL w' = API_URL w.
Proof.
  intros (Hwin & _ & _ & _ & _ & _ & Hhost & Hurl). unfold API_URL.
  by rewrite Hwin, Hhost, Hurl.
Qed.

Lemma mount_world a : same_page (world a) (world (mount a)).
Proof.
  unfold mount. cbn [world hooks on_hooks].
  pose proof (same_page_getSession (world a)) as H1.
  destruct (getSession (world a)) as [[existing|e] w]; cbn [snd] in H1;
    [|exact H1].
  destruct (json_truthy existing).
  - pose proof (same_page_getConversationHistory w) as H2.
    destruct (getConversationHistory w) as [[[saved|]|e] w']; cbn in *;
      by eapply same_page_trans.
  - pose proof (same_page_createSession None w) as H2.
    destruct (createSession None w) as [[s|e] w0]; cbn [snd] in H2;
      [|by eapply same_page_trans].
    pose proof (same_page_getConversationHistory w0) as H3.
    destruct (getConversationHistory w0) as [[[saved|]|e] w']; cbn in *;
      (eapply same_page_trans; [exact H1|]; by eapply same_page_trans).
Qed.

Lemma mount_refs a :
  chatApiRef (hooks (mount a)) = Some (API_URL (world a)) ∧
  jsval_truthy (session (hooks (mount a))) = true.
Proof.
  unfold mount. cbn [world hooks on_hooks].
  destruct (completes_getSession (world a)) as (existing & w & ->).
  destruct (json_truthy existing) eqn:Ht.
  - destruct (getConversationHistory w) as [[[saved|]|e] w']; by cbn.
  - destruct (completes_createSession None w) as (s & w0 & ->).
    destruct (getConversationHistory w0) as [[[saved|]|e] w']; by cbn.
Qed.

Lemma handleSend_resume_frame fr r a :
  let a' := handleSend_resume fr r a in
  session (hooks a') = session (hooks a) ∧ same_page (world a) (world a').
Proof.
  cbn zeta. unfold handleSend_resume.
  destruct r as [response|err]; [|split; [done|apply same_page_refl]].
  destruct (json_prop response "message_id") as [message_id|];
    [|split; [done|apply same_page_refl]].
  destruct (json_prop response "answer") as [answer|];
    [|split; [done|apply same_page_refl]].
  destruct (json_prop response "sources") as [sources|];
    [|split; [done|apply same_page_refl]].
  destruct (json_prop response "confidence") as [confidence|];
    [|split; [done|apply same_page_refl]].
  cbn [on_hooks hooks setMessages sessionManagerRef world].
  destruct (sessionManagerRef (hooks a)); [|split; [done|apply same_page_refl]].
  match goal with
  | |- context [saveConversation ?l ?w] =>
      pose proof (same_page_saveConversation l w) as Hp;
      destruct (saveConversation l w) as [[[]|e] w']
  end; split; done.
Qed.

Lemma handleSend_session question useSelection a :
  session (hooks (handleSend question useSelection a)) = session (hooks a).
Proof.
  unfold handleSend.
  destruct (negb (nonempty (trim question)) || negb (jsval_truthy (session (hooks a)))
            || negb (bool_decide (is_Some (chatApiRef (hooks a))))); [done|].
  destruct (session_prop (session (hooks a)) "id") as [sessionId|].
  - by destruct (useSelection && nonempty (selectedText (hooks a))).
  - by destruct (handleSend_resume_frame
                   {| f_messages := messages (hooks a); f_userMessage := ∅;
                      f_resume := λ _, Done (Throw NonError) |}
                   (Throw (TypeError (cannot_read "id"))) a).
Qed.

Lemma handleSend_world question useSelection a :
  world (handleSend question useSelection a) = world a.
Proof.
  by destruct (handleSend_spec question useSelection a)
    as [->|[(-> & _)|(-> & _)]].
Qed.

Lemma handleSend_refs question useSelection a :
  let a' := handleSend question useSelection a in
  sessionManagerRef (hooks a') = sessionManagerRef (hooks a) ∧
  chatApiRef (hooks a') = chatApiRef (hooks a).
Proof.
  cbn zeta.
  by destruct (handleSend_spec question useSelection a)
    as [->|[(_ & _ & _ & -> & -> & _)|(_ & _ & _ & _ & -> & -> & _)]].
Qed.

Lemma handleClearHistory_world confirmed a :
  same_page (world a) (world (handleClearHistory confirmed a)).
Proof.
  unfold handleClearHistory. destruct confirmed; [|apply same_page_refl].
  cbn [on_hooks hooks setMessages sessionManagerRef world].
  destruct (sessionManagerRef (hooks a)); [|apply same_page_refl].
  apply same_page_clearConversation.
Qed.

Lemma handleNewSession_frame confirmed a :
  let a' := handleNewSession confirmed a in
  (session (hooks a') = session (hooks a) ∨
   jsval_truthy (session (hooks a')) = true) ∧
  same_page (world a) (world a').
Proof.
  cbn zeta. unfold handleNewSession.
  destruct confirmed; [|split; [by left|apply same_page_refl]].
  destruct (sessionManagerRef (hooks a));
    [|split; [by left|apply same_page_refl]].
  pose proof (same_page_createSession None (world a)) as Hp.
  destruct (createSession None (world a)) as [[s|e] w]; split;
    [by right|exact Hp|by left|exact Hp].
Qed.

(** What one event does to the session, the references and the backend
    address: either the references stay and the session stays or becomes
    a new one, or the first effect has just set them. *)
Lemma dispatch_step e a :
  unmounted_inv a →
  let a' := dispatch e a in
  API_URL (world a') = API_URL (world a) ∧
  ((sessionManagerRef (hooks a') = sessionManagerRef (hooks a) ∧
    chatApiRef (hooks a') = chatApiRef (hooks a) ∧
    (session (hooks a') = session (hooks a) ∨
     jsval_truthy (session (hooks a')) = true)) ∨
   (chatApiRef (hooks a') = Some (API_URL (world a)) ∧
    jsval_truthy (session (hooks a')) = true)).
Proof.
  intros Hun. cbn zeta.
  assert (∀ b : App,
            world b = world a → sessionManagerRef (hooks b) = sessionManagerRef (hooks a) →
            chatApiRef (hooks b) = chatApiRef (hooks a) →
            session (hooks b) = session (hooks a) →
            API_URL (world b) = API_URL (world a) ∧
            ((sessionManagerRef (hooks b) = sessionManagerRef (hooks a) ∧
              chatApiRef (hooks b) = chatApiRef (hooks a) ∧
              (session (hooks b) = session (hooks a) ∨
               jsval_truthy (session (hooks b)) = true)) ∨
             (chatApiRef (hooks b) = Some (API_URL (world a)) ∧
              jsval_truthy (session (hooks b)) = true))) as Hsame.
  { intros b -> Hm Hc Hs. split; [done|]. left. split; [done|]. split; [done|].
    by left. }
  destruct e as [ | | |text|key shiftKey| | |confirmed|confirmed|id|selection
                |i out|t]; cbn [dispatch].
  - destruct (sessionManagerRef (hooks a)) eqn:Href; [by apply Hsame|].
    split; [apply API_URL_same_page, mount_world|]. right. apply mount_refs.
  - destruct (isOpen (hooks a)); by apply Hsame.
  - destruct (isOpen (hooks a)); by apply Hsame.
  - destruct (isOpen (hooks a) && negb (isLoading (hooks a))); by apply Hsame.
  - destruct (isOpen (hooks a) && negb (isLoading (hooks a)));
      [|by apply Hsame].
    destruct (String.eqb key "Enter" && negb shiftKey); [|by apply Hsame].
    apply Hsame;
      [apply handleSend_world|apply handleSend_refs|apply handleSend_refs
      |apply handleSend_session].
  - destruct (isOpen (hooks a) && negb (isLoading (hooks a)
              || negb (nonempty (trim (inputValue (hooks a))))));
      [|by apply Hsame].
    apply Hsame;
      [apply handleSend_world|apply handleSend_refs|apply handleSend_refs
      |apply handleSend_session].
  - destruct (isOpen (hooks a)); by apply Hsame.
  - destruct (isOpen (hooks a) && showMenu (hooks a)); [|by apply Hsame].
    split; [apply API_URL_same_page, handleClearHistory_world|].
    destruct (handleClearHistory_spec confirmed a)
      as (_ & _ & _ & Hm & Hc & Hs & _).
    left. split; [exact Hm|]. split; [exact Hc|]. by left.
  - destruct (isOpen (hooks a) && showMenu (hooks a)); [|by apply Hsame].
    destruct (handleNewSession_frame confirmed a) as [Hs Hp].
    split; [by apply API_URL_same_page|].
    destruct (handleNewSession_spec confirmed a)
      as (_ & _ & _ & Hm & Hc & _).
    left. split; [exact Hm|]. split; [exact Hc|exact Hs].
  - destruct (isOpen (hooks a)); by apply Hsame.
  - destruct (sessionManagerRef (hooks a)) eqn:Href; [|by apply Hsame].
    unfold handleSelection. destruct selection as [s|]; [|by apply Hsame].
    destruct (nonempty (trim s) && (10 <? String_length (trim s))%nat);
      by apply Hsame.
  - rewrite settle_spec. destruct (suspended a !! i) as [fr|];
      [|by apply Hsame].
    destruct (f_resume fr out) as [r|req k]; [|by apply Hsame].
    destruct (handleSend_resume_frame fr r (on_suspended (delete i) a))
      as [Hs Hp].
    destruct (handleSend_resume_spec fr r (on_suspended (delete i) a))
      as (_ & _ & _ & Hm & Hc & _).
    split; [by apply API_URL_same_page in Hp|].
    left. split; [exact Hm|]. split; [exact Hc|]. left. exact Hs.
  - split; [reflexivity|]. left. split; [done|]. split; [done|]. by left.
Qed.

(** Once the first effect has run the widget holds a session and the
    backend address. *)
Definition mounted_inv (a : App) : Prop :=
  sessionManagerRef (hooks a) = true →
  jsval_truthy (session (hooks a)) = true ∧
  chatApiRef (hooks a) = Some (API_URL (world a)).

Lemma reachable_mounted a : reachable a → mounted_inv a.
Proof.
  induction 1 as [w|e a Hr IH]; [done|].
  pose proof (reachable_unmounted a Hr) as Hun.
  pose proof (reachable_unmounted _ (reachable_dispatch e a Hr)) as Hun'.
  destruct (dispatch_step e a Hun) as [Hurl [(Href & Hapi & Hs)|[Hapi Hs]]];
    intros Hm.
  - rewrite Href in Hm. destruct (IH Hm) as [Ht Ha].
    rewrite Hapi, Hurl. split; [|exact Ha].
    destruct Hs as [->|Hs]; done.
  - rewrite Hurl. done.
Qed.

(** X9: in every state the page can reach, the text of the input field is
    at most 500 code units long, the unit of [length] and [slice]. The
    field changes in two ways: a change of the enabled field sets it to
    the first 500 code units of the text entered, and a send that goes
    out, by a click on the enabled button or by Enter, empties it. *)
Theorem inputValue_at_most_500 a :
  reachable a →
  (String_length (inputValue (hooks a)) ≤ 500)%nat ∧
  (∀ text,
     isOpen (hooks a) = true → isLoading (hooks a) = false →
     inputValue (hooks (dispatch (ChangeInput text) a))
     = String_slice 0 500 text) ∧
  (sessionManagerRef (hooks a) = true →
   isOpen (hooks a) = true → isLoading (hooks a) = false →
   nonempty (trim (inputValue (hooks a))) = true →
   inputValue (hooks (dispatch ClickSend a)) = "" ∧
   inputValue (hooks (dispatch (KeyDown "Enter" false) a)) = "").
Proof.
  intros Hr. split; [by apply reachable_inputValue|]. split.
  - intros text Hopen Hload. cbn [dispatch]. by rewrite Hopen, Hload.
  - intros Hm Hopen Hload Hinput.
    destruct (reachable_mounted a Hr Hm) as [Ht Hapi].
    cbn [dispatch]. rewrite Hopen, Hload, Hinput, String.eqb_refl.
    cbn [andb orb negb]. rewrite !handleSend_inputValue_run, Hinput, Ht, Hapi.
    by rewrite bool_decide_eq_true_2 by by eexists.
Qed.

Lemma truthy_session_has_id s :
  jsval_truthy s = true → is_Some (session_prop s "id").
Proof.
  destruct s as [j|o]; [|by eexists]. intros Ht.
  apply json_prop_not_null. by intros ->.
Qed.

(** X23: in every state the page can reach after its first effect, the widget
    holds a session, reading its [id] does not throw, and the client it
    holds talks to the backend address of the page. This holds in every
    world, also where [localStorage] is missing or blocked. *)
Theorem mounted_widget_has_session a :
  reachable a → sessionManagerRef (hooks a) = true →
  jsval_truthy (session (hooks a)) = true ∧
  is_Some (session_prop (session (hooks a)) "id") ∧
  chatApiRef (hooks a) = Some (API_URL (world a)).
Proof.
  intros Hr Hm. destruct (reachable_mounted a Hr Hm) as [Ht Hapi].
  split; [exact Ht|]. split; [by apply truthy_session_has_id|exact Hapi].
Qed.

(** *** The endpoint *)

Lemma handleSend_sent question a :
  let a' := handleSend question false a in
  sent a' = sent a ∨
  ∃ base payload,
    chatApiRef (hooks a) = Some base ∧
    sent a' = sent a ++ [ChatAPI.post (base +:+ "/api/v1/chat/query") payload].
Proof.
  cbn zeta. unfold handleSend.
  destruct (negb (nonempty (trim question)) || negb (jsval_truthy (session (hooks a)))
            || negb (bool_decide (is_Some (chatApiRef (hooks a))))) eqn:Hguard;
    [by left|].
  assert (is_Some (chatApiRef (hooks a))) as [base Hbase].
  { apply orb_false_elim in Hguard as [_ Hg]. apply negb_false_iff in Hg.
    by apply bool_decide_eq_true in Hg. }
  destruct (session_prop (session (hooks a)) "id") as [sessionId|].
  - right. exists base. rewrite Hbase. cbn. by eexists.
  - left. by destruct (handleSend_resume_spec
                         {| f_messages := messages (hooks a);
                            f_userMessage := ∅;
                            f_resume := λ _, Done (Throw NonError) |}
                         (Throw (TypeError (cannot_read "id"))) a).
Qed.

(** The requests one event adds: none, or one POST to the [query]
    endpoint of the client's base address. *)
Lemma dispatch_sent e a :
  frames_inv a →
  let a' := dispatch e a in
  sent a' = sent a ∨
  ∃ base payload,
    chatApiRef (hooks a) = Some base ∧
    sent a' = sent a ++ [ChatAPI.post (base +:+ "/api/v1/chat/query") payload].
Proof.
  intros Hfr. cbn zeta.
  destruct e as [ | | |text|key shiftKey| | |confirmed|confirmed|id|selection
                |i out|t]; cbn [dispatch].
  - destruct (sessionManagerRef (hooks a)); [by left|].
    left. by destruct (mount_spec a) as (_ & _ & -> & _).
  - left. by destruct (isOpen (hooks a)).
  - left. by destruct (isOpen (hooks a)).
  - left. by destruct (isOpen (hooks a) && negb (isLoading (hooks a))).
  - destruct (isOpen (hooks a) && negb (isLoading (hooks a))); [|by left].
    destruct (String.eqb key "Enter" && negb shiftKey); [|by left].
    apply handleSend_sent.
  - destruct (isOpen (hooks a) && negb (isLoading (hooks a)
              || negb (nonempty (trim (inputValue (hooks a)))))); [|by left].
    apply handleSend_sent.
  - left. by destruct (isOpen (hooks a)).
  - destruct (isOpen (hooks a) && showMenu (hooks a)); [|by left].
    left. by destruct (handleClearHistory_spec confirmed a) as (_ & _ & -> & _).
  - destruct (isOpen (hooks a) && showMenu (hooks a)); [|by left].
    left. by destruct (handleNewSession_spec confirmed a) as (_ & _ & -> & _).
  - left. by destruct (isOpen (hooks a)).
  - destruct (sessionManagerRef (hooks a)); [|by left].
    left. by destruct (handleSelection_spec selection a) as (_ & _ & -> & _).
  - left. rewrite settle_spec.
    destruct (suspended a !! i) as [fr|] eqn:Hi; [|done].
    rewrite (proj1 (Forall_lookup _ _) Hfr i fr Hi).
    destruct (after_fetch_done out) as [r ->].
    by destruct (handleSend_resume_spec fr r (on_suspended (delete i) a))
      as (_ & _ & -> & _).
  - by left.
Qed.

(** X11: the text field and the send button call [handleSend] without its
    second argument, so every request the page sends is a POST to the
    [query] endpoint of the backend address of the page; [querySelection]
    is never called. *)
Theorem sends_go_to_query a :
  reachable a →
  Forall (λ req, method req = "POST" ∧
                 url req = API_URL (world a) +:+ "/api/v1/chat/query")
         (sent a).
Proof.
  induction 1 as [w|e a Hr IH]; [by apply Forall_nil|].
  pose proof (reachable_unmounted a Hr) as Hun.
  destruct (dispatch_step e a Hun) as [-> _].
  destruct (dispatch_sent e a (reachable_frames a Hr))
    as [->|(base & payload & Hbase & ->)]; [exact IH|].
  apply Forall_app. split; [exact IH|]. apply Forall_singleton.
  split; [done|]. cbn [ChatAPI.post url]. f_equal.
  destruct (sessionManagerRef (hooks a)) eqn:Href.
  - destruct (reachable_mounted a Hr Href) as [_ Hapi]. congruence.
  - destruct (Hun Href) as (_ & Hnone & _). congruence.
Qed.

(** *** Sending a question *)

Lemma posted_body address (payload : object) :
  ∃ text fs,
    ChatAPI.post address payload =
      {| url := address; method := "POST";
         content_type := Some "application/json"; body := Some text |} ∧
    JSON_parse text = Some (JObj fs) ∧
    ∀ k, members fs !! k = payload !! k ≫= value_toJSON.
Proof.
  eexists _, _. split; [reflexivity|]. split; [apply JSON_parse_print|].
  intros k. apply lookup_object_toJSON.
Qed.

(** X24: a click on the send button of a mounted, open widget that is not
    waiting and whose input is not blank: the input field is emptied, the
    widget starts loading, a user message is appended whose content is
    the text as it was typed and whose time is the current one, and one
    request is sent, to the [query] endpoint of the backend address, whose
    body holds that text, the [id] of the session the widget holds, and
    the path of the page. *)
Theorem send_question a :
  reachable a → sessionManagerRef (hooks a) = true →
  isOpen (hooks a) = true → isLoading (hooks a) = false →
  nonempty (trim (inputValue (hooks a))) = true →
  let a' := dispatch ClickSend a in
  inputValue (hooks a') = "" ∧ isLoading (hooks a') = true ∧
  ∃ (userMessage : object) sessionId text fs,
    session_prop (session (hooks a)) "id" = Some sessionId ∧
    messages (hooks a') = messages (hooks a) ++ [userMessage] ∧
    get userMessage "type" = VJson (JStr "user") ∧
    get userMessage "content" = VJson (JStr (inputValue (hooks a))) ∧
    get userMessage "timestamp" = VDate (Some (clock (world a))) ∧
    sent a' = sent a ++
      [{| url := API_URL (world a) +:+ "/api/v1/chat/query"; method := "POST";
          content_type := Some "application/json"; body := Some text |}] ∧
    JSON_parse text = Some (JObj fs) ∧
    members fs !! "question" = Some (JStr (inputValue (hooks a))) ∧
    members fs !! "session_id" = value_toJSON sessionId ∧
    members fs !! "page_context" = Some (JStr (pathname (world a))).
Proof.
  intros Hr Hm Hopen Hload Hinput. cbn zeta. cbn [dispatch].
  rewrite Hopen, Hload, Hinput. cbn [andb orb negb].
  destruct (reachable_mounted a Hr Hm) as [Ht Hapi].
  destruct (truthy_session_has_id _ Ht) as [sessionId Hid].
  unfold handleSend. rewrite Hinput, Ht, Hapi, Hid.
  rewrite bool_decide_eq_true_2 by by eexists.
  cbn [negb orb andb default from_option id].
  unfold ChatAPI.query. cbn [world on_hooks].
  match goal with
  | |- context [ChatAPI.post ?address ?payload] =>
      destruct (posted_body address payload) as (text & fs & -> & Hparse & Hfs)
  end.
  cbn. split; [done|]. split; [done|].
  eexists _, sessionId, text, fs. split; [done|]. split; [done|].
  split; [done|]. split; [done|]. split; [done|]. split; [done|].
  split; [exact Hparse|]. rewrite !Hfs. by simplify_map_eq.
Qed.

(** *** The end of a send *)

Lemma handleSend_resume_one fr r a :
  ∃ m : object,
    messages (hooks (handleSend_resume fr r a)) = messages (hooks a) ++ [m] ∧
    (get m "type" = VJson (JStr "assistant") ∨
     get m "type" = VJson (JStr "error")).
Proof.
  unfold handleSend_resume.
  destruct r as [response|err]; [|cbn; by eexists; split; [|right]].
  destruct (json_prop response "message_id") as [message_id|];
    [|cbn; by eexists; split; [|right]].
  destruct (json_prop response "answer") as [answer|];
    [|cbn; by eexists; split; [|right]].
  destruct (json_prop response "sources") as [sources|];
    [|cbn; by eexists; split; [|right]].
  destruct (json_prop response "confidence") as [confidence|];
    [|cbn; by eexists; split; [|right]].
  cbn [on_hooks hooks setMessages sessionManagerRef world].
  destruct (sessionManagerRef (hooks a)).
  - match goal with
    | |- context [saveConversation ?l ?w] =>
        destruct (completes_saveConversation l w) as ([] & w' & ->)
    end.
    cbn. eexists. split; [reflexivity|]. by left.
  - cbn. eexists. split; [reflexivity|]. by left.
Qed.

(** X25: every pending send ends when its fetch settles, whatever the network
    answers: the widget stops loading, no call stays suspended, no further
    request is sent, and exactly one message is appended, of type
    [assistant] or of type [error]. *)
Theorem settled_send_ends a i fr out :
  reachable a → suspended a !! i = Some fr →
  let a' := dispatch (Settle i out) a in
  isLoading (hooks a') = false ∧ suspended a' = [] ∧ sent a' = sent a ∧
  ∃ m : object,
    messages (hooks a') = messages (hooks a) ++ [m] ∧
    (get m "type" = VJson (JStr "assistant") ∨
     get m "type" = VJson (JStr "error")).
Proof.
  intros Hr Hi. cbn zeta. cbn [dispatch].
  pose proof (reachable_frames a Hr) as Hfr.
  destruct (reachable_single_flight a Hr) as [[_ [fr0 Hs]]|[_ Hs]];
    [|by rewrite Hs in Hi].
  assert (i = 0%nat) as ->.
  { rewrite Hs in Hi. by destruct i. }
  rewrite settle_spec, Hi, (proj1 (Forall_lookup _ _) Hfr 0%nat fr Hi).
  destruct (after_fetch_done out) as [r ->].
  destruct (handleSend_resume_spec fr r (on_suspended (delete 0%nat) a))
    as (-> & -> & -> & _).
  split; [done|]. split; [cbn; by rewrite Hs|]. split; [done|].
  destruct (handleSend_resume_one fr r (on_suspended (delete 0%nat) a))
    as (m & Hm & Hty).
  exists m. split; [exact Hm|exact Hty].
Qed.

(** *** Loading the page again *)

(** X26: when the page is loaded in a world whose conversation record reads as
    the list [l], and whose session record, if any, has not expired, the
    widget starts with [l] as its message list. *)
Theorem reload_restores_conversation w l :
  (getConversationHistory w).1 = Normal (Some l) →
  (getSession w).2 = w →
  messages (hooks (mount (initial w))) = l.
Proof.
  intros Hread Hkept. unfold mount. cbn [world hooks on_hooks initial].
  destruct (completes_getSession w) as (existing & w1 & Hrun).
  rewrite Hrun in Hkept |- *. cbn [snd] in Hkept. subst w1.
  destruct (json_truthy existing).
  - destruct (getConversationHistory w) as [r w']. cbn [fst] in Hread.
    by subst r.
  - destruct (completes_createSession None w) as (s & w0 & Hc).
    pose proof (same_page_createSession None w) as (Hwin & Hden & _).
    pose proof (keeps_createSession HISTORY_KEY None
                  ltac:(done) ltac:(done) w) as Hkeep.
    rewrite Hc in Hwin, Hden, Hkeep |- *. cbn [snd] in Hwin, Hden, Hkeep.
    pose proof (getConversationHistory_reads w w0 Hwin Hden Hkeep) as Hsame.
    rewrite Hread in Hsame.
    destruct (getConversationHistory w0) as [r w']. cbn [fst] in Hsame.
    by subst r.
Qed.

(** *** Showing the sources *)

(** Whether the sources of the message [id] are shown: [showSources[id]]
    of line 183. *)
Definition sources_shown (a : App) (id : string) : bool :=
  default false (showSources (hooks a) !! id).

(** X27: a click on the sources button of a message shows its sources when
    they were hidden and hides them when they were shown; the sources of
    the messages with another [id] stay as they were; a second click
    undoes the first. *)
Theorem toggleSources_flips id a :
  sources_shown (toggleSources id a) id = negb (sources_shown a id) ∧
  (∀ k, k ≠ id → sources_shown (toggleSources id a) k = sources_shown a k) ∧
  (∀ k, sources_shown (toggleSources id (toggleSources id a)) k
        = sources_shown a k).
Proof.
  unfold sources_shown, toggleSources. cbn [on_hooks hooks setShowSources showSources].
  split; [by rewrite lookup_insert_eq|]. split.
  - intros k Hk. by rewrite lookup_insert_ne.
  - intros k. destruct (decide (k = id)) as [->|Hk].
    + rewrite !lookup_insert_eq. cbn. apply negb_involutive.
    + by rewrite !lookup_insert_ne.
Qed.

(** *** A blank question *)

(** X28: a question that is empty, or of which [trim] leaves nothing (it
    holds only what [trim] removes: white space and line ends), is
    dropped by [handleSend]: no message, no request, no change at all; so
    an Enter key press on a blank input does nothing, as a click on the
    send button does. *)
Theorem blank_question_is_dropped question a :
  question = "" ∨ trim question = "" →
  (∀ useSelection, handleSend question useSelection a = a) ∧
  (inputValue (hooks a) = question →
   dispatch (KeyDown "Enter" false) a = a ∧ dispatch ClickSend a = a).
Proof.
  intros Hblank.
  assert (trim question = "") as Htrim.
  { destruct Hblank as [->|Htrim]; [apply trim_empty|exact Htrim]. }
  assert (∀ useSelection, handleSend question useSelection a = a) as Hdrop.
  { intros useSelection. unfold handleSend. by rewrite Htrim. }
  split; [exact Hdrop|]. intros Hinput. cbn [dispatch]. rewrite Hinput, Htrim.
  rewrite Hdrop. cbn. rewrite orb_true_r, andb_false_r.
  by destruct (isOpen (hooks a) && negb (isLoading (hooks a))).
Qed.

(** *** A rate-limited answer *)

(** X1: when the backend answers a pending send with status 429, the user
    sees one error message that names the delay: the value of the
    [Retry-After] header, or 60 when the header is missing or empty. The
    body of the response is not read. *)
Theorem rate_limit_is_shown a i fr header payload :
  reachable a → suspended a !! i = Some fr →
  let out := Responded {| status := 429; retry_after := header;
                          body_text := payload |} in
  let a' := dispatch (Settle i out) a in
  ∃ errorMessage : object,
    messages (hooks a') = messages (hooks a) ++ [errorMessage] ∧
    get errorMessage "type" = VJson (JStr "error") ∧
    get errorMessage "content" =
      VJson (JStr ("Rate limited. Please try again in "
                   +:+ (if str_truthy header then default "" header else "60")
                   +:+ " seconds.")).
Proof.
  intros Hr Hi. cbn zeta. cbn [dispatch].
  pose proof (reachable_frames a Hr) as Hfr.
  rewrite settle_spec, Hi, (proj1 (Forall_lookup _ _) Hfr i fr Hi).
  cbn [ChatAPI.after_fetch]. rewrite receive_rate_limited.
  cbn. by eexists.
Qed.

End widget.

(** * Properties of the migration script *)

Section migration.
Context `{Host}.
Import Migration.

Lemma split_pieces sep s :
  Forall (λ piece, sep ∉ list_ascii_of_string piece) (split sep s).
Proof.
  induction s as [|c s IH]; cbn [split].
  - apply Forall_singleton. cbn. apply not_elem_of_nil.
  - destruct (Ascii.eqb_spec c sep) as [->|Hc].
    + constructor; [cbn; apply not_elem_of_nil|exact IH].
    + destruct (split sep s) as [|piece pieces].
      * apply Forall_singleton. cbn. rewrite elem_of_cons.
        intros [?|Hin]; [by apply Hc|by apply elem_of_nil in Hin].
      * apply Forall_cons_1 in IH as [Hpiece Hpieces].
        constructor; [|exact Hpieces].
        cbn. rewrite elem_of_cons. intros [?|?]; [by apply Hc|done].
Qed.

Lemma split_app sep chunk rest :
  sep ∉ list_ascii_of_string chunk →
  split sep (chunk +:+ String sep rest) = chunk :: split sep rest.
Proof.
  induction chunk as [|c chunk IH]; intros Hsep.
  - change ("" +:+ String sep rest) with (String sep rest).
    cbn [split]. by rewrite Ascii.eqb_refl.
  - cbn [list_ascii_of_string] in Hsep.
    apply not_elem_of_cons in Hsep as [Hc Hs].
    change (String c chunk +:+ String sep rest)
      with (String c (chunk +:+ String sep rest)).
    cbn [split]. destruct (Ascii.eqb_spec c sep) as [->|_]; [done|].
    by rewrite IH.
Qed.

(** X29: the statements the script executes. None is empty, none starts with
    [--], none holds a semicolon. And a piece of the file whose first
    line is a comment is skipped as a whole, with the statement that
    follows the comment. *)
Theorem statements_taken migrationSQL :
  Forall (λ s, s ≠ "" ∧ startsWith s "--" = false ∧
               ";"%char ∉ list_ascii_of_string s)
         (statements migrationSQL) ∧
  ∀ chunk rest,
    migrationSQL = chunk +:+ String ";" rest →
    ";"%char ∉ list_ascii_of_string chunk →
    startsWith (trim chunk) "--" = true →
    statements migrationSQL = statements rest.
Proof.
  split.
  - unfold statements. apply Forall_forall. intros s Hin.
    apply filter_In in Hin as [Hin Hkeep].
    apply andb_true_iff in Hkeep as [Hlen Hcomment].
    apply negb_true_iff in Hcomment.
    split; [|split; [exact Hcomment|]].
    + intros ->. by rewrite String_length_empty in Hlen.
    + apply in_map_iff in Hin as (piece & <- & Hpiece).
      intros Hsemi. apply trim_chars in Hsemi.
      by apply (proj1 (Forall_forall _ _) (split_pieces ";" migrationSQL) piece).
  - intros chunk rest -> Hsemi Hcomment. unfold statements.
    rewrite split_app by done. cbn [map List.filter].
    by rewrite Hcomment, andb_false_r.
Qed.

Section run.
Context {DB : Type} (unsafe : string → DB → option Failure * DB).

(** The database after the statements of [l] have been executed in turn. *)
Definition executed (l : list string) (db : DB) : DB :=
  fold_left (λ db statement, (unsafe statement db).2) l db.

Lemma run_statements_outcome l db :
  match run_statements unsafe l db with
  | (None, db', out) => db' = executed l db ∧ length out = length l
  | (Some error, db', out) =>
      already_exists error = false ∧
      ∃ before statement rest,
        l = before ++ statement :: rest ∧
        db' = executed (before ++ [statement]) db ∧
        (unsafe statement (executed before db)).1 = Some error ∧
        length out = length before
  end.
Proof.
  revert db. induction l as [|statement l IH]; intros db; [done|].
  cbn [run_statements].
  assert (∀ db1, (unsafe statement db).2 = db1 →
            match run_statements unsafe l db1 with
            | (None, db', out) =>
                db' = executed (statement :: l) db ∧
                S (length out) = length (statement :: l)
            | (Some error, db', out) =>
                already_exists error = false ∧
                ∃ before s rest,
                  statement :: l = before ++ s :: rest ∧
                  db' = executed (before ++ [s]) db ∧
                  (unsafe s (executed before db)).1 = Some error ∧
                  S (length out) = length before
            end) as Hrest.
  { intros db1 Hdb1. specialize (IH db1).
    destruct (run_statements unsafe l db1) as [[[error'|] db2] out].
    - destruct IH as (Hno & before & s & rest & -> & -> & Hs & Hlen).
      split; [exact Hno|]. exists (statement :: before), s, rest.
      cbn [executed fold_left app length]. rewrite Hdb1.
      split; [done|]. split; [done|]. split; [exact Hs|]. by rewrite Hlen.
    - destruct IH as [-> Hlen]. cbn [executed fold_left length].
      rewrite Hdb1. split; [done|]. by rewrite Hlen. }
  destruct (unsafe statement db) as [[error|] db1] eqn:Hrun.
  - destruct (already_exists error) eqn:Hexists.
    + specialize (Hrest db1 eq_refl).
      destruct (run_statements unsafe l db1) as [[[error'|] db2] out];
        exact Hrest.
    + split; [exact Hexists|]. exists [], statement, l.
      cbn [executed fold_left app length]. by rewrite Hrun.
  - specialize (Hrest db1 eq_refl).
    destruct (run_statements unsafe l db1) as [[[error'|] db2] out];
      exact Hrest.
Qed.

(** Whether every error the statements of [l] raise, executed in turn
    from [db], says that the object already exists. *)
Fixpoint tolerated (l : list string) (db : DB) : bool :=
  match l with
  | [] => true
  | statement :: rest =>
      match unsafe statement db with
      | (None, db') => tolerated rest db'
      | (Some error, db') => already_exists error && tolerated rest db'
      end
  end.

Lemma run_statements_tolerated l db :
  tolerated l db = true →
  ∃ out, run_statements unsafe l db = (None, executed l db, out).
Proof.
  revert db. induction l as [|statement l IH]; intros db; [by eexists|].
  cbn [tolerated run_statements executed fold_left].
  destruct (unsafe statement db) as [[error|] db1]; cbn [snd].
  - intros [Hex Hrest]%andb_true_iff. rewrite Hex.
    destruct (IH db1 Hrest) as [out ->]. by eexists.
  - intros Hrest. destruct (IH db1 Hrest) as [out ->]. by eexists.
Qed.

Lemma run_statements_stops before statement rest error db :
  tolerated before db = true →
  (unsafe statement (executed before db)).1 = Some error →
  already_exists error = false →
  ∃ out,
    run_statements unsafe (before ++ statement :: rest) db
    = (Some error, executed (before ++ [statement]) db, out).
Proof.
  revert db. induction before as [|s before IH]; intros db.
  - intros _ Hrun Hex. cbn [app run_statements executed fold_left] in *.
    destruct (unsafe statement db) as [[e|] db1]; [|done].
    cbn [fst] in Hrun. injection Hrun as ->. rewrite Hex. by eexists.
  - cbn [app tolerated run_statements executed fold_left].
    destruct (unsafe s db) as [[e|] db1]; cbn [snd].
    + intros [Hs Hrest]%andb_true_iff Hrun Hex. rewrite Hs.
      destruct (IH db1 Hrest Hrun Hex) as [out ->]. by eexists.
    + intros Hrest Hrun Hex.
      destruct (IH db1 Hrest Hrun Hex) as [out ->]. by eexists.
Qed.

(** X30: a run of the migration on a file that can be read. Without a
    database address the script exits with code 1 and leaves the database
    alone. With one, it executes the statements in turn and passes over
    an error that says the object already exists (code [42P07], or a
    message with the words [already exists]): when every error is of that
    kind, all statements are executed, the script does not call
    [process.exit], and the connection is closed by [sql.end()]. At the
    first error of another kind it stops: no later statement is executed,
    the error is the last thing printed, the exit code is 1, and the
    connection is not closed. *)
Theorem runMigration_outcome DATABASE_URL migrationSQL db :
  let run := runMigration unsafe DATABASE_URL (inl migrationSQL) db in
  (str_truthy DATABASE_URL = false →
   exit_code run = Some 1 ∧ database run = db ∧ ended run = false) ∧
  (str_truthy DATABASE_URL = true →
   tolerated (statements migrationSQL) db = true →
   exit_code run = None ∧ ended run = true ∧
   database run = executed (statements migrationSQL) db) ∧
  (∀ before statement rest error,
     str_truthy DATABASE_URL = true →
     statements migrationSQL = before ++ statement :: rest →
     tolerated before db = true →
     (unsafe statement (executed before db)).1 = Some error →
     already_exists error = false →
     exit_code run = Some 1 ∧ ended run = false ∧
     database run = executed (before ++ [statement]) db ∧
     list.last (console run) = Some (console_error2 "❌ Migration failed:" error)).
Proof.
  cbn zeta. unfold runMigration. split; [|split].
  - intros ->. done.
  - intros -> Hall. cbn [negb].
    by destruct (run_statements_tolerated _ _ Hall) as [out ->].
  - intros before statement rest error -> -> Hbefore Hrun Hex. cbn [negb].
    destruct (run_statements_stops before statement rest error db
                Hbefore Hrun Hex) as [out ->].
    cbn [exit_code ended database console].
    split; [done|]. split; [done|]. split; [done|].
    by rewrite app_assoc, last_snoc.
Qed.

End run.
End migration.

(** * The code run on concrete pages

    Each property above that has premises is applied here to a concrete
    page on the reference host; the claims of the specification that the
    code does not meet are run on an input where they fail. *)

Module Examples.
Import SessionManager ChatAPI ChatWidget Reference.

(** A browser on 2026-01-01T00:00:00Z with empty storage. *)
Definition browser : World :=
  {| has_window := true; storage_denied := false;
     storage_accepts := λ _ _, true; items := ∅;
     clock := 1767225600000;
     entropy := λ n, (N.of_nat n * 1234567891234567)%N; drawn := 0;
     pathname := "/docs/module-1/intro"; hostname := "localhost";
     chatbot_api_url := None |}.

(** A session that expires on 2026-01-31T00:00:00Z, and the browser
    holding it. *)
Definition stored_members : list (string * json) :=
  [("id", JStr "5f0c8a52-1d3e-4b7a-9c61-0e2f4a6b8d10");
   ("anonymous_browser_id", JStr "0b9d7e64-2a1c-4f35-8e97-6c4b2a0d1f83");
   ("created_at", JStr (Date_toISOString 1767225600000));
   ("expires_at", JStr (Date_toISOString 1769817600000))].

Definition returning_browser (now : Z) : World :=
  set_clock now
    (set_items <[SESSION_KEY := JSON_print (JObj stored_members)]> browser).

(** C1: one millisecond before expiry the stored session is returned. *)
Lemma getSession_before_expiry :
  getSession (returning_browser 1769817599999)
  = (Normal (JObj stored_members), returning_browser 1769817599999).
Proof.
  exact (getSession_expiry (returning_browser 1769817599999)
           (JSON_print (JObj stored_members)) stored_members
           (JStr (Date_toISOString 1769817600000)) 1769817600000
           eq_refl eq_refl eq_refl (JSON_parse_print _) eq_refl
           (Date_of_ISOString 1769817600000 eq_refl)).
Defined.

(** C1 fails as stated: at the very instant [expires_at] names, when the
    current time is no longer before [expires_at], the session is still
    returned and nothing is deleted. *)
Lemma getSession_at_expiry_instant :
  getSession (returning_browser 1769817600000)
  = (Normal (JObj stored_members), returning_browser 1769817600000) ∧
  expires_at_time (JObj stored_members)
  = Some (clock (returning_browser 1769817600000)).
Proof. split; vm_compute; reflexivity. Qed.

(** C10: a session whose [expires_at] is a text that is no date is
    returned however late it is. *)
Definition undated_members : list (string * json) :=
  [("id", JStr "5f0c8a52-1d3e-4b7a-9c61-0e2f4a6b8d10");
   ("expires_at", JStr "next month")].

Definition undated_browser (now : Z) : World :=
  set_clock now
    (set_items <[SESSION_KEY := JSON_print (JObj undated_members)]> browser).

Lemma getSession_undated_never_expires :
  getSession (undated_browser 4102444800000)
  = (Normal (JObj undated_members), undated_browser 4102444800000).
Proof.
  exact (getSession_unreadable_expiry (undated_browser 4102444800000)
           (JSON_print (JObj undated_members)) (JObj undated_members)
           eq_refl eq_refl eq_refl (JSON_parse_print _) eq_refl).
Defined.

(** C10 fails as stated: a session whose [expires_at] is not a date is not
    always returned. When it is an object with a member named [toString],
    making the date throws, and the result is [null]. When it is [null],
    it reads as the epoch: the session is expired, and both records are
    deleted. *)
Definition unconvertible_members : list (string * json) :=
  [("id", JStr "5f0c8a52-1d3e-4b7a-9c61-0e2f4a6b8d10");
   ("expires_at", JObj [("toString", JNum (1 # 1))])].

Definition null_dated_members : list (string * json) :=
  [("id", JStr "5f0c8a52-1d3e-4b7a-9c61-0e2f4a6b8d10");
   ("expires_at", JNull)].

Definition browser_holding (session : json) : World :=
  set_items (<[SESSION_KEY := JSON_print session]>
             ∘ <[HISTORY_KEY := JSON_print (JArr [])]>) browser.

Lemma getSession_not_a_date_not_returned :
  getSession (browser_holding (JObj unconvertible_members))
  = (Normal JNull, browser_holding (JObj unconvertible_members)) ∧
  expires_at_time (JObj unconvertible_members) = None ∧
  (getSession (browser_holding (JObj null_dated_members))).1 = Normal JNull ∧
  items (getSession (browser_holding (JObj null_dated_members))).2 = ∅.
Proof. repeat split; vm_compute; reflexivity. Qed.

(** C9 fails as stated: without a [window], [createSession] does not
    return absence, it returns a session. *)
Lemma createSession_without_window_returns_session :
  ∃ session w',
    createSession None (without_window browser) = (Normal session, w') ∧
    get session "id" = VJson (JStr "02468adf-1358-4ace-8357-9be02469bdf1") ∧
    get session "expires_at" = VDate (Some 1769817600000) ∧
    items w' = ∅.
Proof. eexists _, _. split; [apply createSession_without_window|]. done. Qed.

(** C5: two sessions created in a row, a minute apart. *)
Lemma createSession_twice :
  ∃ session w' session2 w'',
    createSession None browser = (Normal session, w') ∧
    get session "expires_at" = VDate (Some (1767225600000 + 30 * 24 * 60 * 60 * 1000)) ∧
    items w' !! SESSION_KEY = Some (JSON_stringify session) ∧
    createSession None (set_clock 1767225660000 w') = (Normal session2, w'') ∧
    get session2 "anonymous_browser_id" = get session "anonymous_browser_id".
Proof.
  destruct (createSession_spec browser None None 1767225660000
              eq_refl eq_refl (λ _ _, eq_refl) eq_refl)
    as (session & w' & session2 & w'' & H1 & _ & _ & H2 & H3 & H4 & _ & _ & H5 & _).
  exists session, w', session2, w''.
  exact (conj H1 (conj H2 (conj H3 (conj H4 H5)))).
Defined.

(** C5 fails as stated: when [Math.random] returns the same numbers again,
    two sessions created in a row carry the same identifier. *)
Definition repeating_browser : World :=
  {| has_window := true; storage_denied := false;
     storage_accepts := λ _ _, true; items := ∅;
     clock := 1767225600000; entropy := λ _, 0%N; drawn := 0;
     pathname := "/docs/module-1/intro"; hostname := "localhost";
     chatbot_api_url := None |}.

(** The [id] of the session a call of [createSession] returned. *)
Definition created_id (r : completion object * World) : value :=
  match r.1 with
  | Normal session => get session "id"
  | Throw _ => VUndefined
  end.

Lemma createSession_same_id_twice :
  let first := createSession None repeating_browser in
  let second := createSession None first.2 in
  created_id first = VJson (JStr "00000000-0000-4000-8000-000000000000") ∧
  created_id second = VJson (JStr "00000000-0000-4000-8000-000000000000").
Proof. split; vm_compute; reflexivity. Qed.

(** Two messages as the widget builds them. *)
Definition question : object :=
  {[ "id" := VJson (JStr "1767225600000");
     "type" := VJson (JStr "user");
     "content" := VJson (JStr "What is ROS 2?");
     "timestamp" := VDate (Some 1767225600000) ]}.

Definition reply : object :=
  {[ "id" := VJson (JStr "m-1");
     "type" := VJson (JStr "assistant");
     "content" := VJson (JStr "ROS 2 is a set of libraries for robots.");
     "sources" := VJson (JArr [JObj [("id", JStr "c-1");
                                     ("chapter", JStr "module-1")]]);
     "confidence" := VJson (JNum (87 # 100));
     "timestamp" := VDate (Some 1767225601500) ]}.

Lemma question_ok : ChatMessage_ok question.
Proof.
  exists {[ "id" := JStr "1767225600000"; "type" := JStr "user";
            "content" := JStr "What is ROS 2?" ]}, 1767225600000.
  split; [done|]. vm_compute. reflexivity.
Qed.

Lemma reply_ok : ChatMessage_ok reply.
Proof.
  exists {[ "id" := JStr "m-1"; "type" := JStr "assistant";
            "content" := JStr "ROS 2 is a set of libraries for robots.";
            "sources" := JArr [JObj [("id", JStr "c-1");
                                     ("chapter", JStr "module-1")]];
            "confidence" := JNum (87 # 100) ]}, 1767225601500.
  split; [done|]. vm_compute. reflexivity.
Qed.

(** C4: a conversation saved and read back. *)
Lemma conversation_saved_and_read_back :
  ∃ w',
    saveConversation [question; reply] browser = (Normal (), w') ∧
    getConversationHistory w' = (Normal (Some [question; reply]), w').
Proof.
  apply conversation_round_trip; [done|done|done|].
  repeat constructor; [apply question_ok|apply reply_ok].
Defined.

(** C4 fails as stated: a message whose [timestamp] is the Invalid Date
    makes [toISOString] throw, nothing is saved, and reading back gives
    [null] instead of the list. *)
Definition undated_message : object :=
  {[ "id" := VJson (JStr "1767225600000");
     "type" := VJson (JStr "user");
     "content" := VJson (JStr "What is ROS 2?");
     "timestamp" := VDate None ]}.

Lemma undated_message_is_not_saved :
  saveConversation [undated_message] browser = (Normal (), browser) ∧
  getConversationHistory browser = (Normal None, browser).
Proof. split; vm_compute; reflexivity. Qed.

(** X2, X3: an error response with a [detail], and one whose body is a
    page of HTML. *)
Lemma detail_is_the_message :
  receive {| status := 400; retry_after := None;
             body_text := JSON_print (JObj [("detail", JStr "Question is too long")]) |}
  = Throw (Error "Error" "Question is too long").
Proof.
  apply (proj1 (proj2
           (receive_detail
              {| status := 400; retry_after := None;
                 body_text :=
                   JSON_print (JObj [("detail", JStr "Question is too long")]) |}
              [("detail", JStr "Question is too long")]
              eq_refl ltac:(discriminate) (JSON_parse_print _))));
    [reflexivity|discriminate].
Defined.

Lemma html_body_gives_generic_message :
  receive {| status := 502; retry_after := None;
             body_text := "<html><body>Bad Gateway</body></html>" |}
  = Throw (Error "Error" "API error: 502").
Proof.
  apply (receive_unreadable_body
           {| status := 502; retry_after := None;
              body_text := "<html><body>Bad Gateway</body></html>" |});
    [reflexivity|discriminate|reflexivity].
Defined.

(** A visit: the page loads, the user opens the panel, types a question
    and clicks the send button. *)
Definition page_loaded : App := dispatch Mount (initial browser).
Definition page_open : App := dispatch ClickOpen page_loaded.
Definition page_typed : App := dispatch (ChangeInput "What is ROS 2?") page_open.
Definition page_waiting : App := dispatch ClickSend page_typed.

Lemma page_waiting_reachable : reachable page_waiting.
Proof. repeat apply reachable_dispatch. apply reachable_initial. Qed.

Lemma page_waiting_has_one_call : length (suspended page_waiting) = 1%nat.
Proof. vm_compute. reflexivity. Qed.

(** C2: while that send waits, pressing Enter or clicking the button
    again changes nothing. *)
Lemma second_send_is_dropped :
  (length (suspended page_waiting) ≤ 1)%nat ∧
  dispatch (KeyDown "Enter" false) page_waiting = page_waiting ∧
  dispatch ClickSend page_waiting = page_waiting.
Proof.
  destruct (single_flight page_waiting page_waiting_reachable) as [Hlen Hdrop].
  split; [exact Hlen|]. apply Hdrop. intros Hnil.
  pose proof page_waiting_has_one_call as Hone. rewrite Hnil in Hone.
  discriminate Hone.
Defined.

(** The backend answers with status 500 and a body that is not JSON. *)
Definition server_error : fetched :=
  Responded {| status := 500; retry_after := None;
               body_text := "Internal Server Error" |}.

Definition page_failed : App := dispatch (Settle 0 server_error) page_waiting.

(** A page with one suspended send whose captured list and user message
    make up the whole message list. *)
Lemma sole_frame (a : App) :
  (λ fr, f_messages fr ++ [f_userMessage fr]) <$> suspended a
  = [messages (hooks a)] →
  ∃ fr, suspended a !! 0%nat = Some fr ∧
        messages (hooks a) = f_messages fr ++ [f_userMessage fr].
Proof.
  destruct (suspended a) as [|fr rest]; intros Hdata; [discriminate Hdata|].
  exists fr. split; [reflexivity|]. by injection Hdata as <- _.
Qed.

Lemma page_waiting_frame :
  ∃ fr, suspended page_waiting !! 0%nat = Some fr ∧
        messages (hooks page_waiting) = f_messages fr ++ [f_userMessage fr].
Proof. apply sole_frame. vm_compute. reflexivity. Qed.

Lemma server_error_thrown :
  after_fetch server_error = Done (Throw (Error "Error" "API error: 500")).
Proof. vm_compute. reflexivity. Qed.

(** C7: the failure becomes one error message; storage is untouched. *)
Lemma server_error_becomes_error_message :
  (∃ errorMessage : object,
     messages (hooks page_failed)
     = messages (hooks page_waiting) ++ [errorMessage] ∧
     get errorMessage "type" = VJson (JStr "error") ∧
     get errorMessage "content" = VJson (JStr "API error: 500")) ∧
  world page_failed = world page_waiting.
Proof.
  destruct page_waiting_frame as (fr & Hfr & _).
  destruct (failed_send_appends_error page_waiting 0 fr server_error
              (Error "Error" "API error: 500") page_waiting_reachable
              Hfr server_error_thrown) as (Hmsg & Hworld & _).
  exact (conj Hmsg Hworld).
Defined.

(** C6 fails as stated: after the failed send the list holds the user
    message and the error message, and the conversation cache holds
    nothing. *)
Lemma failed_send_is_not_cached :
  length (messages (hooks page_failed)) = 2%nat ∧
  items (world page_failed) !! HISTORY_KEY = None ∧
  getConversationHistory (world page_failed) = (Normal None, world page_failed).
Proof. split; [|split]; vm_compute; reflexivity. Qed.

(** The backend answers the question. *)
Definition answer : json :=
  JObj [("answer", JStr "ROS 2 is a set of libraries for robots.");
        ("sources", JArr [JObj [("id", JStr "c-1");
                                ("chapter", JStr "module-1")]]);
        ("session_id", JStr "02468adf-1358-4ace-8357-9be02469bdf1");
        ("message_id", JStr "m-1");
        ("confidence", JNum (87 # 100))].

Definition server_answer : fetched :=
  Responded {| status := 200; retry_after := None;
               body_text := JSON_print answer |}.

(** The answer arrives a second and a half after the question was sent. *)
Definition page_later : App := dispatch (Tick 1767225601500) page_waiting.
Definition page_answered : App := dispatch (Settle 0 server_answer) page_later.

Lemma page_later_reachable : reachable page_later.
Proof. apply reachable_dispatch, page_waiting_reachable. Qed.

Lemma page_later_frame :
  ∃ fr, suspended page_later !! 0%nat = Some fr ∧
        messages (hooks page_later) = f_messages fr ++ [f_userMessage fr].
Proof. apply sole_frame. vm_compute. reflexivity. Qed.

Lemma page_later_storage :
  has_window (world page_later) = true ∧
  storage_denied (world page_later) = false ∧
  ∀ text, storage_accepts (world page_later) HISTORY_KEY text = true.
Proof. split; [|split]; [vm_compute; reflexivity..|]. intros text. reflexivity. Qed.

Lemma answer_received : after_fetch server_answer = Done (Normal answer).
Proof.
  unfold after_fetch, server_answer, receive, Response_json.
  cbn [ok status body_text negb andb Z.leb]. by rewrite JSON_parse_print.
Qed.

Lemma page_answered_messages : messages (hooks page_answered) = [question; reply].
Proof. vm_compute. reflexivity. Qed.

Lemma page_answered_messages_ok :
  Forall ChatMessage_ok (messages (hooks page_answered)).
Proof.
  rewrite page_answered_messages.
  repeat constructor; [apply question_ok|apply reply_ok].
Qed.

Lemma answer_not_null : answer ≠ JNull.
Proof. discriminate. Qed.

(** C6: the answered send appends the reply, and the cache then reads back
    as the full list. *)
Lemma answered_send_is_cached :
  appends_or_clears (messages (hooks page_later)) (messages (hooks page_answered)) ∧
  getConversationHistory (world page_answered)
  = (Normal (Some (messages (hooks page_answered))), world page_answered).
Proof.
  destruct (messages_append_only page_later (Settle 0 server_answer)
              page_later_reachable) as [Happend Hsaved].
  destruct page_later_frame as (fr & Hfr & Hmessages).
  destruct (Hsaved 0%nat server_answer fr answer eq_refl
              Hfr answer_received answer_not_null Hmessages) as [_ Hread].
  destruct page_later_storage as (Hwin & Hden & Hacc).
  exact (conj Happend (Hread Hwin Hden Hacc page_answered_messages_ok)).
Defined.

(** X8: [deleteSession] in the browser that holds the stored session. *)
Lemma deleteSession_in_returning_browser :
  ∃ w',
    deleteSession (returning_browser 1767225600000) = (Normal (), w') ∧
    items w' !! SESSION_KEY = None ∧ items w' !! HISTORY_KEY = None ∧
    ∀ k, k ≠ SESSION_KEY → k ≠ HISTORY_KEY →
         items w' !! k = items (returning_browser 1767225600000) !! k.
Proof.
  exact (deleteSession_erases (returning_browser 1767225600000) eq_refl eq_refl).
Defined.

(** X11: the request of the visit above. *)
Lemma page_waiting_request :
  Forall (λ req, method req = "POST" ∧
                 url req = API_URL (world page_waiting) +:+ "/api/v1/chat/query")
         (sent page_waiting).
Proof. exact (sends_go_to_query page_waiting page_waiting_reachable). Defined.

Lemma page_waiting_url :
  url <$> sent page_waiting = ["http://localhost:8000/api/v1/chat/query"].
Proof. vm_compute. reflexivity. Qed.

(** X9: the user pastes 600 characters into the text field. *)
Definition pasted : string :=
  String.concat "" (replicate 60 "0123456789").

Definition page_pasted : App := dispatch (ChangeInput pasted) page_open.

Lemma page_pasted_reachable : reachable page_pasted.
Proof. repeat apply reachable_dispatch. apply reachable_initial. Qed.

Lemma page_open_reachable : reachable page_open.
Proof. repeat apply reachable_dispatch. apply reachable_initial. Qed.

Lemma page_open_ready :
  isOpen (hooks page_open) = true ∧ isLoading (hooks page_open) = false.
Proof. split; vm_compute; reflexivity. Qed.

Lemma pasted_text_is_cut :
  (String_length (inputValue (hooks page_pasted)) ≤ 500)%nat ∧
  inputValue (hooks page_pasted) = String_slice 0 500 pasted.
Proof.
  destruct page_open_ready as [Hopen Hload].
  exact (conj
           (proj1 (inputValue_at_most_500 page_pasted page_pasted_reachable))
           (proj1 (proj2 (inputValue_at_most_500 page_open page_open_reachable))
                  pasted Hopen Hload)).
Defined.

Lemma pasted_text_length :
  String_length pasted = 600%nat ∧
  String_length (inputValue (hooks page_pasted)) = 500%nat.
Proof. split; vm_compute; reflexivity. Qed.

(** X6: after the answer the user asks a second question, and clears the
    history while that send waits; then the answer arrives. *)
Definition page_asked_again : App :=
  dispatch ClickSend (dispatch (ChangeInput "And ROS 1?") page_answered).
Definition page_menu : App := dispatch ClickMenu page_asked_again.
Definition page_cleared : App := dispatch (ClickClearHistory true) page_menu.
Definition page_late : App := dispatch (Settle 0 server_answer) page_cleared.

Lemma page_menu_reachable : reachable page_menu.
Proof. repeat apply reachable_dispatch. apply reachable_initial. Qed.

Lemma page_menu_frame :
  ∃ fr, suspended page_menu !! 0%nat = Some fr ∧
        messages (hooks page_menu) = f_messages fr ++ [f_userMessage fr].
Proof. apply sole_frame. vm_compute. reflexivity. Qed.

Lemma page_menu_shown :
  isOpen (hooks page_menu) = true ∧ showMenu (hooks page_menu) = true.
Proof. split; vm_compute; reflexivity. Qed.

Lemma late_answer_after_clear :
  ∃ fr, suspended page_menu !! 0%nat = Some fr ∧
    ∃ assistantMessage : object,
      messages (hooks page_cleared) = [] ∧
      messages (hooks page_late) = [assistantMessage] ∧
      world page_late =
        (saveConversation
           (f_messages fr ++ [f_userMessage fr; assistantMessage])
           (world page_cleared)).2.
Proof.
  destruct page_menu_frame as (fr & Hfr & _).
  destruct page_menu_shown as [Hopen Hmenu].
  exists fr. split; [exact Hfr|].
  exact (late_answer_saves_cleared_messages page_menu 0 fr server_answer answer
           page_menu_reachable Hopen Hmenu Hfr answer_received answer_not_null).
Defined.

(** The second question as the widget builds it. *)
Definition question_again : object :=
  {[ "id" := VJson (JStr "1767225601500");
     "type" := VJson (JStr "user");
     "content" := VJson (JStr "And ROS 1?");
     "timestamp" := VDate (Some 1767225601500) ]}.

(** The list then holds the last answer only, and the conversation record
    holds all four messages, the cleared ones included. *)
Lemma late_answer_cache :
  messages (hooks page_late) = [reply] ∧
  (getConversationHistory (world page_late)).1
  = Normal (Some [question; reply; question_again; reply]).
Proof. split; vm_compute; reflexivity. Qed.


(** A session record that is not JSON. *)
Definition corrupt_browser : World :=
  set_items <[SESSION_KEY := "{not json"]> browser.

Lemma corrupt_record_parse : JSON_parse "{not json" = None.
Proof. vm_compute. reflexivity. Qed.

Lemma corrupt_record_reads_absent :
  getSession corrupt_browser = (Normal JNull, corrupt_browser).
Proof.
  apply (getSession_unusable_record corrupt_browser "{not json");
    [reflexivity|right; left; exact corrupt_record_parse].
Defined.

(** A session created on 2026-01-01 is found until 2026-01-31. *)
Lemma created_session_found_again :
  ∃ session w',
    createSession None browser = (Normal session, w') ∧
    ∀ now,
      getSession (set_clock now w') =
        if clock browser + 2592000000 <? now
        then (Normal JNull, erased (set_clock now w'))
        else (Normal (object_toJSON session), set_clock now w').
Proof.
  exact (created_session_is_found browser None eq_refl eq_refl
           (λ _ _, eq_refl) eq_refl).
Defined.

(** A browser that blocks [localStorage]. *)
Definition blocked_browser : World :=
  {| has_window := true; storage_denied := true;
     storage_accepts := λ _ _, true; items := ∅;
     clock := 1767225600000;
     entropy := λ n, (N.of_nat n * 1234567891234567)%N; drawn := 0;
     pathname := "/docs/module-1/intro"; hostname := "localhost";
     chatbot_api_url := None |}.

Lemma session_in_blocked_browser :
  ∃ session w',
    createSession None blocked_browser = (Normal session, w') ∧
    get session "anonymous_browser_id"
    = VJson (JStr (uuid_of (entropy blocked_browser) 31)) ∧
    items w' = ∅.
Proof.
  eexists _, _. split;
    [exact (createSession_storage_blocked None blocked_browser eq_refl eq_refl)|].
  split; reflexivity.
Defined.

(** Two saves in a row. *)
Lemma second_save_wins :
  ∃ w1 w2,
    saveConversation [question] browser = (Normal (), w1) ∧
    saveConversation [question; reply] w1 = (Normal (), w2) ∧
    getConversationHistory w2 = (Normal (Some [question; reply]), w2).
Proof.
  apply saveConversation_overwrites; [done|done|done|].
  repeat constructor; [apply question_ok|apply reply_ok].
Defined.

(** A validation error of the backend: [detail] is a list of objects. *)
Definition validation_detail : list (string * json) :=
  [("loc", JArr [JStr "body"; JStr "question"]);
   ("msg", JStr "field required")].

Definition validation_error : Response :=
  {| status := 422; retry_after := None;
     body_text := JSON_print (JObj [("detail", JArr [JObj validation_detail])]) |}.

(** The same error when one of its entries has a member named
    [toString]: the entry has no conversion to a string. *)
Definition odd_detail : list (string * json) :=
  [("msg", JStr "field required"); ("toString", JStr "x")].

Definition odd_error : Response :=
  {| status := 422; retry_after := None;
     body_text :=
       JSON_print (JObj [("detail", JArr [JObj validation_detail;
                                          JObj odd_detail])]) |}.

Lemma validation_error_message :
  receive validation_error = Throw (Error "Error" "[object Object]") ∧
  receive odd_error
  = Throw (Error "TypeError" "Cannot convert object to primitive value").
Proof.
  destruct (receive_structured_detail validation_error
              [("detail", JArr [JObj validation_detail])])
    as [_ Hlist]; [reflexivity|discriminate|apply JSON_parse_print|].
  destruct (receive_structured_detail odd_error
              [("detail", JArr [JObj validation_detail; JObj odd_detail])])
    as [_ Hodd]; [reflexivity|discriminate|apply JSON_parse_print|].
  exact (conj (Hlist [validation_detail] eq_refl)
              (Hodd [validation_detail; odd_detail] eq_refl)).
Defined.

(** The backend is down: status 503, a body that is not JSON. *)
Definition unavailable : Response :=
  {| status := 503; retry_after := None; body_text := "Service Unavailable" |}.

Lemma unavailable_backend_rejects :
  (∃ req k e,
     query "http://localhost:8000" "What is ROS 2?" (VJson (JStr "s-1"))
           VUndefined = Await req k ∧
     k (Responded unavailable) = Done (Throw e)) ∧
  (∃ req k e,
     querySelection "http://localhost:8000" "a robot operating system"
                    "What is ROS 2?" (VJson (JStr "s-1")) "module-1" None
       = Await req k ∧
     k (Responded unavailable) = Done (Throw e)) ∧
  (∃ req k e,
     health "http://localhost:8000" = Await req k ∧
     k (Responded unavailable) = Done (Throw e)).
Proof. apply failure_status_rejects. reflexivity. Defined.

(** X1: the backend answers the waiting send with status 429 and
    [Retry-After: 30]. *)
Definition rate_limited : fetched :=
  Responded {| status := 429; retry_after := Some "30"; body_text := "" |}.

Lemma rate_limit_names_the_delay :
  ∃ errorMessage : object,
    messages (hooks (dispatch (Settle 0 rate_limited) page_waiting))
    = messages (hooks page_waiting) ++ [errorMessage] ∧
    get errorMessage "type" = VJson (JStr "error") ∧
    get errorMessage "content"
    = VJson (JStr "Rate limited. Please try again in 30 seconds.").
Proof.
  destruct page_waiting_frame as (fr & Hfr & _).
  exact (rate_limit_is_shown page_waiting 0 fr (Some "30") ""
           page_waiting_reachable Hfr).
Defined.

(** The failed send of the visit above has ended. *)
Lemma failed_send_has_ended :
  isLoading (hooks page_failed) = false ∧ suspended page_failed = [] ∧
  sent page_failed = sent page_waiting ∧
  ∃ m : object,
    messages (hooks page_failed) = messages (hooks page_waiting) ++ [m] ∧
    (get m "type" = VJson (JStr "assistant") ∨
     get m "type" = VJson (JStr "error")).
Proof.
  destruct page_waiting_frame as (fr & Hfr & _).
  exact (settled_send_ends page_waiting 0 fr server_error
           page_waiting_reachable Hfr).
Defined.

(** The page rendered where there is no [window] still holds a session
    after its first effect. *)
Definition page_without_window : App :=
  dispatch Mount (initial (without_window browser)).

Lemma page_without_window_reachable : reachable page_without_window.
Proof. apply reachable_dispatch, reachable_initial. Qed.

Lemma page_without_window_mounted :
  sessionManagerRef (hooks page_without_window) = true.
Proof. vm_compute. reflexivity. Qed.

Lemma page_without_window_has_session :
  jsval_truthy (session (hooks page_without_window)) = true ∧
  is_Some (session_prop (session (hooks page_without_window)) "id") ∧
  chatApiRef (hooks page_without_window)
  = Some (API_URL (world page_without_window)).
Proof.
  exact (mounted_widget_has_session page_without_window
           page_without_window_reachable page_without_window_mounted).
Defined.

(** The click that sends the question of the visit above. *)
Lemma page_typed_reachable : reachable page_typed.
Proof. repeat apply reachable_dispatch. apply reachable_initial. Qed.

Lemma page_typed_ready :
  sessionManagerRef (hooks page_typed) = true ∧
  isOpen (hooks page_typed) = true ∧ isLoading (hooks page_typed) = false ∧
  nonempty (trim (inputValue (hooks page_typed))) = true.
Proof. split; [|split; [|split]]; vm_compute; reflexivity. Qed.

Lemma question_is_sent :
  inputValue (hooks page_waiting) = "" ∧ isLoading (hooks page_waiting) = true ∧
  ∃ (userMessage : object) sessionId text fs,
    session_prop (session (hooks page_typed)) "id" = Some sessionId ∧
    messages (hooks page_waiting) = messages (hooks page_typed) ++ [userMessage] ∧
    get userMessage "type" = VJson (JStr "user") ∧
    get userMessage "content" = VJson (JStr (inputValue (hooks page_typed))) ∧
    get userMessage "timestamp" = VDate (Some (clock (world page_typed))) ∧
    sent page_waiting = sent page_typed ++
      [{| url := API_URL (world page_typed) +:+ "/api/v1/chat/query";
          method := "POST"; content_type := Some "application/json";
          body := Some text |}] ∧
    JSON_parse text = Some (JObj fs) ∧
    members fs !! "question" = Some (JStr (inputValue (hooks page_typed))) ∧
    members fs !! "session_id" = value_toJSON sessionId ∧
    members fs !! "page_context" = Some (JStr (pathname (world page_typed))).
Proof.
  destruct page_typed_ready as (Hm & Hopen & Hload & Hinput).
  exact (send_question page_typed page_typed_reachable Hm Hopen Hload Hinput).
Defined.

(** The page is loaded again after the answered send. *)
Lemma page_answered_storage :
  (getConversationHistory (world page_answered)).1
  = Normal (Some [question; reply]) ∧
  items (getSession (world page_answered)).2 = items (world page_answered) ∧
  drawn (getSession (world page_answered)).2 = drawn (world page_answered).
Proof. split; [|split]; vm_compute; reflexivity. Qed.

Lemma reload_shows_the_conversation :
  messages (hooks (mount (initial (world page_answered)))) = [question; reply].
Proof.
  destruct page_answered_storage as (Hread & Hitems & Hdrawn).
  apply (reload_restores_conversation (world page_answered) [question; reply]
           Hread).
  destruct (same_page_getSession (world page_answered))
    as (Hwin & Hden & Hacc & Hclk & Hent & Hpath & Hhost & Hurl).
  destruct (getSession (world page_answered)).2, (world page_answered).
  cbn in *. congruence.
Defined.

(** A blank input. *)
Definition page_blank : App := dispatch (ChangeInput "   ") page_open.

Lemma page_blank_input : inputValue (hooks page_blank) = "   ".
Proof. vm_compute. reflexivity. Qed.

Lemma blank_input_is_ignored :
  dispatch (KeyDown "Enter" false) page_blank = page_blank ∧
  dispatch ClickSend page_blank = page_blank.
Proof.
  destruct (blank_question_is_dropped "   " page_blank) as [_ Hkeys];
    [right; reflexivity|].
  exact (Hkeys page_blank_input).
Defined.

(** X30: a database that holds the statements executed on it. Creating
    what is there already raises 42P07; what is no [CREATE] statement is
    a syntax error. The migration file creates one table twice, then has
    a statement with a typing error, then creates another table. *)
Definition run_sql (statement : string) (db : list string)
  : option Migration.Failure * list string :=
  if existsb (String.eqb statement) db then
    (Some {| Migration.code := Some "42P07";
             Migration.message := "relation already exists" |}, db)
  else if Migration.startsWith statement "CREATE" then
    (None, db ++ [statement])
  else
    (Some {| Migration.code := Some "42601";
             Migration.message := "syntax error" |}, db).

Definition migration_file : string :=
  "CREATE TABLE users; CREATE TABLE users; SELEC 1; CREATE TABLE chats;".

Lemma migration_stops_at_the_syntax_error :
  let run := Migration.runMigration run_sql (Some "postgres://localhost/textbook")
               (inl migration_file) [] in
  Migration.exit_code run = Some 1 ∧ Migration.ended run = false ∧
  Migration.database run = ["CREATE TABLE users"] ∧
  list.last (Migration.console run)
  = Some (Migration.console_error2 "❌ Migration failed:"
            {| Migration.code := Some "42601";
               Migration.message := "syntax error" |}).
Proof.
  exact (proj2 (proj2 (runMigration_outcome run_sql
                         (Some "postgres://localhost/textbook")
                         migration_file []))
           ["CREATE TABLE users"; "CREATE TABLE users"] "SELEC 1"
           ["CREATE TABLE chats"]
           {| Migration.code := Some "42601";
              Migration.message := "syntax error" |}
           eq_refl eq_refl eq_refl eq_refl eq_refl).
Defined.

End Examples.
